(** * PodWeb, the [nasa] blueprint: authentication, lockout and audit trail

    A shallow embedding of [src/nasa/auth.py] and of the [register], [login]
    and [reset_password] routes of [src/nasa/routes.py], followed by the
    properties the specification states about them.

    Python values are modelled as the interpreter has them: a [str] is a
    sequence of Unicode code points, [len] counts code points, a route is a
    computation over the request, the database session, the Flask session
    and the clock, and it either returns a response or raises. *)

From Stdlib Require Import List Bool String Ascii ZArith NArith Lia.
From Stdlib Require Import DecimalString DecimalNat FinFun.
Import ListNotations.

Open Scope N_scope.

(** ** Python strings *)

(** A character is a Unicode code point. *)
Definition char := N.

(** A Python [str]. *)
Definition str := list char.

(** An ASCII literal of the source, as a [str]. *)
Definition lit (s : string) : str :=
  map N_of_ascii (list_ascii_of_string s).

(** [lo <= c <= hi], the regular-expression range [[lo-hi]]. *)
Definition in_range (lo hi c : char) : bool := (lo <=? c) && (c <=? hi).

(** Truth value of a [str]: non-empty. *)
Definition str_truthy (s : str) : bool :=
  match s with [] => false | _ :: _ => true end.

Fixpoint str_eqb (a b : str) : bool :=
  match a, b with
  | [], [] => true
  | x :: a', y :: b' => (x =? y) && str_eqb a' b'
  | _, _ => false
  end.

(** [c in s] for a one-character [c]. *)
Definition char_in (c : char) (s : str) : bool := existsb (N.eqb c) s.

(** The characters [str.strip()] removes: CPython's [_PyUnicode_IsWhitespace]. *)
Definition is_whitespace (c : char) : bool :=
  in_range 9 13 c || in_range 28 32 c || (c =? 133) || (c =? 160) ||
  (c =? 5760) || in_range 8192 8202 c || (c =? 8232) || (c =? 8233) ||
  (c =? 8239) || (c =? 8287) || (c =? 12288).

Fixpoint lstrip (s : str) : str :=
  match s with
  | [] => []
  | c :: s' => if is_whitespace c then lstrip s' else s
  end.

Definition rstrip (s : str) : str := rev (lstrip (rev s)).

(** [s.strip()] *)
Definition strip (s : str) : str := rstrip (lstrip s).

(** [s.split(",")[0]]: the text before the first comma. *)
Fixpoint before_comma (s : str) : str :=
  match s with
  | [] => []
  | c :: s' => if c =? 44 then [] else c :: before_comma s'
  end.

(** The character tables of the interpreter's Unicode database that the
    code consults: [str.isupper], [str.islower] and [str.isdigit] on a
    one-character string, and the class [\d] of the [re] module (decimal
    digits, category Nd). *)
Class UnicodeData := {
  isupper : char -> bool;
  islower : char -> bool;
  isdigit : char -> bool;
  isdecimal : char -> bool
}.

(** What every version of the database says below code point 128. *)
Definition ascii_faithful (U : UnicodeData) : Prop :=
  forall c, c < 128 ->
    isupper c = in_range 65 90 c /\
    islower c = in_range 97 122 c /\
    isdigit c = in_range 48 57 c /\
    isdecimal c = in_range 48 57 c.

(** The database cut down to ASCII: the smallest faithful table. *)
Definition ascii_only : UnicodeData := {|
  isupper := in_range 65 90;
  islower := in_range 97 122;
  isdigit := in_range 48 57;
  isdecimal := in_range 48 57
|}.

(** [str.lower()] of the interpreter. *)
Class UnicodeCase := {
  lower : str -> str
}.

(** [A-Z] to [a-z], every other character as it is. *)
Definition ascii_lower_char (c : char) : char :=
  if in_range 65 90 c then c + 32 else c.

(** What [str.lower()] does on a string of ASCII characters. *)
Definition lower_faithful (C : UnicodeCase) : Prop :=
  forall s, Forall (fun c => c < 128) s -> lower s = map ascii_lower_char s.

(** Lower case on ASCII alone. *)
Definition ascii_case : UnicodeCase := {|
  lower := map ascii_lower_char
|}.

(** [str(n)] and the field [{n}] of an f-string, for a natural number. *)
Definition str_of_nat (n : nat) : str :=
  lit (NilEmpty.string_of_uint (Nat.to_uint n)).

(** ** Dynamically typed values

    The arguments of a positional call, before Python binds them to the
    parameters of the callee. *)

Inductive PyVal :=
| VStr (s : str)
| VBool (b : bool)
| VNone.

(** Truth value, as [if v:] and [v or w] test it. *)
Definition truthy (v : PyVal) : bool :=
  match v with
  | VStr s => str_truthy s
  | VBool b => b
  | VNone => false
  end.

(** [a or b] *)
Definition py_or (a b : PyVal) : PyVal := if truthy a then a else b.

Definition of_option (o : option str) : PyVal :=
  match o with Some s => VStr s | None => VNone end.

(** ** [models.py]: the rows and the methods of [User] *)

Module Models.

(** A row of the user table, with the columns that [routes.py] reads and
    writes. Times are seconds on the UTC clock. *)
Record User := mkUser {
  id : N;
  username : str;
  email : str;
  password_hash : str;
  failed_login_attempts : Z;
  locked_until : option Z;
  is_approved : bool;
  is_active : bool;
  is_admin : bool
}.

(** A row of the login-attempt table: the columns that
    [log_login_attempt] fills, with the values it is called with. *)
Record LoginAttempt := mkLoginAttempt {
  attempt_username : PyVal;
  attempt_ip_address : PyVal;
  attempt_success : PyVal;
  attempt_user_agent : PyVal
}.

Definition set_password_hash (h : str) (u : User) : User :=
  mkUser (id u) (username u) (email u) h (failed_login_attempts u)
         (locked_until u) (is_approved u) (is_active u) (is_admin u).

Definition set_failed_login_attempts (n : Z) (u : User) : User :=
  mkUser (id u) (username u) (email u) (password_hash u) n
         (locked_until u) (is_approved u) (is_active u) (is_admin u).

Definition set_locked_until (t : option Z) (u : User) : User :=
  mkUser (id u) (username u) (email u) (password_hash u)
         (failed_login_attempts u) t (is_approved u) (is_active u) (is_admin u).

Definition set_is_approved (b : bool) (u : User) : User :=
  mkUser (id u) (username u) (email u) (password_hash u)
         (failed_login_attempts u) (locked_until u) b (is_active u)
         (is_admin u).

Definition set_is_admin (b : bool) (u : User) : User :=
  mkUser (id u) (username u) (email u) (password_hash u)
         (failed_login_attempts u) (locked_until u) (is_approved u)
         (is_active u) b.

(** Modelled from the spec: the policy threshold of [models.py], the
    count of failures that locks an account (section 4.2 and glossary:
    10). [login] computes the remaining attempts from the same number. *)
Definition LOCKOUT_THRESHOLD : Z := 10.

(** Modelled from the spec: the length of a lock (section 4.2: thirty
    minutes), in seconds. *)
Definition LOCKOUT_SECONDS : Z := 30 * 60.

(** Modelled from the spec: [User.is_locked] of [models.py], which is not
    among the sources. Section 4.2, [isLocked(account, now)]: true iff
    [lockedUntil] is set and [now < lockedUntil]. *)
Definition is_locked (u : User) (now : Z) : bool :=
  match locked_until u with
  | Some t => (now <? t)%Z
  | None => false
  end.

(** Modelled from the spec: [User.reset_failed_logins] of [models.py].
    Section 4.2, [recordSuccess(account)]: sets [failedLoginCount = 0] and
    clears [lockedUntil]. *)
Definition reset_failed_logins (u : User) : User :=
  set_locked_until None (set_failed_login_attempts 0 u).

(** Modelled from the spec: [User.increment_failed_login] of [models.py].
    Section 4.2, [recordFailure(account, now)]: increments
    [failedLoginCount]; if the post-increment count reaches the threshold
    (10), sets [lockedUntil = now + 30 minutes]. *)
Definition increment_failed_login (u : User) (now : Z) : User :=
  let u := set_failed_login_attempts (failed_login_attempts u + 1) u in
  if (LOCKOUT_THRESHOLD <=? failed_login_attempts u)%Z
  then set_locked_until (Some (now + LOCKOUT_SECONDS)%Z) u
  else u.

End Models.

(** ** What the code takes from outside the repository *)

(** [werkzeug.security] (hashing, with the salt made explicit), the builtin
    [int] on a [str] ([None] for [ValueError]) and the column defaults of
    the user table. *)
Class Externals := {
  generate_password_hash : str -> str -> str;
  check_password_hash : str -> str -> bool;
  py_int : str -> option Z;
  default_is_active : bool;
  default_is_admin : bool
}.

(** ** The request, the world and the computations over it *)

Inductive Method := GET | POST.

Record Request := mkRequest {
  method : Method;
  form : string -> option str;       (* request.form.get *)
  headers : string -> option str;    (* request.headers.get *)
  environ_remote_addr : option str;  (* request.environ.get("REMOTE_ADDR") *)
  remote_addr : option str
}.

(** [request.form.get(key, '')] *)
Definition form_get (req : Request) (key : string) : str :=
  match form req key with Some v => v | None => [] end.

(** A value interpolated into a flashed message. *)
Inductive FArg :=
| AInt (n : Z)
| AStr (s : str)
| ATime (t : Z).

(** A call of [flash]: the message as the source writes it, the values of
    the fields of an f-string in order, and the category. *)
Record Flash := mkFlash {
  flash_text : string;
  flash_args : list FArg;
  flash_category : string
}.

Inductive Response :=
| render_template (name : string)
| redirect (endpoint : string).

(** An object of the SQLAlchemy session that the next commit writes. *)
Inductive Pending :=
| DirtyUser (u : Models.User)
| NewUser (u : Models.User)
| NewAttempt (a : Models.LoginAttempt).

(** What was asked of the database, of the hash check and of the logger, in
    order: a record of the run that the code itself never reads. *)
Inductive Event :=
| EvQueryUsername (name : str)
| EvGetUser (uid : N)
| EvCheckPassword (uid : N)
| EvCommit (ok : bool)
| EvRollback
| EvLogged (msg : string).

Record World := mkWorld {
  users : list Models.User;                   (* committed rows *)
  login_attempts : list Models.LoginAttempt;  (* committed rows, oldest first *)
  pending : list Pending;                     (* db.session, not yet committed *)
  session_user_id : option N;                 (* session['user_id'] *)
  session_username : option str;              (* session['username'] *)
  flashes : list Flash;
  now : Z;                                    (* datetime.utcnow() *)
  commit_faults : list bool;                  (* true: that commit fails *)
  salts : list str;                           (* what the hash will draw *)
  trace : list Event
}.

Inductive Exn :=
| TypeError
| AttributeError
| KeyError
| OperationalError
| NotFound.

Inductive Result (A : Type) :=
| Ok (a : A)
| Raised (e : Exn).
Arguments Ok {A} a.
Arguments Raised {A} e.

(** A computation: reads and changes the world, returns or raises. *)
Definition M (A : Type) : Type := World -> Result A * World.

Definition ret {A} (a : A) : M A := fun w => (Ok a, w).

Definition bind {A B} (m : M A) (k : A -> M B) : M B :=
  fun w => match m w with
           | (Ok a, w') => k a w'
           | (Raised e, w') => (Raised e, w')
           end.

Definition raise {A} (e : Exn) : M A := fun w => (Raised e, w).

(** [try: m  except Exception: h] *)
Definition try_except {A} (m : M A) (h : Exn -> M A) : M A :=
  fun w => match m w with
           | (Ok a, w') => (Ok a, w')
           | (Raised e, w') => h e w'
           end.

Declare Scope py_scope.
Delimit Scope py_scope with py.
Notation "x <- m ;; k" := (bind m (fun x => k))
  (at level 61, m at next level, right associativity) : py_scope.
Notation "m ;; k" := (bind m (fun _ => k))
  (at level 61, right associativity) : py_scope.
Open Scope py_scope.

Definition with_users (us : list Models.User) (w : World) : World :=
  mkWorld us (login_attempts w) (pending w) (session_user_id w)
          (session_username w) (flashes w) (now w) (commit_faults w) (salts w)
          (trace w).

Definition with_login_attempts (l : list Models.LoginAttempt) (w : World) : World :=
  mkWorld (users w) l (pending w) (session_user_id w)
          (session_username w) (flashes w) (now w) (commit_faults w) (salts w)
          (trace w).

Definition with_pending (p : list Pending) (w : World) : World :=
  mkWorld (users w) (login_attempts w) p (session_user_id w)
          (session_username w) (flashes w) (now w) (commit_faults w) (salts w)
          (trace w).

Definition with_session (uid : option N) (name : option str) (w : World) : World :=
  mkWorld (users w) (login_attempts w) (pending w) uid name
          (flashes w) (now w) (commit_faults w) (salts w) (trace w).

Definition with_flashes (f : list Flash) (w : World) : World :=
  mkWorld (users w) (login_attempts w) (pending w) (session_user_id w)
          (session_username w) f (now w) (commit_faults w) (salts w) (trace w).

Definition with_now (t : Z) (w : World) : World :=
  mkWorld (users w) (login_attempts w) (pending w) (session_user_id w)
          (session_username w) (flashes w) t (commit_faults w) (salts w)
          (trace w).

Definition with_commit_faults (f : list bool) (w : World) : World :=
  mkWorld (users w) (login_attempts w) (pending w) (session_user_id w)
          (session_username w) (flashes w) (now w) f (salts w) (trace w).

Definition with_salts (s : list str) (w : World) : World :=
  mkWorld (users w) (login_attempts w) (pending w) (session_user_id w)
          (session_username w) (flashes w) (now w) (commit_faults w) s
          (trace w).

Definition with_trace (t : list Event) (w : World) : World :=
  mkWorld (users w) (login_attempts w) (pending w) (session_user_id w)
          (session_username w) (flashes w) (now w) (commit_faults w) (salts w)
          t.

Definition emit (e : Event) : M unit :=
  fun w => (Ok tt, with_trace (trace w ++ [e]) w).

(** [flash(message, category)] *)
Definition flash (text : string) (args : list FArg) (category : string) : M unit :=
  fun w => (Ok tt, with_flashes (flashes w ++ [mkFlash text args category]) w).

(** [datetime.utcnow()] *)
Definition utcnow : M Z := fun w => (Ok (now w), w).

(** ** The database session *)

Module Db.

Definition find_by_username (name : str) (rows : list Models.User)
  : option Models.User :=
  find (fun u => str_eqb (Models.username u) name) rows.

Definition find_by_email (mail : str) (rows : list Models.User)
  : option Models.User :=
  find (fun u => str_eqb (Models.email u) mail) rows.

Definition find_by_id (uid : N) (rows : list Models.User)
  : option Models.User :=
  find (fun u => Models.id u =? uid) rows.

(** [UPDATE ... WHERE id = u.id] *)
Definition update_row (u : Models.User) (rows : list Models.User)
  : list Models.User :=
  map (fun r => if Models.id r =? Models.id u then u else r) rows.

(** The key an insert assigns: above every key of the table. *)
Definition next_id (rows : list Models.User) : N :=
  N.succ (fold_right (fun r m => N.max (Models.id r) m) 0 rows).

Definition with_id (uid : N) (u : Models.User) : Models.User :=
  Models.mkUser uid (Models.username u) (Models.email u)
                (Models.password_hash u) (Models.failed_login_attempts u)
                (Models.locked_until u) (Models.is_approved u)
                (Models.is_active u) (Models.is_admin u).

(** Writes one object of the session to the tables. *)
Definition write (p : Pending) (w : World) : World :=
  match p with
  | DirtyUser u => with_users (update_row u (users w)) w
  | NewUser u => with_users (users w ++ [with_id (next_id (users w)) u]) w
  | NewAttempt a => with_login_attempts (login_attempts w ++ [a]) w
  end.

(** Writes the session, oldest object first. *)
Definition flush (w : World) : World :=
  with_pending [] (fold_left (fun w p => write p w) (pending w) w).

(** [User.query.filter_by(username=name).first()] *)
Definition query_by_username (name : str) : M (option Models.User) :=
  emit (EvQueryUsername name) ;;
  fun w => (Ok (find_by_username name (users w)), w).

(** [User.query.filter_by(email=mail).first()] *)
Definition query_by_email (mail : str) : M (option Models.User) :=
  fun w => (Ok (find_by_email mail (users w)), w).

(** [User.query.get(uid)] *)
Definition get (uid : N) : M (option Models.User) :=
  emit (EvGetUser uid) ;;
  fun w => (Ok (find_by_id uid (users w)), w).

(** [User.query.get_or_404(uid)] *)
Definition get_or_404 (uid : N) : M Models.User :=
  o <- get uid ;;
  match o with Some u => ret u | None => raise NotFound end.

(** [db.session.add(obj)], and an attribute assignment on a loaded row. *)
Definition add (p : Pending) : M unit :=
  fun w => (Ok tt, with_pending (pending w ++ [p]) w).

(** [db.session.commit()]: all of the session is written, or none of it
    and the commit raises. *)
Definition commit : M unit :=
  fun w =>
    match commit_faults w with
    | true :: rest =>
        (Raised OperationalError,
         with_trace (trace w ++ [EvCommit false]) (with_commit_faults rest w))
    | _ =>
        (Ok tt,
         with_trace (trace w ++ [EvCommit true])
           (with_commit_faults (tl (commit_faults w)) (flush w)))
    end.

(** [db.session.rollback()] *)
Definition rollback : M unit :=
  fun w => (Ok tt, with_trace (trace w ++ [EvRollback]) (with_pending [] w)).

End Db.

(** ** [auth.py] *)

Module Auth.
Section Policy.
Context {U : UnicodeData}.

(** [bool(re.search(r'[A-Z]', password))] *)
Definition has_upper (password : str) : bool :=
  existsb (in_range 65 90) password.

(** [bool(re.search(r'[a-z]', password))] *)
Definition has_lower (password : str) : bool :=
  existsb (in_range 97 122) password.

(** [bool(re.search(r'\d', password))] *)
Definition has_digit (password : str) : bool :=
  existsb isdecimal password.

(** [bool(re.search(r'[^A-Za-z0-9]', password))] *)
Definition has_symbol (password : str) : bool :=
  existsb (fun c => negb (in_range 65 90 c || in_range 97 122 c || in_range 48 57 c))
          password.

Definition too_short_message : string :=
  "Password must be at least 16 characters long".

Definition complexity_message : string :=
  "Password must contain at least 3 of: uppercase, lowercase, number, symbol".

(** [validate_password(password)], returning [(is_valid, error_message)]. *)
Definition validate_password (password : str) : bool * string :=
  if (List.length password <? 16)%nat then (false, too_short_message)
  else
    let categories := 0%nat in
    let categories := if has_upper password then S categories else categories in
    let categories := if has_lower password then S categories else categories in
    let categories := if has_digit password then S categories else categories in
    let categories := if has_symbol password then S categories else categories in
    if (categories <? 3)%nat then (false, complexity_message)
    else (true, ""%string).

(** How many of the four category flags hold. *)
Definition categories_present (password : str) : nat :=
  (Nat.b2n (has_upper password) + Nat.b2n (has_lower password) +
   Nat.b2n (has_digit password) + Nat.b2n (has_symbol password))%nat.
End Policy.

Section Audit.
Variable request : Request.

(** [get_client_ip()]: the first of the proxy headers that is set and not
    empty, up to its first comma and stripped; else the address of the
    connection. *)
Definition get_client_ip : PyVal :=
  let fix scan (names : list string) : PyVal :=
    match names with
    | [] => py_or (of_option (environ_remote_addr request))
                  (of_option (remote_addr request))
    | h :: names' =>
        let v := of_option (headers request h) in
        match v with
        | VStr s => if truthy v then VStr (strip (before_comma s)) else scan names'
        | _ => scan names'
        end
    end in
  scan ["X-Real-Ip"; "X-Real-IP"; "X-Forwarded-For"; "X-MS-Forwarded-Client-IP"]%string.

(** [request.headers.get('User-Agent', '')[:255]] *)
Definition header_user_agent : PyVal :=
  VStr (firstn 255 (match headers request "User-Agent" with
                    | Some v => v
                    | None => []
                    end)).

(** The body of [log_login_attempt], its parameters bound. *)
Definition log_login_attempt_body (username success user_agent : PyVal) : M unit :=
  try_except
    (let attempt :=
       Models.mkLoginAttempt username get_client_ip success
                             (py_or user_agent header_user_agent) in
     Db.add (NewAttempt attempt) ;;
     Db.commit)
    (fun _ =>
       emit (EvLogged "Failed to log login attempt") ;;
       Db.rollback).

(** A positional call of
    [def log_login_attempt(username, success, user_agent=None)]:
    two or three arguments bind, any other number is a [TypeError] raised
    before the body runs. *)
Definition log_login_attempt (args : list PyVal) : M unit :=
  match args with
  | [username; success] => log_login_attempt_body username success VNone
  | [username; success; user_agent] =>
      log_login_attempt_body username success user_agent
  | _ => raise TypeError
  end.
End Audit.
End Auth.

(** ** [routes.py] *)

Module Routes.
Section Routes.
Context {U : UnicodeData} {E : Externals}.

(** The symbols of the inline strength checks. *)
Definition SYMBOLS : str := lit "!@#$%^&*()_+-=[]{}|;:,.<>?".

(** The strength check written out in [register]: [None] when the
    password passes, else the message that is flashed. *)
Definition register_password_check (password : str) : option string :=
  if (List.length password <? 16)%nat
  then Some "Password must be at least 16 characters long."%string
  else
    let complexity_count := 0%nat in
    let complexity_count :=
      if existsb isupper password then S complexity_count else complexity_count in
    let complexity_count :=
      if existsb islower password then S complexity_count else complexity_count in
    let complexity_count :=
      if existsb isdigit password then S complexity_count else complexity_count in
    let complexity_count :=
      if existsb (fun c => char_in c SYMBOLS) password
      then S complexity_count else complexity_count in
    if (complexity_count <? 3)%nat
    then Some "Password must contain at least 3 of: uppercase, lowercase, number, symbol."%string
    else None.

(** The same check as [reset_password] writes it out. *)
Definition reset_password_check (new_password : str) : option string :=
  if (List.length new_password <? 16)%nat
  then Some "Password must be at least 16 characters long."%string
  else
    let complexity_count := 0%nat in
    let complexity_count :=
      if existsb isupper new_password then S complexity_count else complexity_count in
    let complexity_count :=
      if existsb islower new_password then S complexity_count else complexity_count in
    let complexity_count :=
      if existsb isdigit new_password then S complexity_count else complexity_count in
    let complexity_count :=
      if existsb (fun c => char_in c SYMBOLS) new_password
      then S complexity_count else complexity_count in
    if (complexity_count <? 3)%nat
    then Some "Password must contain at least 3 of: uppercase, lowercase, number, symbol."%string
    else None.

(** [generate_password_hash(password)], the salt drawn from the world. *)
Definition hash_password (password : str) : M str :=
  fun w => (Ok (generate_password_hash (hd [] (salts w)) password),
            with_salts (tl (salts w)) w).

(** Modelled from the spec: [User.check_password] of [models.py], which
    is not among the sources. Section 4.2, [verify(account, plaintext)]:
    compares against [passwordHash]; returns false, and never raises, on
    mismatch. *)
Definition check_password (user : Models.User) (password : str) : M bool :=
  emit (EvCheckPassword (Models.id user)) ;;
  ret (check_password_hash (Models.password_hash user) password).

(** [user.is_locked()], at the time of the call. *)
Definition is_locked (user : Models.User) : M bool :=
  t <- utcnow ;; ret (Models.is_locked user t).

(** [user.reset_failed_logins()]: the row is changed in the session. *)
Definition reset_failed_logins (user : Models.User) : M Models.User :=
  let user := Models.reset_failed_logins user in
  Db.add (DirtyUser user) ;; ret user.

(** [user.increment_failed_login()] *)
Definition increment_failed_login (user : Models.User) : M Models.User :=
  t <- utcnow ;;
  let user := Models.increment_failed_login user t in
  Db.add (DirtyUser user) ;; ret user.

(** [session['user_id'] = uid; session['username'] = name] *)
Definition set_session (uid : N) (name : str) : M unit :=
  fun w => (Ok tt, with_session (Some uid) (Some name) w).

(** The route [/login]. *)
Definition login (request : Request) : M Response :=
  match method request with
  | POST =>
      let username := strip (form_get request "username") in
      let password := form_get request "password" in
      let client_ip := Auth.get_client_ip request in
      if negb (str_truthy username) || negb (str_truthy password) then
        flash "Username and password are required." [] "danger" ;;
        ret (render_template "nasa_login.html")
      else
        user <- Db.query_by_username username ;;
        match user with
        | None =>
            Auth.log_login_attempt request
              [VStr username; client_ip; VBool false; VStr (lit "User not found")] ;;
            flash "Invalid username or password." [] "danger" ;;
            ret (render_template "nasa_login.html")
        | Some user =>
            if negb (Models.is_approved user) then
              Auth.log_login_attempt request
                [VStr username; client_ip; VBool false;
                 VStr (lit "Account pending approval")] ;;
              flash "Your account is pending admin approval." [] "warning" ;;
              ret (render_template "nasa_login.html")
            else
              locked <- is_locked user ;;
              if locked then
                match Models.locked_until user with
                | Some t =>
                    flash "Account is locked due to too many failed attempts. Try again after {user.locked_until.strftime('%I:%M %p')}"
                          [ATime t] "danger" ;;
                    ret (render_template "nasa_login.html")
                | None => raise AttributeError
                end
              else
                ok <- check_password user password ;;
                if ok then
                  user <- reset_failed_logins user ;;
                  Db.commit ;;
                  set_session (Models.id user) (Models.username user) ;;
                  Auth.log_login_attempt request [VStr username; VBool true] ;;
                  flash "Welcome back, {user.username}!"
                        [AStr (Models.username user)] "success" ;;
                  ret (redirect "nasa_bp.dashboard")
                else
                  user <- increment_failed_login user ;;
                  Db.commit ;;
                  Auth.log_login_attempt request [VStr username; VBool false] ;;
                  let remaining := (10 - Models.failed_login_attempts user)%Z in
                  (if (remaining >? 0)%Z then
                     flash "Invalid password. {remaining} attempts remaining before lockout."
                           [AInt remaining] "danger"
                   else
                     flash "Account locked for 30 minutes due to too many failed attempts."
                           [] "danger") ;;
                  ret (render_template "nasa_login.html")
        end
  | GET => ret (render_template "nasa_login.html")
  end.

(** The route [/register]. *)
Definition register (request : Request) : M Response :=
  match method request with
  | POST =>
      let username := strip (form_get request "username") in
      let email := strip (form_get request "email") in
      let password := form_get request "password" in
      let password_confirm := form_get request "password_confirm" in
      let captcha_user := strip (form_get request "captcha") in
      let captcha_answer := strip (form_get request "captcha_answer") in
      let again := ret (render_template "nasa_register.html") in
      if negb (str_truthy captcha_user) || negb (str_truthy captcha_answer) then
        flash "Please complete the security check." [] "danger" ;; again
      else
        match py_int captcha_user, py_int captcha_answer with
        | Some a, Some b =>
            if negb (a =? b)%Z then
              flash "Incorrect answer to security question." [] "danger" ;; again
            else if negb (str_truthy username) || negb (str_truthy email)
                    || negb (str_truthy password) then
              flash "All fields are required." [] "danger" ;; again
            else if negb (str_eqb password password_confirm) then
              flash "Passwords do not match." [] "danger" ;; again
            else
              match register_password_check password with
              | Some message => flash message [] "danger" ;; again
              | None =>
                  taken <- Db.query_by_username username ;;
                  match taken with
                  | Some _ => flash "Username already taken." [] "danger" ;; again
                  | None =>
                      known <- Db.query_by_email email ;;
                      match known with
                      | Some _ =>
                          flash "Email already registered." [] "danger" ;; again
                      | None =>
                          hashed_password <- hash_password password ;;
                          let new_user :=
                            Models.mkUser 0 username email hashed_password 0 None
                                          false default_is_active default_is_admin in
                          try_except
                            (Db.add (NewUser new_user) ;;
                             Db.commit ;;
                             flash "Registration successful! Your account is pending admin approval."
                                   [] "success" ;;
                             ret (redirect "nasa_bp.login"))
                            (fun _ =>
                               Db.rollback ;;
                               emit (EvLogged "Registration error: {e}") ;;
                               flash "Registration failed. Please try again." [] "danger" ;;
                               again)
                      end
                  end
              end
        | _, _ => flash "Invalid security answer." [] "danger" ;; again
        end
  | GET => ret (render_template "nasa_register.html")
  end.

(** [session.get('user_id')] *)
Definition session_get_user_id : M (option N) :=
  fun w => (Ok (session_user_id w), w).

(** The decorator [login_required]. *)
Definition login_required (f : M Response) : M Response :=
  sid <- session_get_user_id ;;
  match sid with
  | None =>
      flash "Please log in to access this page." [] "warning" ;;
      ret (redirect "nasa_bp.login")
  | Some _ => f
  end.

(** The route [/admin/user/<int:user_id>/reset_password]. *)
Definition reset_password (user_id : N) (request : Request) : M Response :=
  login_required
    (sid <- session_get_user_id ;;
     user <- match sid with
             | Some uid => Db.get uid
             | None => raise KeyError
             end ;;
     if match user with
        | Some u => negb (Models.is_admin u)
        | None => true
        end
     then
       flash "Access denied. Admin privileges required." [] "danger" ;;
       ret (redirect "nasa_bp.index")
     else
       target_user <- Db.get_or_404 user_id ;;
       let new_password := of_option (form request "new_password") in
       let confirm_password := of_option (form request "confirm_password") in
       match new_password, confirm_password with
       | VStr new_password, VStr confirm_password =>
           if negb (str_truthy new_password)
              || negb (str_truthy confirm_password) then
             flash "Both password fields are required." [] "danger" ;;
             ret (redirect "nasa_bp.admin")
           else if negb (str_eqb new_password confirm_password) then
             flash "Passwords do not match." [] "danger" ;;
             ret (redirect "nasa_bp.admin")
           else
             match reset_password_check new_password with
             | Some message =>
                 flash message [] "danger" ;; ret (redirect "nasa_bp.admin")
             | None =>
                 new_hash <- hash_password new_password ;;
                 let target_user :=
                   Models.set_password_hash new_hash target_user in
                 let target_user :=
                   Models.set_failed_login_attempts 0 target_user in
                 let target_user :=
                   Models.set_locked_until None target_user in
                 Db.add (DirtyUser target_user) ;;
                 try_except
                   (Db.commit ;;
                    flash "Password reset successfully for {target_user.username}."
                          [AStr (Models.username target_user)] "success")
                   (fun _ =>
                      Db.rollback ;;
                      emit (EvLogged "Error resetting password: {e}") ;;
                      flash "An error occurred while resetting the password."
                            [] "danger") ;;
                 ret (redirect "nasa_bp.admin")
             end
       | _, _ =>
           flash "Both password fields are required." [] "danger" ;;
           ret (redirect "nasa_bp.admin")
       end).
(** [session.clear()]: every key of the session goes, the flashed messages
    that wait in it too. *)
Definition session_clear : M unit :=
  fun w => (Ok tt, with_flashes [] (with_session None None w)).

(** The route [/logout]. *)
Definition logout : M Response :=
  session_clear ;;
  flash "You have been logged out." [] "info" ;;
  ret (redirect "nasa_bp.index").

(** [request.form.get(key) == 'on'] *)
Definition form_on (request : Request) (key : string) : bool :=
  match form request key with
  | Some v => str_eqb v (lit "on")
  | None => false
  end.

(** The route [/admin/user/<int:user_id>/approve]. *)
Definition approve_user (user_id : N) : M Response :=
  login_required
    (sid <- session_get_user_id ;;
     user <- match sid with
             | Some uid => Db.get uid
             | None => raise KeyError
             end ;;
     if match user with
        | Some u => negb (Models.is_admin u)
        | None => true
        end
     then
       flash "Access denied. Admin privileges required." [] "danger" ;;
       ret (redirect "nasa_bp.index")
     else
       target_user <- Db.get_or_404 user_id ;;
       let target_user := Models.set_is_approved true target_user in
       Db.add (DirtyUser target_user) ;;
       Db.commit ;;
       flash "User {target_user.username} has been approved."
             [AStr (Models.username target_user)] "success" ;;
       ret (redirect "nasa_bp.admin")).

(** The route [/admin/user/<int:user_id>/toggle_admin]. *)
Definition toggle_admin (user_id : N) : M Response :=
  login_required
    (sid <- session_get_user_id ;;
     user <- match sid with
             | Some uid => Db.get uid
             | None => raise KeyError
             end ;;
     match user with
     | Some user =>
         if negb (Models.is_admin user) then
           flash "Access denied. Admin privileges required." [] "danger" ;;
           ret (redirect "nasa_bp.index")
         else
           target_user <- Db.get_or_404 user_id ;;
           if Models.id target_user =? Models.id user then
             flash "You cannot change your own admin status." [] "warning" ;;
             ret (redirect "nasa_bp.admin")
           else
             let target_user :=
               Models.set_is_admin (negb (Models.is_admin target_user))
                                   target_user in
             Db.add (DirtyUser target_user) ;;
             Db.commit ;;
             let status :=
               if Models.is_admin target_user then lit "granted"
               else lit "revoked" in
             flash "Admin privileges {status} for {target_user.username}."
                   [AStr status; AStr (Models.username target_user)]
                   "success" ;;
             ret (redirect "nasa_bp.admin")
     | None =>
         flash "Access denied. Admin privileges required." [] "danger" ;;
         ret (redirect "nasa_bp.index")
     end).

(** The strength check as [add_user] writes it out. *)
Definition add_user_password_check (password : str) : option string :=
  if (List.length password <? 16)%nat
  then Some "Password must be at least 16 characters long."%string
  else
    let complexity_count := 0%nat in
    let complexity_count :=
      if existsb isupper password then S complexity_count else complexity_count in
    let complexity_count :=
      if existsb islower password then S complexity_count else complexity_count in
    let complexity_count :=
      if existsb isdigit password then S complexity_count else complexity_count in
    let complexity_count :=
      if existsb (fun c => char_in c SYMBOLS) password
      then S complexity_count else complexity_count in
    if (complexity_count <? 3)%nat
    then Some "Password must contain at least 3 of: uppercase, lowercase, number, symbol."%string
    else None.

(** A double quote, for the messages that hold one. *)
Definition dq : string := String (Ascii.ascii_of_nat 34) EmptyString.

(** The route [/admin/user/add]. *)
Definition add_user (request : Request) : M Response :=
  login_required
    (sid <- session_get_user_id ;;
     user <- match sid with
             | Some uid => Db.get uid
             | None => raise KeyError
             end ;;
     if match user with
        | Some u => negb (Models.is_admin u)
        | None => true
        end
     then
       flash "Access denied. Admin privileges required." [] "danger" ;;
       ret (redirect "nasa_bp.index")
     else
       let username := strip (form_get request "username") in
       let email := strip (form_get request "email") in
       let password := form_get request "password" in
       let confirm_password := form_get request "confirm_password" in
       let is_active := form_on request "is_active" in
       let is_admin := form_on request "is_admin" in
       let is_approved := form_on request "is_approved" in
       if negb (str_truthy username) || negb (str_truthy email)
          || negb (str_truthy password) then
         flash "Username, email, and password are required." [] "danger" ;;
         ret (redirect "nasa_bp.admin")
       else if negb (str_eqb password confirm_password) then
         flash "Passwords do not match." [] "danger" ;;
         ret (redirect "nasa_bp.admin")
       else
         match add_user_password_check password with
         | Some message =>
             flash message [] "danger" ;; ret (redirect "nasa_bp.admin")
         | None =>
             taken <- Db.query_by_username username ;;
             match taken with
             | Some _ =>
                 flash ("Username " ++ dq ++ "{username}" ++ dq
                        ++ " already exists.")%string
                       [AStr username] "danger" ;;
                 ret (redirect "nasa_bp.admin")
             | None =>
                 known <- Db.query_by_email email ;;
                 match known with
                 | Some _ =>
                     flash ("Email " ++ dq ++ "{email}" ++ dq
                            ++ " is already registered.")%string
                           [AStr email] "danger" ;;
                     ret (redirect "nasa_bp.admin")
                 | None =>
                     password_hash <- hash_password password ;;
                     let new_user :=
                       Models.mkUser 0 username email password_hash 0 None
                                     is_approved is_active is_admin in
                     try_except
                       (Db.add (NewUser new_user) ;;
                        Db.commit ;;
                        flash "User {username} has been created successfully."
                              [AStr username] "success")
                       (fun _ =>
                          Db.rollback ;;
                          emit (EvLogged "Error creating user: {e}") ;;
                          flash "An error occurred while creating the user."
                                [] "danger") ;;
                     ret (redirect "nasa_bp.admin")
                 end
             end
         end).

(** The stored excerpt of [new_post]:
    [excerpt[:500] if excerpt else content[:200] + '...']. *)
Definition post_excerpt (excerpt content : str) : str :=
  if str_truthy excerpt then firstn 500 excerpt
  else firstn 200 content ++ lit "...".

(** The candidate that the slug loop of [new_post] tries after
    [counter - 1] collisions: [f"{base_slug}-{counter}"]. *)
Definition numbered_slug (base_slug : str) (counter : nat) : str :=
  base_slug ++ lit "-" ++ str_of_nat counter.

(** [BlogPost.query.filter_by(slug=slug).first()] as a truth value, on
    the slugs of the posts table. *)
Definition slug_taken (slugs : list str) (slug : str) : bool :=
  existsb (str_eqb slug) slugs.

(** The loop of [new_post] that looks for a free slug, from the state
    [(slug, counter)], for at most [fuel] tests of the table. *)
Fixpoint slug_loop (fuel : nat) (slugs : list str) (base_slug slug : str)
         (counter : nat) : option str :=
  match fuel with
  | O => None
  | S fuel' =>
      if slug_taken slugs slug
      then slug_loop fuel' slugs base_slug
                     (numbered_slug base_slug counter) (S counter)
      else Some slug
  end.

(** [slug = base_slug; counter = 1; while ...] *)
Definition unique_slug (fuel : nat) (slugs : list str) (base_slug : str)
  : option str :=
  slug_loop fuel slugs base_slug base_slug 1.
End Routes.

Section Files.
Context {C : UnicodeCase}.

(** [ALLOWED_EXTENSIONS] *)
Definition ALLOWED_EXTENSIONS : list str :=
  [lit "png"; lit "jpg"; lit "jpeg"; lit "gif"; lit "webp"].

(** The characters before the first dot. *)
Fixpoint before_dot (s : str) : str :=
  match s with
  | [] => []
  | c :: s' => if c =? 46 then [] else c :: before_dot s'
  end.

(** [s.rsplit('.', 1)[1]] for an [s] that holds a dot: what follows its
    last dot. *)
Definition after_last_dot (s : str) : str := rev (before_dot (rev s)).

(** [allowed_file(filename)] *)
Definition allowed_file (filename : str) : bool :=
  char_in 46 filename &&
  existsb (str_eqb (lower (after_last_dot filename))) ALLOWED_EXTENSIONS.
End Files.
End Routes.

(** ** Vocabulary of the properties *)

(** A POST of the login form whose username, stripped, is [name] and whose
    password is [password], neither of them empty. *)
Definition Submits (request : Request) (name password : str) : Prop :=
  method request = POST /\
  strip (form_get request "username") = name /\
  form_get request "password" = password /\
  str_truthy name = true /\
  str_truthy password = true.

(** The next commit does not fail. *)
Definition next_commit_ok (w : World) : Prop :=
  hd false (commit_faults w) = false.

(** The commit after the next one, which in the password branch of [login]
    is the one of the audit row, does not fail. *)
Definition audit_commit_ok (w : World) : Prop :=
  hd false (tl (commit_faults w)) = false.

(** The row that [log_login_attempt(username, success)] inserts. *)
Definition audit_record (request : Request) (name : str) (success : bool)
  : Models.LoginAttempt :=
  Models.mkLoginAttempt (VStr name) (Auth.get_client_ip request) (VBool success)
                        (Auth.header_user_agent request).

(** The world after [log_login_attempt_body] wrote the row [a]: with the
    row when the commit goes through, rolled back when it does not. *)
Definition after_audit (a : Models.LoginAttempt) (w : World) : World :=
  match commit_faults w with
  | true :: rest =>
      with_trace (trace w ++ [EvCommit false;
                              EvLogged "Failed to log login attempt";
                              EvRollback])
        (with_pending [] (with_commit_faults rest w))
  | _ =>
      with_trace (trace w ++ [EvCommit true])
        (with_commit_faults (tl (commit_faults w))
           (Db.flush (with_pending (pending w ++ [NewAttempt a]) w)))
  end.

(** The proxy headers that [get_client_ip] reads, in its order. *)
Definition PROXY_HEADERS : list string :=
  ["X-Real-Ip"; "X-Real-IP"; "X-Forwarded-For"; "X-MS-Forwarded-Client-IP"]%string.

(** The scan of [get_client_ip] over a list of header names. *)
Fixpoint first_header (request : Request) (names : list string) : PyVal :=
  match names with
  | [] => py_or (of_option (environ_remote_addr request))
                (of_option (remote_addr request))
  | h :: names' =>
      let v := of_option (headers request h) in
      match v with
      | VStr s =>
          if truthy v then VStr (strip (before_comma s))
          else first_header request names'
      | _ => first_header request names'
      end
  end.

(** The header is absent or empty. *)
Definition header_unset (request : Request) (h : string) : Prop :=
  headers request h = None \/ headers request h = Some [].

(** Neither the first nor the last character is whitespace. *)
Definition no_outer_whitespace (s : str) : Prop :=
  (forall c, hd_error s = Some c -> is_whitespace c = false) /\
  (forall c, hd_error (rev s) = Some c -> is_whitespace c = false).

(** The session belongs to nobody, to a deleted user, or to a user who is
    no administrator. *)
Definition not_admin (w : World) : Prop :=
  match session_user_id w with
  | None => True
  | Some uid =>
      match Db.find_by_id uid (users w) with
      | None => True
      | Some u => Models.is_admin u = false
      end
  end.

(** The row that the session names is missing or no administrator's. *)
Definition no_rights (o : option Models.User) : Prop :=
  match o with Some u => Models.is_admin u = false | None => True end.

(** What of a user row a login must leave alone: everything but the
    counter and the lock. *)
Definition identity_of (u : Models.User)
  : N * str * str * str * bool * bool * bool :=
  (Models.id u, Models.username u, Models.email u, Models.password_hash u,
   Models.is_approved u, Models.is_active u, Models.is_admin u).

(** The hash check accepts the password that a hash was made of, with
    whatever salt. *)
Definition hash_round_trip (E : Externals) : Prop :=
  forall salt password,
    check_password_hash (generate_password_hash salt password) password = true.


(** The computation answered [response] with the message [f] flashed and
    touched neither the tables, nor the session of the database, nor the
    login session. *)
Definition turned_away (m : M Response) (w : World) (response : Response)
           (f : Flash) : Prop :=
  exists w',
    m w = (Ok response, w') /\
    users w' = users w /\
    login_attempts w' = login_attempts w /\
    pending w' = pending w /\
    session_user_id w' = session_user_id w /\
    session_username w' = session_username w /\
    flashes w' = flashes w ++ [f].

(** The flash of [login_required] and the flash of the administrator
    check. *)
Definition please_log_in : Flash :=
  mkFlash "Please log in to access this page." [] "warning".

Definition access_denied : Flash :=
  mkFlash "Access denied. Admin privileges required." [] "danger".

(** No audit row waits in the session. *)
Definition no_attempt_pending (w : World) : Prop :=
  forall a, ~ In (NewAttempt a) (pending w).

(** A computation that writes no audit row and leaves none in the session. *)
Definition keeps_audit_log {A} (m : M A) : Prop :=
  forall w, no_attempt_pending w ->
            login_attempts (snd (m w)) = login_attempts w /\
            no_attempt_pending (snd (m w)).

(** The flash of the lock branch of [login]. *)
Definition locked_flash (t : Z) : Flash :=
  mkFlash "Account is locked due to too many failed attempts. Try again after {user.locked_until.strftime('%I:%M %p')}"
          [ATime t] "danger".

(** The flash of the validation branch of [login]. *)
Definition required_flash : Flash :=
  mkFlash "Username and password are required." [] "danger".

(** The characters on which the inline checks and [validate_password]
    classify alike: ASCII letters and digits and the listed symbols. *)
Definition policy_char (c : char) : bool :=
  in_range 65 90 c || in_range 97 122 c || in_range 48 57 c ||
  char_in c Routes.SYMBOLS.

Section Runs.
Context {U : UnicodeData} {E : Externals}.

(** A login request for [name], handled at time [fst a], with a password
    that does not verify against the hash of [u], at a time when [u] is
    not locked. *)
Definition WrongAttempt (name : str) (u : Models.User) (a : Z * Request)
  : Prop :=
  exists password,
    Submits (snd a) name password /\
    check_password_hash (Models.password_hash u) password = false /\
    Models.is_locked u (fst a) = false.

(** A POST of the registration form with every field filled in, the
    two passwords equal and passing the strength check of the route, and
    the two captcha fields reading as the same integer. *)
Definition Registers (request : Request) (name mail password : str) : Prop :=
  method request = POST /\
  strip (form_get request "username") = name /\
  strip (form_get request "email") = mail /\
  form_get request "password" = password /\
  form_get request "password_confirm" = password /\
  str_truthy name = true /\
  str_truthy mail = true /\
  Routes.register_password_check password = None /\
  str_truthy (strip (form_get request "captcha")) = true /\
  str_truthy (strip (form_get request "captcha_answer")) = true /\
  exists a, py_int (strip (form_get request "captcha")) = Some a /\
            py_int (strip (form_get request "captcha_answer")) = Some a.

(** The row that [register] hands to the session for such a form. *)
Definition registered (name mail password salt : str) : Models.User :=
  Models.mkUser 0 name mail (generate_password_hash salt password) 0 None
                false default_is_active default_is_admin.

(** A form of the admin page for a new account with every field filled
    in, the two passwords equal and passing the strength check of the
    route. *)
Definition Adds (request : Request) (name mail password : str) : Prop :=
  strip (form_get request "username") = name /\
  strip (form_get request "email") = mail /\
  form_get request "password" = password /\
  form_get request "confirm_password" = password /\
  str_truthy name = true /\
  str_truthy mail = true /\
  Routes.add_user_password_check password = None.

(** The row that [add_user] hands to the session for such a form. *)
Definition added (request : Request) (name mail password salt : str)
  : Models.User :=
  Models.mkUser 0 name mail (generate_password_hash salt password) 0 None
                (Routes.form_on request "is_approved")
                (Routes.form_on request "is_active")
                (Routes.form_on request "is_admin").

(** The session is an administrator's. *)
Definition admin_session (w : World) : Prop :=
  exists aid admin,
    session_user_id w = Some aid /\
    Db.find_by_id aid (users w) = Some admin /\
    Models.is_admin admin = true.

(** The world after a login request handled at time [t]. *)
Definition attempt_at (t : Z) (request : Request) (w : World) : World :=
  snd (Routes.login request (with_now t w)).

(** The world after a sequence of login requests, each at its time. *)
Fixpoint run_attempts (attempts : list (Z * Request)) (w : World) : World :=
  match attempts with
  | [] => w
  | (t, request) :: rest => run_attempts rest (attempt_at t request w)
  end.
End Runs.

(** ** Sample data *)

Module Sample.

(** Stand-ins for the outside: the hash is the plain text, [int] reads
    nothing. *)
Definition externals : Externals := {|
  generate_password_hash := fun _ password => password;
  check_password_hash := fun h password => str_eqb h password;
  py_int := fun _ => None;
  default_is_active := true;
  default_is_admin := false
|}.

Definition alice : Models.User :=
  Models.mkUser 1 (lit "alice") (lit "alice@example.org")
                (lit "Correct-Horse-42-Battery") 0 None true true false.

Definition root : Models.User :=
  Models.mkUser 2 (lit "root") (lit "root@example.org")
                (lit "Staple-Battery-77-Horse") 0 None true true true.

(** [alice] after ten failures, the last at time 1000. *)
Definition alice_locked : Models.User :=
  Models.set_locked_until (Some 2800%Z)
    (Models.set_failed_login_attempts 10 alice).

(** [alice] locked until a time far away. *)
Definition alice_locked_for_long : Models.User :=
  Models.set_locked_until (Some 4000000000%Z)
    (Models.set_failed_login_attempts 25 alice).

(** [alice] with seven failures and a lock that ran out at time 500. *)
Definition alice_shaky : Models.User :=
  Models.set_locked_until (Some 500%Z)
    (Models.set_failed_login_attempts 7 alice).

Definition world (rows : list Models.User) (t : Z) : World :=
  mkWorld rows [] [] None None [] t [] [] [].

Definition post (fields : list (string * str)) : Request :=
  mkRequest POST
    (fun key => option_map snd
                  (find (fun kv => String.eqb (fst kv) key) fields))
    (fun _ => None) None (Some (lit "203.0.113.7")).

Definition login_form (name password : string) : Request :=
  post [("username"%string, lit name); ("password"%string, lit password)].

Definition reset_form (password : string) : Request :=
  post [("new_password"%string, lit password);
        ("confirm_password"%string, lit password)].

(** Nine wrong guesses for [alice], ten seconds apart from time 1000. *)
Definition nine_guesses : list (Z * Request) :=
  map (fun t => (t, login_form "alice" "not the password"))
      [1000; 1010; 1020; 1030; 1040; 1050; 1060; 1070; 1080]%Z.

(** The session of the administrator [root]. *)
Definition as_root (w : World) : World := with_session (Some 2) (Some (lit "root")) w.

(** [bob] has registered and waits for approval. *)
Definition bob : Models.User :=
  Models.mkUser 3 (lit "bob") (lit "bob@example.org")
                (lit "Battery-Staple-19-Correct") 0 None false true false.

(** The session of [alice], who is no administrator. *)
Definition as_alice (w : World) : World :=
  with_session (Some 1) (Some (lit "alice")) w.

(** A request that came through a proxy. *)
Definition proxied (header : string) (value : string) : Request :=
  mkRequest POST (fun _ => None)
    (fun h => if String.eqb h header then Some (lit value) else None)
    (Some (lit "10.0.0.1")) (Some (lit "10.0.0.1")).

(** A stand-in for [int] that reads plain decimal digits. *)
Fixpoint digits_value (acc : Z) (s : str) : option Z :=
  match s with
  | [] => Some acc
  | c :: s' =>
      if in_range 48 57 c
      then digits_value (acc * 10 + Z.of_N (c - 48))%Z s'
      else None
  end.

Definition read_int (s : str) : option Z :=
  match s with [] => None | _ => digits_value 0 s end.

Definition externals_with_int : Externals := {|
  generate_password_hash := fun _ password => password;
  check_password_hash := fun h password => str_eqb h password;
  py_int := read_int;
  default_is_active := true;
  default_is_admin := false
|}.

Definition register_form (name mail password captcha answer : string)
  : Request :=
  post [("username"%string, lit name); ("email"%string, lit mail);
        ("password"%string, lit password);
        ("password_confirm"%string, lit password);
        ("captcha"%string, lit captcha);
        ("captcha_answer"%string, lit answer)].

(** The form of the admin page for a new, approved account. *)
Definition add_user_form (name mail password : string) : Request :=
  post [("username"%string, lit name); ("email"%string, lit mail);
        ("password"%string, lit password);
        ("confirm_password"%string, lit password);
        ("is_active"%string, lit "on");
        ("is_approved"%string, lit "on")].

End Sample.

(** ** Proof tools *)

(** Runs the calls of a computation as far as they are determined. *)
Ltac run :=
  cbn [bind ret raise try_except emit flash utcnow
       Db.query_by_username Db.get Db.get_or_404 Db.add Db.commit
       Db.rollback Db.flush Db.write fold_left
       Routes.is_locked Routes.check_password Routes.reset_failed_logins
       Routes.increment_failed_login Routes.set_session
       Routes.hash_password Routes.session_get_user_id Routes.login_required
       Auth.log_login_attempt Auth.log_login_attempt_body
       users login_attempts pending session_user_id session_username
       flashes now commit_faults salts trace
       with_users with_login_attempts with_pending with_session
       with_flashes with_now with_commit_faults with_salts with_trace
       py_or truthy fst snd hd tl app negb orb andb].

(** Reads the fields of a world that is written out. *)
Tactic Notation "fields" :=
  cbn [users login_attempts pending session_user_id session_username
       flashes now commit_faults salts trace
       with_users with_login_attempts with_pending with_session
       with_flashes with_now with_commit_faults with_salts with_trace
       Db.flush Db.write fold_left fst snd hd tl app py_or truthy].

Tactic Notation "fields" "in" hyp(H) :=
  cbn [users login_attempts pending session_user_id session_username
       flashes now commit_faults salts trace
       with_users with_login_attempts with_pending with_session
       with_flashes with_now with_commit_faults with_salts with_trace
       Db.flush Db.write fold_left fst snd hd tl app py_or truthy] in H.

(** * Properties *)

(** ** The password policy *)

Section PolicyFacts.
Context {U : UnicodeData}.

Lemma validate_password_short (p : str) :
  (List.length p < 16)%nat ->
  Auth.validate_password p = (false, Auth.too_short_message).
Proof.
  intros H. unfold Auth.validate_password.
  apply Nat.ltb_lt in H. now rewrite H.
Qed.

Lemma validate_password_long (p : str) :
  (16 <= List.length p)%nat ->
  Auth.validate_password p =
  if (Auth.categories_present p <? 3)%nat
  then (false, Auth.complexity_message)
  else (true, EmptyString).
Proof.
  intros H. unfold Auth.validate_password, Auth.categories_present.
  apply Nat.ltb_ge in H. rewrite H.
  destruct (Auth.has_upper p), (Auth.has_lower p), (Auth.has_digit p),
    (Auth.has_symbol p); reflexivity.
Qed.

(** C4. [validate_password p] is valid exactly when [p] has at least 16
    characters and at least 3 of the 4 category flags hold; a shorter
    password fails with the too-short message, and one of length 16 or
    more with fewer than 3 categories fails with the complexity message. *)
Theorem validate_password_characterised (p : str) :
  (fst (Auth.validate_password p) = true <->
   (16 <= List.length p)%nat /\ (3 <= Auth.categories_present p)%nat) /\
  ((List.length p < 16)%nat ->
   Auth.validate_password p = (false, Auth.too_short_message)) /\
  ((16 <= List.length p)%nat -> (Auth.categories_present p < 3)%nat ->
   Auth.validate_password p = (false, Auth.complexity_message)).
Proof.
  split; [|split].
  - destruct (Nat.lt_ge_cases (List.length p) 16) as [Hs | Hl].
    + rewrite (validate_password_short p Hs). cbn. split; [discriminate | lia].
    + rewrite (validate_password_long p Hl).
      destruct (Auth.categories_present p <? 3)%nat eqn:Hc; cbn.
      * apply Nat.ltb_lt in Hc. split; [discriminate | lia].
      * apply Nat.ltb_ge in Hc. split; auto.
  - apply validate_password_short.
  - intros Hl Hc. rewrite (validate_password_long p Hl).
    apply Nat.ltb_lt in Hc. now rewrite Hc.
Qed.
End PolicyFacts.

(** The examples of the specification. *)
Example validate_password_examples :
  @Auth.validate_password ascii_only (lit "Sh0rt!")
    = (false, Auth.too_short_message) /\
  @Auth.validate_password ascii_only (lit "aaaaaaaaaaaaaaaaaaaa")
    = (false, Auth.complexity_message) /\
  @Auth.validate_password ascii_only (lit "Aa1!Aa1!Aa1!Aa1!")
    = (true, EmptyString).
Proof. repeat split; reflexivity. Qed.

Lemma validate_password_witness :
  (fst (@Auth.validate_password ascii_only (lit "Aa1!Aa1!Aa1!Aa1!")) = true) /\
  @Auth.validate_password ascii_only (lit "Sh0rt!")
    = (false, Auth.too_short_message) /\
  @Auth.validate_password ascii_only (lit "aaaaaaaaaaaaaaaaaaaa")
    = (false, Auth.complexity_message).
Proof.
  split; [|split].
  - apply (proj1 (@validate_password_characterised ascii_only
                    (lit "Aa1!Aa1!Aa1!Aa1!"))).
    split; vm_compute; lia.
  - apply (proj1 (proj2 (@validate_password_characterised ascii_only
                           (lit "Sh0rt!")))).
    vm_compute; lia.
  - apply (proj2 (proj2 (@validate_password_characterised ascii_only
                           (lit "aaaaaaaaaaaaaaaaaaaa")))).
    + vm_compute; lia.
    + vm_compute; lia.
Defined.

(** ** The inline strength checks against the policy *)

Lemma ascii_only_faithful : ascii_faithful ascii_only.
Proof. intros c _. repeat split. Qed.

Lemma register_reset_check_same {U : UnicodeData} (p : str) :
  Routes.reset_password_check p = Routes.register_password_check p.
Proof. reflexivity. Qed.

Lemma existsb_agree {A} (f g : A -> bool) (l : list A) :
  (forall x, In x l -> f x = g x) -> existsb f l = existsb g l.
Proof.
  induction l as [| a l IH]; intros H; cbn; [reflexivity|].
  rewrite (H a (or_introl eq_refl)), IH; auto.
  intros x Hx. apply H. now right.
Qed.

Lemma in_range_bounds lo hi c :
  in_range lo hi c = true <-> lo <= c /\ c <= hi.
Proof.
  unfold in_range. rewrite andb_true_iff, !N.leb_le. tauto.
Qed.

Lemma symbols_not_alnum c :
  char_in c Routes.SYMBOLS = true ->
  c < 128 /\
  in_range 65 90 c || in_range 97 122 c || in_range 48 57 c = false.
Proof.
  unfold char_in. rewrite existsb_exists. intros [s [Hin Heq]].
  apply N.eqb_eq in Heq. subst s. revert c Hin.
  apply Forall_forall. vm_compute.
  repeat constructor.
Qed.

Lemma policy_char_ascii c : policy_char c = true -> c < 128.
Proof.
  unfold policy_char. rewrite !orb_true_iff, !in_range_bounds.
  intros [[[H | H] | H] | H]; try lia.
  now apply symbols_not_alnum.
Qed.

Lemma policy_char_symbol c :
  policy_char c = true ->
  negb (in_range 65 90 c || in_range 97 122 c || in_range 48 57 c)
  = char_in c Routes.SYMBOLS.
Proof.
  unfold policy_char. intros H.
  destruct (char_in c Routes.SYMBOLS) eqn:Hs.
  - apply symbols_not_alnum in Hs. destruct Hs as [_ Hs]. now rewrite Hs.
  - rewrite orb_false_r in H. now rewrite H.
Qed.

Section InlineChecks.
Context {U : UnicodeData} (HU : ascii_faithful U).

Lemma flags_agree (p : str) :
  forallb policy_char p = true ->
  existsb isupper p = Auth.has_upper p /\
  existsb islower p = Auth.has_lower p /\
  existsb isdigit p = Auth.has_digit p /\
  existsb (fun c => char_in c Routes.SYMBOLS) p = Auth.has_symbol p.
Proof.
  rewrite forallb_forall. intros Hp.
  unfold Auth.has_upper, Auth.has_lower, Auth.has_digit, Auth.has_symbol.
  repeat split; apply existsb_agree; intros c Hc;
    pose proof (Hp c Hc) as Hpc;
    pose proof (HU c (policy_char_ascii c Hpc)) as (Hu & Hl & Hd & Hn).
  - exact Hu.
  - exact Hl.
  - now rewrite Hd, Hn.
  - symmetry. now apply policy_char_symbol.
Qed.

(** C5, amended. On passwords made of ASCII letters, ASCII digits and
    the symbols of the inline list, the check written out in [register]
    and in [reset_password] passes exactly when [validate_password]
    accepts. *)
Theorem inline_checks_agree_on_policy_alphabet (p : str) :
  forallb policy_char p = true ->
  (Routes.register_password_check p = None <->
   fst (Auth.validate_password p) = true) /\
  (Routes.reset_password_check p = None <->
   fst (Auth.validate_password p) = true).
Proof.
  intros Hp.
  assert (Routes.register_password_check p = None <->
          fst (Auth.validate_password p) = true) as H;
    [| split; [exact H | exact H]].
  destruct (flags_agree p Hp) as (Hu & Hl & Hd & Hs).
  unfold Routes.register_password_check, Auth.validate_password.
  rewrite Hu, Hl, Hd, Hs.
  destruct (List.length p <? 16)%nat; cbn; [split; discriminate|].
  destruct (Auth.has_upper p), (Auth.has_lower p), (Auth.has_digit p),
    (Auth.has_symbol p); cbn; split; intros; congruence.
Qed.

(** A space is a symbol for [validate_password] and none for the inline
    checks, whatever the database says outside ASCII. *)
Lemma space_password_splits_the_checks :
  let p := lit "aaaaaaaaaaaaaaA " in
  fst (Auth.validate_password p) = true /\
  Routes.register_password_check p <> None /\
  Routes.reset_password_check p <> None.
Proof.
  intros p.
  assert (Hall : forall c, In c p -> c < 128).
  { apply Forall_forall. vm_compute. repeat constructor. }
  assert (Hup : existsb isupper p = existsb (in_range 65 90) p).
  { apply existsb_agree. intros c Hc. apply (HU c (Hall c Hc)). }
  assert (Hlo : existsb islower p = existsb (in_range 97 122) p).
  { apply existsb_agree. intros c Hc. apply (HU c (Hall c Hc)). }
  assert (Hdi : existsb isdigit p = existsb (in_range 48 57) p).
  { apply existsb_agree. intros c Hc. apply (HU c (Hall c Hc)). }
  assert (Hde : existsb isdecimal p = existsb (in_range 48 57) p).
  { apply existsb_agree. intros c Hc. apply (HU c (Hall c Hc)). }
  unfold Routes.reset_password_check, Routes.register_password_check,
    Auth.validate_password, Auth.has_digit.
  rewrite Hup, Hlo, Hdi, Hde.
  repeat split; vm_compute; congruence.
Qed.
End InlineChecks.

(** C5, counterexample. The sixteen characters ["aaaaaaaaaaaaaaA "] hold an
    upper-case letter, lower-case letters and a space: [validate_password]
    accepts them, the checks of [register] and [reset_password] do not. *)
Lemma inline_checks_differ_from_policy :
  fst (@Auth.validate_password ascii_only (lit "aaaaaaaaaaaaaaA ")) = true /\
  @Routes.register_password_check ascii_only (lit "aaaaaaaaaaaaaaA ") <> None /\
  @Routes.reset_password_check ascii_only (lit "aaaaaaaaaaaaaaA ") <> None.
Proof. repeat split; vm_compute; congruence. Qed.

Lemma inline_checks_agree_witness :
  forallb policy_char (lit "Aa1!Aa1!Aa1!Aa1!") = true /\
  (@Routes.register_password_check ascii_only (lit "Aa1!Aa1!Aa1!Aa1!") = None <->
   fst (@Auth.validate_password ascii_only (lit "Aa1!Aa1!Aa1!Aa1!")) = true).
Proof.
  split.
  - reflexivity.
  - apply (@inline_checks_agree_on_policy_alphabet ascii_only
             ascii_only_faithful (lit "Aa1!Aa1!Aa1!Aa1!")).
    reflexivity.
Defined.

(** ** Running a computation one call at a time *)

Section Stepping.
Context {U : UnicodeData} {E : Externals}.

Lemma bind_ok {A B} (m : M A) (k : A -> M B) (w w' : World) (a : A) :
  m w = (Ok a, w') -> bind m k w = k a w'.
Proof. intros H. unfold bind. rewrite H. reflexivity. Qed.

Lemma bind_raised {A B} (m : M A) (k : A -> M B) (w w' : World) (e : Exn) :
  m w = (Raised e, w') -> bind m k w = (Raised e, w').
Proof. intros H. unfold bind. rewrite H. reflexivity. Qed.

Lemma try_ok {A} (m : M A) (h : Exn -> M A) (w w' : World) (a : A) :
  m w = (Ok a, w') -> try_except m h w = (Ok a, w').
Proof. intros H. unfold try_except. rewrite H. reflexivity. Qed.

Lemma try_raised {A} (m : M A) (h : Exn -> M A) (w w' : World) (e : Exn) :
  m w = (Raised e, w') -> try_except m h w = h e w'.
Proof. intros H. unfold try_except. rewrite H. reflexivity. Qed.

Lemma query_by_username_runs (name : str) (w : World) :
  Db.query_by_username name w =
  (Ok (Db.find_by_username name (users w)),
   with_trace (trace w ++ [EvQueryUsername name]) w).
Proof. reflexivity. Qed.

Lemma get_runs (uid : N) (w : World) :
  Db.get uid w =
  (Ok (Db.find_by_id uid (users w)),
   with_trace (trace w ++ [EvGetUser uid]) w).
Proof. reflexivity. Qed.

Lemma is_locked_runs (u : Models.User) (w : World) :
  Routes.is_locked u w = (Ok (Models.is_locked u (now w)), w).
Proof. reflexivity. Qed.

Lemma check_password_runs (u : Models.User) (password : str) (w : World) :
  Routes.check_password u password w =
  (Ok (check_password_hash (Models.password_hash u) password),
   with_trace (trace w ++ [EvCheckPassword (Models.id u)]) w).
Proof. reflexivity. Qed.

Lemma reset_failed_logins_runs (u : Models.User) (w : World) :
  Routes.reset_failed_logins u w =
  (Ok (Models.reset_failed_logins u),
   with_pending (pending w ++ [DirtyUser (Models.reset_failed_logins u)]) w).
Proof. reflexivity. Qed.

Lemma increment_failed_login_runs (u : Models.User) (w : World) :
  Routes.increment_failed_login u w =
  (Ok (Models.increment_failed_login u (now w)),
   with_pending
     (pending w ++ [DirtyUser (Models.increment_failed_login u (now w))]) w).
Proof. reflexivity. Qed.

Lemma set_session_runs (uid : N) (name : str) (w : World) :
  Routes.set_session uid name w =
  (Ok tt, with_session (Some uid) (Some name) w).
Proof. reflexivity. Qed.

Lemma flash_runs (text : string) (args : list FArg) (category : string)
      (w : World) :
  flash text args category w =
  (Ok tt, with_flashes (flashes w ++ [mkFlash text args category]) w).
Proof. reflexivity. Qed.

Lemma flash_either_runs (c : bool) (t1 t2 : string) (a1 a2 : list FArg)
      (c1 c2 : string) (w : World) :
  (if c then flash t1 a1 c1 else flash t2 a2 c2) w =
  (Ok tt,
   with_flashes
     (flashes w ++ [if c then mkFlash t1 a1 c1 else mkFlash t2 a2 c2]) w).
Proof. destruct c; reflexivity. Qed.

Lemma commit_succeeds (w : World) :
  next_commit_ok w ->
  Db.commit w =
  (Ok tt, with_trace (trace w ++ [EvCommit true])
            (with_commit_faults (tl (commit_faults w)) (Db.flush w))).
Proof.
  unfold next_commit_ok, Db.commit.
  destruct (commit_faults w) as [| [|] rest]; cbn; intros H;
    [reflexivity | discriminate | reflexivity].
Qed.

Lemma commit_fails (w : World) (rest : list bool) :
  commit_faults w = true :: rest ->
  Db.commit w =
  (Raised OperationalError,
   with_trace (trace w ++ [EvCommit false]) (with_commit_faults rest w)).
Proof. unfold Db.commit. intros ->. reflexivity. Qed.

Lemma log_login_attempt_body_runs (request : Request)
      (username success user_agent : PyVal) (w : World) :
  Auth.log_login_attempt_body request username success user_agent w =
  (Ok tt,
   after_audit
     (Models.mkLoginAttempt username (Auth.get_client_ip request) success
        (py_or user_agent (Auth.header_user_agent request))) w).
Proof.
  unfold Auth.log_login_attempt_body, after_audit.
  destruct w as [us la pe sid sname fl t cf sa tr].
  destruct cf as [| [|] rest]; run; unfold Db.rollback; fields;
    rewrite <- ?app_assoc; reflexivity.
Qed.

Lemma log_login_attempt_two (request : Request) (a b : PyVal) :
  Auth.log_login_attempt request [a; b] =
  Auth.log_login_attempt_body request a b VNone.
Proof. reflexivity. Qed.

(** Four positional arguments do not bind. *)
Lemma log_login_attempt_four (request : Request) (a b c d : PyVal) :
  Auth.log_login_attempt request [a; b; c; d] = raise TypeError.
Proof. reflexivity. Qed.

(** What [after_audit] leaves of a world whose session was clean. *)
Lemma after_audit_fields (a : Models.LoginAttempt) (w : World) :
  pending w = [] ->
  users (after_audit a w) = users w /\
  login_attempts (after_audit a w) =
    login_attempts w ++ (if hd false (commit_faults w) then [] else [a]) /\
  pending (after_audit a w) = [] /\
  session_user_id (after_audit a w) = session_user_id w /\
  session_username (after_audit a w) = session_username w /\
  flashes (after_audit a w) = flashes w /\
  now (after_audit a w) = now w /\
  commit_faults (after_audit a w) = tl (commit_faults w).
Proof.
  unfold after_audit.
  destruct w as [us la pe sid sname fl t cf sa tr]. fields. intros ->.
  destruct cf as [| [|] rest]; fields; rewrite ?app_nil_r; repeat split.
Qed.
End Stepping.

Tactic Notation "step" uconstr(L) :=
  erewrite (bind_ok _ _ _ _ _ L); cbv beta iota zeta.

(** Runs a commit that is known not to fail. *)
Ltac step_commit Hk :=
  match goal with
  | |- context [bind Db.commit ?k ?W] =>
      let H := fresh in
      assert (H : next_commit_ok W)
        by (unfold next_commit_ok in *; fields; exact Hk);
      rewrite (bind_ok _ _ _ _ _ (commit_succeeds W H)); clear H;
      cbv beta iota zeta
  end.

(** Reads the fields of the world that the audit left. *)
Ltac audit_fields :=
  match goal with
  | |- context [after_audit ?a ?W] =>
      let Hu := fresh "Hu" in
      let Hla := fresh "Hla" in
      let Hpe := fresh "Hpe" in
      let Hsid := fresh "Hsid" in
      let Hsn := fresh "Hsn" in
      let Hfl := fresh "Hfl" in
      let Hnow := fresh "Hnow" in
      let Hcf := fresh "Hcf" in
      destruct (after_audit_fields a W eq_refl)
        as (Hu & Hla & Hpe & Hsid & Hsn & Hfl & Hnow & Hcf);
      rewrite ?Hu, ?Hla, ?Hpe, ?Hsid, ?Hsn, ?Hfl, ?Hnow, ?Hcf;
      clear Hu Hla Hpe Hsid Hsn Hfl Hnow Hcf
  end.

(** ** The branches of the login route *)

Section LoginBranches.
Context {U : UnicodeData} {E : Externals}.

Lemma str_truthy_false (s : str) : str_truthy s = false <-> s = [].
Proof. destruct s; cbn; split; congruence. Qed.

Lemma fields_given :
  negb true || negb true = false.
Proof. reflexivity. Qed.

Ltac enter_login Hs :=
  let Hm := fresh "Hm" in
  let Hn := fresh "Hn" in
  let Hp := fresh "Hp" in
  let Tn := fresh "Tn" in
  let Tp := fresh "Tp" in
  destruct Hs as (Hm & Hn & Hp & Tn & Tp);
  unfold Routes.login; rewrite Hm; cbv beta iota zeta;
  rewrite Hn, Hp, Tn, Tp, fields_given; cbv beta iota zeta;
  step (query_by_username_runs _ _).

Ltac to_lookup Hs Hf :=
  enter_login Hs; fields; rewrite Hf; cbv beta iota.

Ltac to_lock_check Hs Hf Ha Hl :=
  to_lookup Hs Hf; rewrite Ha; change (negb true) with false;
  cbv beta iota; step (is_locked_runs _ _); fields; rewrite Hl;
  cbv beta iota.

(** A field is empty: the validation message is flashed and nothing else
    happens. *)
Lemma login_empty_field (request : Request) (w : World) :
  method request = POST ->
  strip (form_get request "username") = [] \/
  form_get request "password" = [] ->
  Routes.login request w =
  (Ok (render_template "nasa_login.html"),
   with_flashes (flashes w ++ [required_flash]) w).
Proof.
  intros Hm He. unfold Routes.login. rewrite Hm. cbv beta iota zeta.
  assert (negb (str_truthy (strip (form_get request "username")))
          || negb (str_truthy (form_get request "password")) = true) as ->.
  { destruct He as [-> | ->]; cbn; auto using orb_true_r. }
  cbv beta iota. step (flash_runs _ _ _ _). reflexivity.
Qed.

(** No account has the username: the call of [log_login_attempt] with
    four arguments raises before anything is flashed or audited. *)
Lemma login_unknown_username (request : Request) (w : World)
      (name password : str) :
  Submits request name password ->
  Db.find_by_username name (users w) = None ->
  Routes.login request w =
  (Raised TypeError, with_trace (trace w ++ [EvQueryUsername name]) w).
Proof.
  intros Hs Hf. to_lookup Hs Hf.
  rewrite log_login_attempt_four. reflexivity.
Qed.

(** The account is not approved: the same call raises. *)
Lemma login_pending_approval (request : Request) (w : World)
      (name password : str) (u : Models.User) :
  Submits request name password ->
  Db.find_by_username name (users w) = Some u ->
  Models.is_approved u = false ->
  Routes.login request w =
  (Raised TypeError, with_trace (trace w ++ [EvQueryUsername name]) w).
Proof.
  intros Hs Hf Ha. to_lookup Hs Hf. rewrite Ha.
  change (negb false) with true. cbv beta iota.
  rewrite log_login_attempt_four. reflexivity.
Qed.

Lemma is_locked_true (u : Models.User) (t : Z) :
  Models.is_locked u t = true <->
  exists tl, Models.locked_until u = Some tl /\ (t < tl)%Z.
Proof.
  unfold Models.is_locked. destruct (Models.locked_until u) as [tl |].
  - rewrite Z.ltb_lt. split.
    + intros H. now exists tl.
    + intros (tl' & Heq & H). now inversion Heq; subst.
  - split; [discriminate | intros (tl & Heq & _); discriminate].
Qed.

(** The account is locked: the form is rendered again with the lock
    message; only the flash and the record of the lookup are new. *)
Lemma login_locked (request : Request) (w : World) (name password : str)
      (u : Models.User) (tl : Z) :
  Submits request name password ->
  Db.find_by_username name (users w) = Some u ->
  Models.is_approved u = true ->
  Models.locked_until u = Some tl ->
  (now w < tl)%Z ->
  Routes.login request w =
  (Ok (render_template "nasa_login.html"),
   with_flashes (flashes w ++ [locked_flash tl])
     (with_trace (trace w ++ [EvQueryUsername name]) w)).
Proof.
  intros Hs Hf Ha Hu Hlt.
  assert (Hl : Models.is_locked u (now w) = true)
    by (apply is_locked_true; now exists tl).
  to_lock_check Hs Hf Ha Hl. rewrite Hu. cbv beta iota.
  step (flash_runs _ _ _ _). reflexivity.
Qed.

(** The first commit of the password branch fails: the exception leaves
    the route and both tables are as they were. *)
Lemma login_commit_failure (request : Request) (w : World)
      (name password : str) (u : Models.User) (rest : list bool) :
  Submits request name password ->
  Db.find_by_username name (users w) = Some u ->
  Models.is_approved u = true ->
  Models.is_locked u (now w) = false ->
  commit_faults w = true :: rest ->
  exists w',
    Routes.login request w = (Raised OperationalError, w') /\
    users w' = users w /\
    login_attempts w' = login_attempts w /\
    session_user_id w' = session_user_id w /\
    session_username w' = session_username w /\
    flashes w' = flashes w.
Proof.
  intros Hs Hf Ha Hl Hk.
  destruct w as [us la pe sid sname fl t cf sa tr].
  fields in Hf. fields in Hl. fields in Hk. subst cf. fields.
  destruct (check_password_hash (Models.password_hash u) password) eqn:Hc.
  - eexists. split.
    + to_lock_check Hs Hf Ha Hl.
      step (check_password_runs _ _ _). rewrite Hc. cbv beta iota. fields.
      step (reset_failed_logins_runs _ _). fields.
      match goal with
      | |- context [bind Db.commit ?k ?W] =>
          rewrite (bind_raised _ _ _ _ _ (commit_fails W rest eq_refl))
      end.
      reflexivity.
    + fields. repeat split.
  - eexists. split.
    + to_lock_check Hs Hf Ha Hl.
      step (check_password_runs _ _ _). rewrite Hc. cbv beta iota. fields.
      step (increment_failed_login_runs _ _). fields.
      match goal with
      | |- context [bind Db.commit ?k ?W] =>
          rewrite (bind_raised _ _ _ _ _ (commit_fails W rest eq_refl))
      end.
      reflexivity.
    + fields. repeat split.
Qed.

(** The password is right: the counters are reset and committed, the
    session is opened, and the success is audited. *)
Lemma login_right_password (request : Request) (w : World)
      (name password : str) (u : Models.User) :
  Submits request name password ->
  Db.find_by_username name (users w) = Some u ->
  Models.is_approved u = true ->
  Models.is_locked u (now w) = false ->
  check_password_hash (Models.password_hash u) password = true ->
  pending w = [] ->
  next_commit_ok w ->
  exists w',
    Routes.login request w = (Ok (redirect "nasa_bp.dashboard"), w') /\
    users w' = Db.update_row (Models.reset_failed_logins u) (users w) /\
    login_attempts w' =
      login_attempts w ++
      (if hd false (tl (commit_faults w)) then []
       else [audit_record request name true]) /\
    pending w' = [] /\
    now w' = now w /\
    commit_faults w' = tl (tl (commit_faults w)) /\
    session_user_id w' = Some (Models.id u) /\
    session_username w' = Some (Models.username u) /\
    flashes w' =
      flashes w ++ [mkFlash "Welcome back, {user.username}!"
                            [AStr (Models.username u)] "success"].
Proof.
  intros Hs Hf Ha Hl Hc Hp Hk.
  destruct w as [us la pe sid sname fl t cf sa tr].
  unfold next_commit_ok in Hk. fields in Hf. fields in Hl. fields in Hp.
  fields in Hk. subst pe. fields.
  eexists. split.
  - to_lock_check Hs Hf Ha Hl.
    step (check_password_runs _ _ _). rewrite Hc. cbv beta iota. fields.
    step (reset_failed_logins_runs _ _). fields.
    step_commit Hk. fields.
    step (set_session_runs _ _ _). fields.
    rewrite log_login_attempt_two.
    step (log_login_attempt_body_runs _ _ _ _ _). fields.
    step (flash_runs _ _ _ _).
    reflexivity.
  - fields. audit_fields. fields. repeat split.
Qed.

(** The password is wrong: the failure is counted and committed, then
    audited. *)
Lemma login_wrong_password (request : Request) (w : World)
      (name password : str) (u : Models.User) :
  Submits request name password ->
  Db.find_by_username name (users w) = Some u ->
  Models.is_approved u = true ->
  Models.is_locked u (now w) = false ->
  check_password_hash (Models.password_hash u) password = false ->
  pending w = [] ->
  next_commit_ok w ->
  let u' := Models.increment_failed_login u (now w) in
  let remaining := (10 - Models.failed_login_attempts u')%Z in
  exists w',
    Routes.login request w = (Ok (render_template "nasa_login.html"), w') /\
    users w' = Db.update_row u' (users w) /\
    login_attempts w' =
      login_attempts w ++
      (if hd false (tl (commit_faults w)) then []
       else [audit_record request name false]) /\
    pending w' = [] /\
    now w' = now w /\
    commit_faults w' = tl (tl (commit_faults w)) /\
    session_user_id w' = session_user_id w /\
    session_username w' = session_username w /\
    flashes w' =
      flashes w ++
      [if (remaining >? 0)%Z
       then mkFlash "Invalid password. {remaining} attempts remaining before lockout."
                    [AInt remaining] "danger"
       else mkFlash "Account locked for 30 minutes due to too many failed attempts."
                    [] "danger"].
Proof.
  intros Hs Hf Ha Hl Hc Hp Hk.
  destruct w as [us la pe sid sname fl t cf sa tr].
  unfold next_commit_ok in Hk. fields in Hf. fields in Hl. fields in Hp.
  fields in Hk. subst pe. fields. cbv zeta.
  eexists. split.
  - to_lock_check Hs Hf Ha Hl.
    step (check_password_runs _ _ _). rewrite Hc. cbv beta iota. fields.
    step (increment_failed_login_runs _ _). fields.
    step_commit Hk. fields.
    rewrite log_login_attempt_two.
    step (log_login_attempt_body_runs _ _ _ _ _). fields.
    step (flash_either_runs _ _ _ _ _ _ _ _).
    reflexivity.
  - fields. audit_fields. fields. repeat split.
Qed.
End LoginBranches.
(** ** Rows of the user table *)

Lemma find_by_username_matches (name : str) (rows : list Models.User)
      (u : Models.User) :
  Db.find_by_username name rows = Some u ->
  str_eqb (Models.username u) name = true.
Proof.
  unfold Db.find_by_username. intros H.
  now destruct (find_some _ _ H) as [_ Heq].
Qed.

(** After the update of the row that a username finds, the username finds
    the updated row. *)
Lemma find_by_username_update (name : str) (rows : list Models.User)
      (u u' : Models.User) :
  Db.find_by_username name rows = Some u ->
  Models.id u' = Models.id u ->
  Models.username u' = Models.username u ->
  Db.find_by_username name (Db.update_row u' rows) = Some u'.
Proof.
  intros Hf Hid Hname.
  pose proof (find_by_username_matches _ _ _ Hf) as Hm.
  unfold Db.find_by_username, Db.update_row in *.
  induction rows as [| r rows IH]; cbn in *; [discriminate|].
  destruct (Models.id r =? Models.id u') eqn:Hr.
  - now rewrite Hname, Hm.
  - destruct (str_eqb (Models.username r) name) eqn:Hrn.
    + inversion Hf; subst r. rewrite Hid, N.eqb_refl in Hr. discriminate.
    + now apply IH.
Qed.

Lemma find_by_id_update (uid : N) (rows : list Models.User)
      (u u' : Models.User) :
  Db.find_by_id uid rows = Some u ->
  Models.id u' = Models.id u ->
  Db.find_by_id uid (Db.update_row u' rows) = Some u'.
Proof.
  intros Hf Hid.
  assert (Hu : Models.id u = uid).
  { unfold Db.find_by_id in Hf. destruct (find_some _ _ Hf) as [_ Heq].
    now apply N.eqb_eq in Heq. }
  unfold Db.find_by_id, Db.update_row in *.
  induction rows as [| r rows IH]; cbn in *; [discriminate|].
  destruct (Models.id r =? Models.id u') eqn:Hr.
  - rewrite Hid, Hu, N.eqb_refl. reflexivity.
  - destruct (Models.id r =? uid) eqn:Hrn.
    + inversion Hf; subst r. rewrite Hid, N.eqb_refl in Hr. discriminate.
    + now apply IH.
Qed.

(** ** The counter and the lock *)

Lemma increment_below_threshold (u : Models.User) (t : Z) :
  (Models.failed_login_attempts u + 1 < Models.LOCKOUT_THRESHOLD)%Z ->
  Models.increment_failed_login u t =
  Models.set_failed_login_attempts (Models.failed_login_attempts u + 1) u.
Proof.
  intros H. unfold Models.increment_failed_login.
  cbn [Models.failed_login_attempts Models.set_failed_login_attempts].
  apply Z.leb_gt in H. now rewrite H.
Qed.

Lemma increment_at_threshold (u : Models.User) (t : Z) :
  (Models.LOCKOUT_THRESHOLD <= Models.failed_login_attempts u + 1)%Z ->
  Models.increment_failed_login u t =
  Models.set_locked_until (Some (t + Models.LOCKOUT_SECONDS)%Z)
    (Models.set_failed_login_attempts (Models.failed_login_attempts u + 1) u).
Proof.
  intros H. unfold Models.increment_failed_login.
  cbn [Models.failed_login_attempts Models.set_failed_login_attempts].
  apply Z.leb_le in H. now rewrite H.
Qed.

Lemma increment_counts_one (u : Models.User) (t : Z) :
  Models.failed_login_attempts (Models.increment_failed_login u t) =
  (Models.failed_login_attempts u + 1)%Z /\
  Models.id (Models.increment_failed_login u t) = Models.id u /\
  Models.username (Models.increment_failed_login u t) = Models.username u /\
  Models.password_hash (Models.increment_failed_login u t) =
    Models.password_hash u /\
  Models.is_approved (Models.increment_failed_login u t) = Models.is_approved u.
Proof.
  unfold Models.increment_failed_login.
  cbn [Models.failed_login_attempts Models.set_failed_login_attempts].
  destruct (Models.LOCKOUT_THRESHOLD <=? Models.failed_login_attempts u + 1)%Z;
    repeat split.
Qed.
(** ** What the specification says of the login route *)

Section LoginClaims.
Context {U : UnicodeData} {E : Externals}.

(** C10. A login POST whose username, stripped, or whose password is
    empty flashes the validation message and renders the form again; the
    database is not asked for any account, no row of either table
    changes, the session is as it was and nothing is audited. *)
Theorem login_empty_field_leaves_no_trace (request : Request) (w : World) :
  method request = POST ->
  strip (form_get request "username") = [] \/
  form_get request "password" = [] ->
  Routes.login request w =
  (Ok (render_template "nasa_login.html"),
   with_flashes (flashes w ++ [required_flash]) w) /\
  let w' := snd (Routes.login request w) in
  users w' = users w /\
  login_attempts w' = login_attempts w /\
  pending w' = pending w /\
  session_user_id w' = session_user_id w /\
  trace w' = trace w.
Proof.
  intros Hm He. pose proof (login_empty_field request w Hm He) as Hrun.
  split; [exact Hrun|]. rewrite Hrun. fields. repeat split.
Qed.

(** C3, as the code has it. A login for a username that no account has
    does not complete: the audit call raises [TypeError], so that no
    audit row is written and no message is flashed. *)
Theorem login_unknown_username_raises (request : Request) (w : World)
        (name password : str) :
  Submits request name password ->
  Db.find_by_username name (users w) = None ->
  let w' := snd (Routes.login request w) in
  fst (Routes.login request w) = Raised TypeError /\
  login_attempts w' = login_attempts w /\
  flashes w' = flashes w.
Proof.
  intros Hs Hf. rewrite (login_unknown_username _ _ _ _ Hs Hf).
  fields. repeat split.
Qed.

(** C1, amended. A login attempt on an approved account, from a clean
    session and with commits that go through, appends exactly one audit
    row when the account is not locked, with the submitted username and
    the verdict of the password check, and appends none when the account
    is locked. *)
Theorem login_audits_password_attempts (request : Request) (w : World)
        (name password : str) (u : Models.User) :
  Submits request name password ->
  Db.find_by_username name (users w) = Some u ->
  Models.is_approved u = true ->
  pending w = [] ->
  next_commit_ok w ->
  audit_commit_ok w ->
  login_attempts (snd (Routes.login request w)) =
  login_attempts w ++
  (if Models.is_locked u (now w) then []
   else [audit_record request name
           (check_password_hash (Models.password_hash u) password)]).
Proof.
  intros Hs Hf Ha Hp Hk Hk2. unfold audit_commit_ok in Hk2.
  destruct (Models.is_locked u (now w)) eqn:Hl.
  - apply is_locked_true in Hl. destruct Hl as (tl & Hu & Hlt).
    rewrite (login_locked _ _ _ _ _ _ Hs Hf Ha Hu Hlt). fields.
    now rewrite app_nil_r.
  - destruct (check_password_hash (Models.password_hash u) password) eqn:Hc.
    + destruct (login_right_password _ _ _ _ _ Hs Hf Ha Hl Hc Hp Hk)
        as (w' & Hrun & _ & Hla & _).
      rewrite Hrun. fields. now rewrite Hla, Hk2.
    + destruct (login_wrong_password _ _ _ _ _ Hs Hf Ha Hl Hc Hp Hk)
        as (w' & Hrun & _ & Hla & _).
      rewrite Hrun. fields. now rewrite Hla, Hk2.
Qed.

(** C6. A login with the right password on an approved account that is
    not locked, whatever its counter and its expired lock were, leaves
    the account with [failed_login_attempts = 0] and no [locked_until],
    and opens the session. *)
Theorem successful_login_resets_lockout (request : Request) (w : World)
        (name password : str) (u : Models.User) :
  Submits request name password ->
  Db.find_by_username name (users w) = Some u ->
  Models.is_approved u = true ->
  Models.is_locked u (now w) = false ->
  check_password_hash (Models.password_hash u) password = true ->
  pending w = [] ->
  next_commit_ok w ->
  let w' := snd (Routes.login request w) in
  fst (Routes.login request w) = Ok (redirect "nasa_bp.dashboard") /\
  session_user_id w' = Some (Models.id u) /\
  exists u',
    Db.find_by_username name (users w') = Some u' /\
    Models.failed_login_attempts u' = 0%Z /\
    Models.locked_until u' = None /\
    u' = Models.reset_failed_logins u.
Proof.
  intros Hs Hf Ha Hl Hc Hp Hk.
  destruct (login_right_password _ _ _ _ _ Hs Hf Ha Hl Hc Hp Hk)
    as (w' & Hrun & Hus & _ & _ & _ & _ & Hsid & _).
  rewrite Hrun. fields. repeat split; [exact Hsid|].
  exists (Models.reset_failed_logins u). rewrite Hus.
  repeat split. now apply (find_by_username_update name (users w) u).
Qed.
End LoginClaims.
(** ** Counting failures up to the lock *)

Section Lockout.
Context {U : UnicodeData} {E : Externals}.

Lemma run_attempts_app (l1 l2 : list (Z * Request)) (w : World) :
  run_attempts (l1 ++ l2) w = run_attempts l2 (run_attempts l1 w).
Proof.
  revert w. induction l1 as [| [t r] l1 IH]; intros w; cbn; auto.
Qed.

Lemma wrong_attempt_transfer (name : str) (u u' : Models.User)
      (a : Z * Request) :
  Models.password_hash u' = Models.password_hash u ->
  Models.locked_until u' = Models.locked_until u ->
  WrongAttempt name u a -> WrongAttempt name u' a.
Proof.
  intros Hh Hl (password & Hs & Hc & Hk). exists password.
  unfold Models.is_locked in *. rewrite Hh, Hl. auto.
Qed.

Lemma set_counter_same (u : Models.User) :
  Models.set_failed_login_attempts (Models.failed_login_attempts u) u = u.
Proof. destruct u; reflexivity. Qed.

Lemma set_counter_twice (n m : Z) (u : Models.User) :
  Models.set_failed_login_attempts n (Models.set_failed_login_attempts m u) =
  Models.set_failed_login_attempts n u.
Proof. reflexivity. Qed.

(** One wrong attempt on a clean world without commit faults. *)
Lemma attempt_at_wrong (name : str) (u : Models.User) (a : Z * Request)
      (w : World) :
  WrongAttempt name u a ->
  Db.find_by_username name (users w) = Some u ->
  Models.is_approved u = true ->
  pending w = [] ->
  commit_faults w = [] ->
  let w' := attempt_at (fst a) (snd a) w in
  Db.find_by_username name (users w') =
    Some (Models.increment_failed_login u (fst a)) /\
  pending w' = [] /\
  commit_faults w' = [].
Proof.
  intros (password & Hs & Hc & Hl) Hf Ha Hp Hk. unfold attempt_at.
  assert (Hk' : next_commit_ok (with_now (fst a) w))
    by (unfold next_commit_ok; fields; now rewrite Hk).
  destruct (login_wrong_password (snd a) (with_now (fst a) w) name password u
              Hs Hf Ha Hl Hc Hp Hk')
    as (w' & Hrun & Hus & _ & Hpe & _ & Hcf & _).
  rewrite Hrun. fields. fields in Hus. fields in Hcf.
  rewrite Hus, Hpe, Hcf, Hk. repeat split.
  destruct (increment_counts_one u (fst a)) as (_ & Hid & Hname & _).
  now apply (find_by_username_update name (users w) u).
Qed.

(** Wrong attempts below the threshold only move the counter. *)
Lemma run_wrong_attempts (name : str) (attempts : list (Z * Request)) :
  forall (w : World) (u : Models.User),
    Db.find_by_username name (users w) = Some u ->
    Models.is_approved u = true ->
    pending w = [] ->
    commit_faults w = [] ->
    Forall (WrongAttempt name u) attempts ->
    (Models.failed_login_attempts u + Z.of_nat (List.length attempts)
     < Models.LOCKOUT_THRESHOLD)%Z ->
    let w' := run_attempts attempts w in
    Db.find_by_username name (users w') =
      Some (Models.set_failed_login_attempts
              (Models.failed_login_attempts u
               + Z.of_nat (List.length attempts)) u) /\
    pending w' = [] /\
    commit_faults w' = [].
Proof.
  induction attempts as [| [t r] rest IH]; intros w u Hf Ha Hp Hk Hall Hlt.
  - cbn. rewrite Z.add_0_r, set_counter_same. auto.
  - inversion Hall as [| a l Hw Hrest]; subst.
    cbn [List.length] in Hlt. rewrite Nat2Z.inj_succ in Hlt.
    destruct (attempt_at_wrong name u (t, r) w Hw Hf Ha Hp Hk)
      as (Hf1 & Hp1 & Hk1).
    cbn [fst snd] in Hf1, Hp1, Hk1.
    rewrite increment_below_threshold in Hf1 by lia.
    set (u1 := Models.set_failed_login_attempts
                 (Models.failed_login_attempts u + 1) u) in *.
    assert (Hall1 : Forall (WrongAttempt name u1) rest).
    { eapply Forall_impl; [| exact Hrest].
      intros a. now apply wrong_attempt_transfer. }
    assert (Hlt1 : (Models.failed_login_attempts u1
                    + Z.of_nat (List.length rest)
                    < Models.LOCKOUT_THRESHOLD)%Z)
      by (subst u1; cbn; lia).
    specialize (IH _ u1 Hf1 Ha Hp1 Hk1 Hall1 Hlt1).
    cbn [run_attempts List.length]. rewrite Nat2Z.inj_succ.
    destruct IH as (IH1 & IH2 & IH3). repeat split; auto.
    rewrite IH1. subst u1. rewrite set_counter_twice.
    cbn [Models.failed_login_attempts Models.set_failed_login_attempts].
    do 2 f_equal. lia.
Qed.

(** C2. (a) A wrong password on an approved account that is not locked
    moves [failed_login_attempts] up by exactly one. (b) Nine wrong
    attempts in a row on an account that starts at zero leave the counter
    at 9 and the lock as it was, so the account is still not locked; the
    tenth leaves the counter at 10 and sets [locked_until] to its time
    plus thirty minutes. (c) A request before [locked_until] is answered
    with the lock message: no row changes and the password is not
    checked. *)
Theorem lockout_after_ten_failures :
  (forall (request : Request) (w : World) (name password : str)
          (u : Models.User),
      Submits request name password ->
      Db.find_by_username name (users w) = Some u ->
      Models.is_approved u = true ->
      Models.is_locked u (now w) = false ->
      check_password_hash (Models.password_hash u) password = false ->
      pending w = [] ->
      next_commit_ok w ->
      exists u',
        Db.find_by_username name (users (snd (Routes.login request w)))
          = Some u' /\
        Models.failed_login_attempts u'
          = (Models.failed_login_attempts u + 1)%Z) /\
  (forall (w : World) (name : str) (u : Models.User)
          (attempts : list (Z * Request)),
      Db.find_by_username name (users w) = Some u ->
      Models.is_approved u = true ->
      Models.failed_login_attempts u = 0%Z ->
      pending w = [] ->
      commit_faults w = [] ->
      Forall (WrongAttempt name u) attempts ->
      List.length attempts = 9%nat ->
      exists u9,
        Db.find_by_username name (users (run_attempts attempts w)) = Some u9 /\
        Models.failed_login_attempts u9 = 9%Z /\
        Models.locked_until u9 = Models.locked_until u /\
        (forall t, Models.is_locked u t = false ->
                   Models.is_locked u9 t = false) /\
        forall tenth : Z * Request,
          WrongAttempt name u tenth ->
          exists u10,
            Db.find_by_username name
              (users (run_attempts (attempts ++ [tenth]) w)) = Some u10 /\
            Models.failed_login_attempts u10 = 10%Z /\
            Models.locked_until u10 = Some (fst tenth + 30 * 60)%Z) /\
  (forall (request : Request) (w : World) (name password : str)
          (u : Models.User) (tl : Z),
      Submits request name password ->
      Db.find_by_username name (users w) = Some u ->
      Models.is_approved u = true ->
      Models.locked_until u = Some tl ->
      (now w < tl)%Z ->
      let w' := snd (Routes.login request w) in
      fst (Routes.login request w) = Ok (render_template "nasa_login.html") /\
      flashes w' = flashes w ++ [locked_flash tl] /\
      users w' = users w /\
      login_attempts w' = login_attempts w /\
      trace w' = trace w ++ [EvQueryUsername name]).
Proof.
  split; [| split].
  - intros request w name password u Hs Hf Ha Hl Hc Hp Hk.
    destruct (login_wrong_password _ _ _ _ _ Hs Hf Ha Hl Hc Hp Hk)
      as (w' & Hrun & Hus & _).
    rewrite Hrun. fields. rewrite Hus.
    destruct (increment_counts_one u (now w)) as (Hn & Hid & Hname & _).
    exists (Models.increment_failed_login u (now w)). split; [| exact Hn].
    now apply (find_by_username_update name (users w) u).
  - intros w name u attempts Hf Ha H0 Hp Hk Hall Hlen.
    assert (Hlt : (Models.failed_login_attempts u
                   + Z.of_nat (List.length attempts)
                   < Models.LOCKOUT_THRESHOLD)%Z)
      by (rewrite H0, Hlen; reflexivity).
    destruct (run_wrong_attempts name attempts w u Hf Ha Hp Hk Hall Hlt)
      as (Hf9 & Hp9 & Hk9).
    rewrite H0, Hlen in Hf9. change (0 + Z.of_nat 9)%Z with 9%Z in Hf9.
    set (u9 := Models.set_failed_login_attempts 9 u) in *.
    exists u9. repeat split; auto.
    intros tenth Hw. rewrite run_attempts_app. cbn [run_attempts].
    destruct tenth as [t r].
    assert (Hw9 : WrongAttempt name u9 (t, r))
      by (now apply (wrong_attempt_transfer name u u9)).
    destruct (attempt_at_wrong name u9 (t, r) _ Hw9 Hf9 Ha Hp9 Hk9)
      as (Hf10 & _).
    cbn [fst snd] in Hf10 |- *.
    rewrite increment_at_threshold in Hf10
      by (subst u9; unfold Models.LOCKOUT_THRESHOLD;
          cbn [Models.failed_login_attempts Models.set_failed_login_attempts];
          lia).
    eexists. split; [exact Hf10 |]. split; reflexivity.
  - intros request w name password u tl Hs Hf Ha Hu Hlt.
    rewrite (login_locked _ _ _ _ _ _ Hs Hf Ha Hu Hlt). fields.
    repeat split.
Qed.
End Lockout.
(** ** Registration writes no audit row *)

Section Register.
Context {U : UnicodeData} {E : Externals}.

Lemma keeps_ret {A} (a : A) : keeps_audit_log (ret a).
Proof. intros w H. now split. Qed.

Lemma keeps_bind {A B} (m : M A) (k : A -> M B) :
  keeps_audit_log m -> (forall a, keeps_audit_log (k a)) ->
  keeps_audit_log (bind m k).
Proof.
  intros Hm Hk w H. unfold bind. specialize (Hm w H).
  destruct (m w) as [[a | e] w1]; cbn [snd] in *.
  - destruct Hm as [Hla Hno]. destruct (Hk a w1 Hno) as [Hla' Hno'].
    split; [congruence | assumption].
  - assumption.
Qed.

Lemma keeps_try {A} (m : M A) (h : Exn -> M A) :
  keeps_audit_log m -> (forall e, keeps_audit_log (h e)) ->
  keeps_audit_log (try_except m h).
Proof.
  intros Hm Hh w H. unfold try_except. specialize (Hm w H).
  destruct (m w) as [[a | e] w1]; cbn [snd] in *.
  - assumption.
  - destruct Hm as [Hla Hno]. destruct (Hh e w1 Hno) as [Hla' Hno'].
    split; [congruence | assumption].
Qed.

Lemma keeps_flash (text : string) (args : list FArg) (category : string) :
  keeps_audit_log (flash text args category).
Proof. intros w H. now split. Qed.

Lemma keeps_emit (e : Event) : keeps_audit_log (emit e).
Proof. intros w H. now split. Qed.

Lemma keeps_query_by_username (name : str) :
  keeps_audit_log (Db.query_by_username name).
Proof. intros w H. now split. Qed.

Lemma keeps_query_by_email (mail : str) :
  keeps_audit_log (Db.query_by_email mail).
Proof. intros w H. now split. Qed.

Lemma keeps_hash_password (password : str) :
  keeps_audit_log (Routes.hash_password password).
Proof. intros w H. now split. Qed.

Lemma keeps_add_user (u : Models.User) :
  keeps_audit_log (Db.add (NewUser u)).
Proof.
  intros w H. split; [reflexivity |].
  intros a Hin. cbn in Hin. apply in_app_or in Hin.
  destruct Hin as [Hin | [Hin | []]]; [now apply (H a) | discriminate].
Qed.

Lemma keeps_rollback : keeps_audit_log Db.rollback.
Proof. intros w H. split; [reflexivity | intros a []]. Qed.

Lemma write_keeps_log (ps : list Pending) :
  forall w, (forall a, ~ In (NewAttempt a) ps) ->
            login_attempts (fold_left (fun w p => Db.write p w) ps w)
            = login_attempts w.
Proof.
  induction ps as [| p ps IH]; intros w H; cbn [fold_left]; [reflexivity|].
  rewrite IH by (intros a Hin; apply (H a); now right).
  destruct p as [u | u | a]; try reflexivity.
  exfalso. apply (H a). now left.
Qed.

Lemma keeps_commit : keeps_audit_log Db.commit.
Proof.
  intros w H. unfold Db.commit.
  destruct (commit_faults w) as [| [|] rest]; cbn [snd]; fields;
    try (split; [now apply write_keeps_log | intros a []]).
  split; [reflexivity | exact H].
Qed.

Ltac keeps :=
  repeat first
    [ apply keeps_ret | apply keeps_flash | apply keeps_emit
    | apply keeps_query_by_username | apply keeps_query_by_email
    | apply keeps_hash_password | apply keeps_add_user
    | apply keeps_rollback | apply keeps_commit
    | apply keeps_bind; [| intros ?]
    | apply keeps_try; [| intros ?]
    | match goal with
      | |- keeps_audit_log (if ?c then _ else _) => destruct c
      | |- keeps_audit_log (match ?x with _ => _ end) => destruct x
      end ].

(** The route [/register] never calls [log_login_attempt]: it appends
    nothing to the audit log. *)
Lemma register_keeps_audit_log (request : Request) :
  keeps_audit_log (Routes.register request).
Proof. unfold Routes.register. cbv zeta. keeps. Qed.

Lemma register_writes_no_audit_row (request : Request) (w : World) :
  pending w = [] ->
  login_attempts (snd (Routes.register request w)) = login_attempts w.
Proof.
  intros Hp. apply register_keeps_audit_log.
  intros a. rewrite Hp. intros [].
Qed.
End Register.
(** ** The audit write is best effort *)

Section AuditFailure.
Context {U : UnicodeData} {E : Externals}.

Lemma login_get (request : Request) (w : World) :
  method request = GET ->
  Routes.login request w = (Ok (render_template "nasa_login.html"), w).
Proof. intros Hm. unfold Routes.login. rewrite Hm. reflexivity. Qed.

(** The outcome of a login does not depend on the fate of the audit
    commit, the second commit of the request. *)
Lemma login_outcome_ignores_audit_fault (request : Request) (w : World)
      (first : bool) (rest : list bool) :
  pending w = [] ->
  let good := Routes.login request
                (with_commit_faults (first :: false :: rest) w) in
  let bad := Routes.login request
               (with_commit_faults (first :: true :: rest) w) in
  fst good = fst bad /\
  users (snd good) = users (snd bad) /\
  session_user_id (snd good) = session_user_id (snd bad) /\
  session_username (snd good) = session_username (snd bad) /\
  flashes (snd good) = flashes (snd bad).
Proof.
  intros Hp. cbv zeta.
  set (wa := with_commit_faults (first :: false :: rest) w).
  set (wb := with_commit_faults (first :: true :: rest) w).
  destruct (method request) eqn:Hm.
  { rewrite !login_get by assumption. subst wa wb. fields. repeat split. }
  destruct (str_truthy (strip (form_get request "username"))) eqn:Tn.
  2: { apply str_truthy_false in Tn.
       rewrite (login_empty_field request wa Hm (or_introl Tn)).
       rewrite (login_empty_field request wb Hm (or_introl Tn)). subst wa wb. fields. repeat split. }
  destruct (str_truthy (form_get request "password")) eqn:Tp.
  2: { apply str_truthy_false in Tp.
       rewrite (login_empty_field request wa Hm (or_intror Tp)).
       rewrite (login_empty_field request wb Hm (or_intror Tp)). subst wa wb. fields. repeat split. }
  assert (Hs : Submits request (strip (form_get request "username"))
                       (form_get request "password"))
    by (repeat split; assumption).
  destruct (Db.find_by_username (strip (form_get request "username")) (users w))
    as [u |] eqn:Hf.
  2: { rewrite (login_unknown_username request wa _ _ Hs Hf).
       rewrite (login_unknown_username request wb _ _ Hs Hf).
       subst wa wb. fields. repeat split. }
  destruct (Models.is_approved u) eqn:Ha.
  2: { rewrite (login_pending_approval request wa _ _ u Hs Hf Ha).
       rewrite (login_pending_approval request wb _ _ u Hs Hf Ha).
       subst wa wb. fields. repeat split. }
  destruct (Models.is_locked u (now w)) eqn:Hl.
  { apply is_locked_true in Hl. destruct Hl as (tl & Hu & Hlt).
    rewrite (login_locked request wa _ _ u tl Hs Hf Ha Hu Hlt).
    rewrite (login_locked request wb _ _ u tl Hs Hf Ha Hu Hlt).
    subst wa wb. fields. repeat split. }
  destruct first.
  { destruct (login_commit_failure request wa _ _ u (false :: rest)
                Hs Hf Ha Hl eq_refl) as (wa' & Ra & A1 & _ & A3 & A4 & A5).
    destruct (login_commit_failure request wb _ _ u (true :: rest)
                Hs Hf Ha Hl eq_refl) as (wb' & Rb & B1 & _ & B3 & B4 & B5).
    rewrite Ra, Rb. fields. rewrite A1, A3, A4, A5, B1, B3, B4, B5.
    subst wa wb. fields. repeat split. }
  destruct (check_password_hash (Models.password_hash u)
              (form_get request "password")) eqn:Hc.
  - destruct (login_right_password request wa _ _ u Hs Hf Ha Hl Hc Hp eq_refl)
      as (wa' & Ra & A1 & _ & _ & _ & _ & A3 & A4 & A5).
    destruct (login_right_password request wb _ _ u Hs Hf Ha Hl Hc Hp eq_refl)
      as (wb' & Rb & B1 & _ & _ & _ & _ & B3 & B4 & B5).
    rewrite Ra, Rb. fields. rewrite A1, A3, A4, A5, B1, B3, B4, B5.
    subst wa wb. fields. repeat split.
  - destruct (login_wrong_password request wa _ _ u Hs Hf Ha Hl Hc Hp eq_refl)
      as (wa' & Ra & A1 & _ & _ & _ & _ & A3 & A4 & A5).
    destruct (login_wrong_password request wb _ _ u Hs Hf Ha Hl Hc Hp eq_refl)
      as (wb' & Rb & B1 & _ & _ & _ & _ & B3 & B4 & B5).
    rewrite Ra, Rb. fields. rewrite A1, A3, A4, A5, B1, B3, B4, B5.
    subst wa wb. fields. repeat split.
Qed.

(** C8. [log_login_attempt] never raises out of its body; when its commit
    fails the failure is logged and the session rolled back, and no table
    changes; the response, the user table, the session and the flashed
    messages of a login are the same whether the audit commit fails or
    not; and a registration makes no audit write at all. *)
Theorem audit_failure_is_swallowed :
  (forall (request : Request) (username success user_agent : PyVal)
          (w : World),
      fst (Auth.log_login_attempt_body request username success user_agent w)
      = Ok tt) /\
  (forall (request : Request) (username success user_agent : PyVal)
          (w : World) (rest : list bool),
      commit_faults w = true :: rest ->
      let w' := snd (Auth.log_login_attempt_body request username success
                       user_agent w) in
      users w' = users w /\
      login_attempts w' = login_attempts w /\
      pending w' = [] /\
      trace w' = trace w ++ [EvCommit false;
                             EvLogged "Failed to log login attempt";
                             EvRollback]) /\
  (forall (request : Request) (w : World) (first : bool) (rest : list bool),
      pending w = [] ->
      let good := Routes.login request
                    (with_commit_faults (first :: false :: rest) w) in
      let bad := Routes.login request
                   (with_commit_faults (first :: true :: rest) w) in
      fst good = fst bad /\
      users (snd good) = users (snd bad) /\
      session_user_id (snd good) = session_user_id (snd bad) /\
      session_username (snd good) = session_username (snd bad) /\
      flashes (snd good) = flashes (snd bad)) /\
  (forall (request : Request) (w : World),
      pending w = [] ->
      login_attempts (snd (Routes.register request w)) = login_attempts w).
Proof.
  split; [| split; [| split]].
  - intros. now rewrite log_login_attempt_body_runs.
  - intros request username success user_agent w rest Hk.
    rewrite log_login_attempt_body_runs. cbn [snd]. unfold after_audit.
    rewrite Hk. fields. repeat split.
  - apply login_outcome_ignores_audit_fault.
  - apply register_writes_no_audit_row.
Qed.
End AuditFailure.
(** ** The administrative password reset *)

Section Reset.
Context {U : UnicodeData} {E : Externals}.

Lemma session_get_user_id_runs (w : World) :
  Routes.session_get_user_id w = (Ok (session_user_id w), w).
Proof. reflexivity. Qed.

Lemma get_or_404_runs (uid : N) (u : Models.User) (w : World) :
  Db.find_by_id uid (users w) = Some u ->
  Db.get_or_404 uid w = (Ok u, with_trace (trace w ++ [EvGetUser uid]) w).
Proof.
  intros H. unfold Db.get_or_404. step (get_runs _ _). now rewrite H.
Qed.

Lemma hash_password_runs (password : str) (w : World) :
  Routes.hash_password password w =
  (Ok (generate_password_hash (hd [] (salts w)) password),
   with_salts (tl (salts w)) w).
Proof. reflexivity. Qed.

Lemma add_runs (p : Pending) (w : World) :
  Db.add p w = (Ok tt, with_pending (pending w ++ [p]) w).
Proof. reflexivity. Qed.

Lemma str_eqb_refl (s : str) : str_eqb s s = true.
Proof. induction s as [| c s IH]; cbn; [| rewrite N.eqb_refl]; auto. Qed.

Lemma reset_check_passes_nonempty (p : str) :
  Routes.reset_password_check p = None -> str_truthy p = true.
Proof.
  unfold Routes.reset_password_check. destruct p; [discriminate | reflexivity].
Qed.

(** The route with an administrator in the session, an existing target,
    two equal passwords that pass the strength check, and a commit that
    goes through. *)
Lemma reset_password_runs (user_id aid : N) (request : Request) (w : World)
      (admin target : Models.User) (new_password : str) :
  session_user_id w = Some aid ->
  Db.find_by_id aid (users w) = Some admin ->
  Models.is_admin admin = true ->
  Db.find_by_id user_id (users w) = Some target ->
  form request "new_password" = Some new_password ->
  form request "confirm_password" = Some new_password ->
  Routes.reset_password_check new_password = None ->
  pending w = [] ->
  next_commit_ok w ->
  let target' :=
    Models.set_locked_until None
      (Models.set_failed_login_attempts 0
         (Models.set_password_hash
            (generate_password_hash (hd [] (salts w)) new_password) target)) in
  exists w',
    Routes.reset_password user_id request w =
      (Ok (redirect "nasa_bp.admin"), w') /\
    users w' = Db.update_row target' (users w) /\
    login_attempts w' = login_attempts w /\
    pending w' = [].
Proof.
  intros Hsid Hadm Hia Htg Hnew Hconf Hchk Hp Hk.
  pose proof (reset_check_passes_nonempty _ Hchk) as Hne.
  destruct w as [us la pe sid sname fl t cf sa tr].
  unfold next_commit_ok in Hk. fields in Hsid. fields in Hadm.
  fields in Htg. fields in Hp. fields in Hk. subst pe sid. fields. cbv zeta.
  eexists. split.
  - unfold Routes.reset_password, Routes.login_required.
    step (session_get_user_id_runs _). fields.
    step (session_get_user_id_runs _). fields.
    step (get_runs _ _). fields. rewrite Hadm. cbv beta iota. rewrite Hia.
    change (negb true) with false. cbv beta iota.
    match goal with
    | |- context [bind (Db.get_or_404 ?i) ?k ?W] =>
        rewrite (bind_ok _ _ _ _ _ (get_or_404_runs i target W Htg))
    end.
    cbv beta iota zeta. fields.
    rewrite Hnew, Hconf. cbn [of_option]. cbv beta iota.
    rewrite Hne, fields_given, str_eqb_refl.
    change (negb true) with false. cbv beta iota.
    rewrite Hchk. cbv beta iota.
    step (hash_password_runs _ _). fields.
    step (add_runs _ _). fields.
    match goal with
    | |- context [bind (try_except ?m ?h) ?k ?W] =>
        eassert (Hin : m W = (Ok tt, _));
        [ step_commit Hk; fields; apply flash_runs
        | rewrite (bind_ok _ _ _ _ _ (try_ok m h W _ _ Hin)) ]
    end.
    reflexivity.
  - fields. repeat split.
Qed.

(** C7. The administrative reset, for a target in any state of counter
    and lock, stores the hash of the new password, sets
    [failed_login_attempts] to 0 and clears [locked_until]. *)
Theorem reset_password_clears_lockout (user_id aid : N) (request : Request)
        (w : World) (admin target : Models.User) (new_password : str) :
  session_user_id w = Some aid ->
  Db.find_by_id aid (users w) = Some admin ->
  Models.is_admin admin = true ->
  Db.find_by_id user_id (users w) = Some target ->
  form request "new_password" = Some new_password ->
  form request "confirm_password" = Some new_password ->
  Routes.reset_password_check new_password = None ->
  pending w = [] ->
  next_commit_ok w ->
  let w' := snd (Routes.reset_password user_id request w) in
  exists target',
    Db.find_by_id user_id (users w') = Some target' /\
    Models.password_hash target' =
      generate_password_hash (hd [] (salts w)) new_password /\
    Models.failed_login_attempts target' = 0%Z /\
    Models.locked_until target' = None /\
    Models.id target' = Models.id target /\
    Models.username target' = Models.username target.
Proof.
  intros Hsid Hadm Hia Htg Hnew Hconf Hchk Hp Hk.
  destruct (reset_password_runs user_id aid request w admin target
              new_password Hsid Hadm Hia Htg Hnew Hconf Hchk Hp Hk)
    as (w' & Hrun & Hus & _).
  rewrite Hrun. fields. rewrite Hus. eexists. split.
  - now apply (find_by_id_update user_id (users w) target).
  - repeat split.
Qed.
End Reset.
(** * Further properties of the code *)

(** ** Strings *)

Lemma str_eqb_eq (a b : str) : str_eqb a b = true <-> a = b.
Proof.
  revert b. induction a as [| x a IH]; destruct b as [| y b]; cbn;
    try (split; [discriminate | discriminate]); [tauto |].
  rewrite andb_true_iff, N.eqb_eq, IH. split.
  - intros [-> ->]. reflexivity.
  - intros H. inversion H. auto.
Qed.

Lemma lstrip_head (s : str) (c : char) :
  hd_error (lstrip s) = Some c -> is_whitespace c = false.
Proof.
  induction s as [| x s IH]; cbn; [discriminate|].
  destruct (is_whitespace x) eqn:Hx; [exact IH|].
  cbn. intros H. inversion H. subst. exact Hx.
Qed.

Lemma lstrip_clean (s : str) :
  (forall c, hd_error s = Some c -> is_whitespace c = false) -> lstrip s = s.
Proof.
  destruct s as [| x s]; cbn; [reflexivity|].
  intros H. now rewrite (H x eq_refl).
Qed.

Lemma lstrip_suffix (s : str) :
  exists ws, s = ws ++ lstrip s /\ forallb is_whitespace ws = true.
Proof.
  induction s as [| x s (ws & Hs & Hw)]; cbn.
  - now exists [].
  - destruct (is_whitespace x) eqn:Hx.
    + exists (x :: ws). cbn. rewrite Hx, Hw. split; [now f_equal | reflexivity].
    + now exists [].
Qed.

Lemma lstrip_blank (s : str) : forallb is_whitespace s = true -> lstrip s = [].
Proof.
  induction s as [| x s IH]; cbn; [reflexivity|].
  rewrite andb_true_iff. intros [-> H]. auto.
Qed.

Lemma lstrip_in (s : str) (c : char) : In c (lstrip s) -> In c s.
Proof.
  destruct (lstrip_suffix s) as (ws & Hs & _). intros H.
  rewrite Hs. apply in_or_app. now right.
Qed.

Lemma strip_in (s : str) (c : char) : In c (strip s) -> In c s.
Proof.
  unfold strip, rstrip. intros H.
  rewrite <- in_rev in H. apply lstrip_in in H. rewrite <- in_rev in H.
  now apply lstrip_in.
Qed.

Lemma strip_blank (s : str) : forallb is_whitespace s = true -> strip s = [].
Proof.
  intros H. unfold strip. now rewrite (lstrip_blank s H).
Qed.

(** The head of a string survives the removal of trailing whitespace. *)
Lemma rstrip_head (s : str) (c : char) :
  (forall x, hd_error s = Some x -> is_whitespace x = false) ->
  hd_error (rstrip s) = Some c -> is_whitespace c = false.
Proof.
  intros Hs. unfold rstrip.
  destruct (lstrip_suffix (rev s)) as (ws & Hr & Hw).
  assert (Hsplit : s = rev (lstrip (rev s)) ++ rev ws).
  { rewrite <- rev_app_distr, <- Hr. now rewrite rev_involutive. }
  destruct (rev (lstrip (rev s))) as [| y t] eqn:Ht; cbn; [discriminate|].
  intros H. inversion H. subst y. apply Hs. rewrite Hsplit. reflexivity.
Qed.

Lemma strip_clean (s : str) : no_outer_whitespace (strip s).
Proof.
  split.
  - intros c. unfold strip. apply rstrip_head. apply lstrip_head.
  - intros c. unfold strip, rstrip. rewrite rev_involutive. apply lstrip_head.
Qed.

Lemma before_comma_no_comma (s : str) : ~ In 44 (before_comma s).
Proof.
  induction s as [| x s IH]; cbn; [tauto|].
  destruct (x =? 44) eqn:Hx; cbn; [tauto|].
  apply N.eqb_neq in Hx. intros [H | H]; [congruence | auto].
Qed.

(** ** [get_client_ip] *)

Lemma get_client_ip_scans (request : Request) :
  Auth.get_client_ip request = first_header request PROXY_HEADERS.
Proof. reflexivity. Qed.

Lemma first_header_skips (request : Request) (before rest : list string) :
  (forall k, In k before -> header_unset request k) ->
  first_header request (before ++ rest) = first_header request rest.
Proof.
  induction before as [| k before IH]; intros H; cbn [app first_header];
    [reflexivity|].
  rewrite IH by (intros k' Hk'; apply H; now right).
  destruct (H k (or_introl eq_refl)) as [-> | ->]; reflexivity.
Qed.

Lemma first_header_takes (request : Request) (h : string)
      (rest : list string) (v : str) :
  headers request h = Some v -> v <> [] ->
  first_header request (h :: rest) = VStr (strip (before_comma v)).
Proof.
  intros Hv Hne. cbn [first_header]. rewrite Hv. cbn.
  destruct v; [congruence | reflexivity].
Qed.

(** X1. [get_client_ip] answers with the first proxy header, in the order
    X-Real-Ip, X-Real-IP, X-Forwarded-For, X-MS-Forwarded-Client-IP, that
    is set and not empty: with its text before the first comma, stripped.
    The answer holds no comma and no whitespace at either end, and the
    address of the connection plays no part. *)
Theorem client_ip_takes_first_proxy_header (request : Request)
        (before after : list string) (h : string) (v : str) :
  PROXY_HEADERS = before ++ h :: after ->
  (forall k, In k before -> header_unset request k) ->
  headers request h = Some v ->
  v <> [] ->
  Auth.get_client_ip request = VStr (strip (before_comma v)) /\
  ~ In 44 (strip (before_comma v)) /\
  no_outer_whitespace (strip (before_comma v)).
Proof.
  intros Hsplit Hbefore Hv Hne. split; [| split].
  - rewrite get_client_ip_scans, Hsplit, first_header_skips by assumption.
    now apply first_header_takes.
  - intros H. apply strip_in in H. now apply before_comma_no_comma in H.
  - apply strip_clean.
Qed.

(** X2. When none of the four proxy headers is set, or each is empty,
    [get_client_ip] answers with REMOTE_ADDR of the WSGI environment if
    that is set and not empty, and else with [request.remote_addr], which
    may be [None]. *)
Theorem client_ip_falls_back_to_connection (request : Request) :
  (forall k, In k PROXY_HEADERS -> header_unset request k) ->
  Auth.get_client_ip request =
  match environ_remote_addr request with
  | Some (c :: a) => VStr (c :: a)
  | _ => of_option (remote_addr request)
  end.
Proof.
  intros H. rewrite get_client_ip_scans.
  rewrite <- (app_nil_r PROXY_HEADERS), first_header_skips by assumption.
  cbn [first_header]. unfold py_or.
  destruct (environ_remote_addr request) as [[| c a] |]; reflexivity.
Qed.

(** X3. A proxy header that is set but whose text before the first comma
    is blank, such as a value that starts with a comma, makes
    [get_client_ip] answer with the empty string: the headers after it and
    the address of the connection are not consulted. *)
Theorem client_ip_blank_header_gives_empty (request : Request)
        (before after : list string) (h : string) (v : str) :
  PROXY_HEADERS = before ++ h :: after ->
  (forall k, In k before -> header_unset request k) ->
  headers request h = Some v ->
  v <> [] ->
  forallb is_whitespace (before_comma v) = true ->
  Auth.get_client_ip request = VStr [].
Proof.
  intros Hsplit Hbefore Hv Hne Hblank.
  rewrite get_client_ip_scans, Hsplit, first_header_skips by assumption.
  rewrite (first_header_takes request h after v Hv Hne).
  now rewrite strip_blank.
Qed.

(** ** [log_login_attempt] *)

Lemma log_login_attempt_three (request : Request) (a b c : PyVal) :
  Auth.log_login_attempt request [a; b; c] =
  Auth.log_login_attempt_body request a b c.
Proof. reflexivity. Qed.

(** X4. A call of [log_login_attempt] with three arguments, from a clean
    session and with a commit that goes through, appends one row with the
    username and the success flag it was given and the address of
    [get_client_ip]. A user agent that is passed and is not empty is stored
    as it is, however long; otherwise the row holds the first 255
    characters of the User-Agent header, or the empty string without one. *)
Theorem audit_row_contents (request : Request)
        (username success user_agent : PyVal) (w : World) :
  pending w = [] ->
  next_commit_ok w ->
  exists r,
    login_attempts
      (snd (Auth.log_login_attempt request [username; success; user_agent] w))
    = login_attempts w ++ [r] /\
    Models.attempt_username r = username /\
    Models.attempt_success r = success /\
    Models.attempt_ip_address r = Auth.get_client_ip request /\
    (truthy user_agent = true -> Models.attempt_user_agent r = user_agent) /\
    (truthy user_agent = false ->
     exists s, Models.attempt_user_agent r = VStr s /\
               (List.length s <= 255)%nat /\
               s = firstn 255 (match headers request "User-Agent" with
                               | Some v => v
                               | None => []
                               end)).
Proof.
  intros Hp Hk. rewrite log_login_attempt_three, log_login_attempt_body_runs.
  cbn [snd]. eexists.
  destruct (after_audit_fields
              (Models.mkLoginAttempt username (Auth.get_client_ip request)
                 success (py_or user_agent (Auth.header_user_agent request)))
              w Hp) as (_ & Hla & _).
  rewrite Hla. unfold next_commit_ok in Hk. rewrite Hk.
  split; [reflexivity|]. cbn [Models.attempt_username Models.attempt_success
    Models.attempt_ip_address Models.attempt_user_agent].
  repeat split; unfold py_or; intros Ht; rewrite Ht; [reflexivity|].
  eexists. split; [reflexivity|]. split; [apply firstn_le_length | reflexivity].
Qed.

(** ** More on the password policy *)

Section PolicyMore.
Context {U : UnicodeData}.

Lemma existsb_grows {A} (f : A -> bool) (q p r : list A) :
existsb f p = true -> existsb f (q ++ p ++ r) = true.
Proof.
intros H. rewrite !existsb_app, H. now rewrite orb_true_r.
Qed.

Lemma flag_grows {A} (f : A -> bool) (q p r : list A) :
(Nat.b2n (existsb f p) <= Nat.b2n (existsb f (q ++ p ++ r)))%nat.
Proof.
destruct (existsb f p) eqn:H.
- now rewrite (existsb_grows f q p r H).
- apply Nat.le_0_l.
Qed.

Lemma categories_grow (q p r : str) :
(Auth.categories_present p <= Auth.categories_present (q ++ p ++ r))%nat.
Proof.
unfold Auth.categories_present, Auth.has_upper, Auth.has_lower,
  Auth.has_digit, Auth.has_symbol.
repeat apply Nat.add_le_mono; apply flag_grows.
Qed.

(** X5. The policy has no upper bound and no forbidden character: a
  password that [validate_password] accepts is still accepted with any
  text put before it or after it. *)
Theorem validate_password_monotone (q p r : str) :
fst (Auth.validate_password p) = true ->
fst (Auth.validate_password (q ++ p ++ r)) = true.
Proof.
intros H.
destruct (Nat.lt_ge_cases (List.length p) 16) as [Hs | Hl].
{ rewrite (validate_password_short p Hs) in H. discriminate. }
rewrite (validate_password_long p Hl) in H.
destruct (Auth.categories_present p <? 3)%nat eqn:Hc; [discriminate|].
apply Nat.ltb_ge in Hc.
assert (Hl' : (16 <= List.length (q ++ p ++ r))%nat)
  by (rewrite !length_app; lia).
rewrite (validate_password_long _ Hl').
pose proof (categories_grow q p r) as Hg.
assert ((Auth.categories_present (q ++ p ++ r) <? 3)%nat = false) as ->
  by (apply Nat.ltb_ge; lia).
reflexivity.
Qed.

Lemma add_user_check_same (p : str) :
Routes.add_user_password_check p = Routes.register_password_check p.
Proof. reflexivity. Qed.

Lemma existsb_implied {A} (f g : A -> bool) (l : list A) :
(forall x, In x l -> f x = true -> g x = true) ->
existsb f l = true -> existsb g l = true.
Proof.
intros H. rewrite !existsb_exists. intros (x & Hin & Hf).
exists x. auto.
Qed.

(** X6. On a password of ASCII characters the three strength checks
  written out in the routes ([register], [reset_password], [add_user])
  are the stricter ones: what one of them lets pass,
  [validate_password] accepts. *)
Theorem inline_checks_imply_policy_on_ascii (p : str) :
ascii_faithful U ->
Forall (fun c => c < 128) p ->
(Routes.register_password_check p = None ->
 fst (Auth.validate_password p) = true) /\
(Routes.reset_password_check p = None ->
 fst (Auth.validate_password p) = true) /\
(Routes.add_user_password_check p = None ->
 fst (Auth.validate_password p) = true).
Proof.
intros HU Hp. rewrite Forall_forall in Hp.
assert (H : Routes.register_password_check p = None ->
            fst (Auth.validate_password p) = true);
  [| split; [exact H | split; exact H]].
assert (Hup : existsb isupper p = Auth.has_upper p).
{ apply existsb_agree. intros c Hc. apply (HU c (Hp c Hc)). }
assert (Hlo : existsb islower p = Auth.has_lower p).
{ apply existsb_agree. intros c Hc. apply (HU c (Hp c Hc)). }
assert (Hdi : existsb isdigit p = Auth.has_digit p).
{ unfold Auth.has_digit. apply existsb_agree. intros c Hc.
  destruct (HU c (Hp c Hc)) as (_ & _ & Hd & Hn). now rewrite Hd, Hn. }
assert (Hsy : existsb (fun c => char_in c Routes.SYMBOLS) p = true ->
              Auth.has_symbol p = true).
{ apply existsb_implied. intros c _ Hc.
  apply symbols_not_alnum in Hc. destruct Hc as [_ Hc]. now rewrite Hc. }
unfold Routes.register_password_check, Auth.validate_password.
rewrite Hup, Hlo, Hdi.
destruct (List.length p <? 16)%nat; [discriminate|].
destruct (existsb (fun c => char_in c Routes.SYMBOLS) p);
  [rewrite (Hsy eq_refl) |];
  destruct (Auth.has_upper p), (Auth.has_lower p), (Auth.has_digit p);
  try destruct (Auth.has_symbol p); cbn; congruence.
Qed.
End PolicyMore.

(** ** [allowed_file] *)

Lemma before_dot_app (a b : str) :
  ~ In 46 a -> Routes.before_dot (a ++ 46 :: b) = a.
Proof.
  induction a as [| x a IH]; cbn; intros H; [reflexivity|].
  destruct (x =? 46) eqn:Hx.
  - apply N.eqb_eq in Hx. subst. tauto.
  - f_equal. apply IH. tauto.
Qed.

Lemma before_dot_split (s : str) :
  In 46 s ->
  exists rest, s = Routes.before_dot s ++ 46 :: rest /\
               ~ In 46 (Routes.before_dot s).
Proof.
  induction s as [| x s IH]; cbn; [tauto|].
  destruct (x =? 46) eqn:Hx.
  - apply N.eqb_eq in Hx. subst. intros _. exists s. cbn. tauto.
  - apply N.eqb_neq in Hx. intros [H | H]; [congruence|].
    destruct (IH H) as (rest & Hs & Hno). exists rest. cbn. split.
    + now f_equal.
    + intros [E | E]; [congruence | auto].
Qed.

Lemma after_last_dot_of (stem ext : str) :
  ~ In 46 ext -> Routes.after_last_dot (stem ++ 46 :: ext) = ext.
Proof.
  intros H. unfold Routes.after_last_dot.
  rewrite rev_app_distr. cbn [rev]. rewrite <- app_assoc. cbn [app].
  rewrite before_dot_app by (now rewrite <- in_rev).
  apply rev_involutive.
Qed.

Lemma holds_dot (s : str) : char_in 46 s = true <-> In 46 s.
Proof.
  unfold char_in. rewrite existsb_exists. split.
  - intros (x & Hin & Hx). apply N.eqb_eq in Hx. now subst.
  - intros H. exists 46. split; [assumption | reflexivity].
Qed.

Lemma last_dot_split (s : str) :
  In 46 s ->
  exists stem, s = stem ++ 46 :: Routes.after_last_dot s /\
               ~ In 46 (Routes.after_last_dot s).
Proof.
  intros H. rewrite in_rev in H.
  destruct (before_dot_split (rev s) H) as (rest & Hs & Hno).
  exists (rev rest). unfold Routes.after_last_dot. split.
  - rewrite <- (rev_involutive s) at 1. rewrite Hs at 1.
    rewrite rev_app_distr. cbn [rev]. now rewrite <- app_assoc.
  - now rewrite <- in_rev.
Qed.

Lemma member_of (x : str) (l : list str) :
  existsb (str_eqb x) l = true <-> In x l.
Proof.
  rewrite existsb_exists. split.
  - intros (y & Hin & Hy). apply str_eqb_eq in Hy. now subst.
  - intros H. exists x. split; [assumption | now apply str_eqb_eq].
Qed.

Section FileNames.
Context {C : UnicodeCase}.

(** X7. [allowed_file] accepts a file name exactly when it has a dot and
  the text after its last dot, in lower case, is one of png, jpg, jpeg,
  gif and webp. A name without a dot is refused, and what stands before
  the last dot plays no part. *)
Theorem allowed_file_characterised (filename : str) :
Routes.allowed_file filename = true <->
exists stem ext,
  filename = stem ++ 46 :: ext /\
  ~ In 46 ext /\
  In (lower ext) Routes.ALLOWED_EXTENSIONS.
Proof.
unfold Routes.allowed_file. rewrite andb_true_iff, holds_dot, member_of.
split.
- intros [Hdot Hext]. destruct (last_dot_split filename Hdot) as (stem & Hs & Hno).
  now exists stem, (Routes.after_last_dot filename).
- intros (stem & ext & -> & Hno & Hext). split.
  + apply in_or_app. right. now left.
  + now rewrite after_last_dot_of.
Qed.

(** X8. On extensions of ASCII characters the verdict of [allowed_file]
  depends on the extension up to case only: two names whose extensions
  are equal once [A-Z] is turned into [a-z] get the same verdict,
  whatever stands before their last dots. *)
Theorem allowed_file_ignores_stem_and_case (stem stem' ext ext' : str) :
lower_faithful C ->
Forall (fun c => c < 128) ext ->
Forall (fun c => c < 128) ext' ->
~ In 46 ext ->
~ In 46 ext' ->
map ascii_lower_char ext = map ascii_lower_char ext' ->
Routes.allowed_file (stem ++ 46 :: ext) =
Routes.allowed_file (stem' ++ 46 :: ext').
Proof.
intros HC Ha Ha' Hno Hno' Heq. unfold Routes.allowed_file.
rewrite !after_last_dot_of by assumption.
rewrite (HC ext Ha), (HC ext' Ha'), Heq. f_equal.
transitivity true; [| symmetry]; apply holds_dot, in_or_app; right; now left.
Qed.
End FileNames.

(** ** The slug loop and the excerpt of [new_post] *)

Lemma lit_injective (a b : string) : lit a = lit b -> a = b.
Proof.
  unfold lit. intros H.
  assert (Hl : list_ascii_of_string a = list_ascii_of_string b).
  { revert H. generalize (list_ascii_of_string a) (list_ascii_of_string b).
    intros l. induction l as [| x l IH]; intros [| y l']; cbn; intros H;
      try discriminate; [reflexivity|].
    inversion H as [[Hx Hr]]. f_equal; [| now apply IH].
    rewrite <- (ascii_N_embedding x), <- (ascii_N_embedding y). now f_equal. }
  rewrite <- (string_of_list_ascii_of_string a),
          <- (string_of_list_ascii_of_string b).
  now f_equal.
Qed.

Lemma str_of_nat_injective (n m : nat) : str_of_nat n = str_of_nat m -> n = m.
Proof.
  unfold str_of_nat. intros H. apply lit_injective in H.
  assert (Hu : Nat.to_uint n = Nat.to_uint m).
  { apply (f_equal NilEmpty.uint_of_string) in H.
    rewrite !NilEmpty.usu in H. now inversion H. }
  rewrite <- (DecimalNat.Unsigned.of_to n), <- (DecimalNat.Unsigned.of_to m).
  now f_equal.
Qed.

Lemma numbered_slug_injective (base : str) :
  Injective (Routes.numbered_slug base).
Proof.
  intros n m H. unfold Routes.numbered_slug in H.
  apply app_inv_head, app_inv_head in H. now apply str_of_nat_injective.
Qed.

Lemma numbered_slug_differs (base : str) (n : nat) :
  Routes.numbered_slug base n <> base.
Proof.
  unfold Routes.numbered_slug. intros H.
  apply (f_equal (@List.length char)) in H. rewrite !length_app in H.
  cbn in H. lia.
Qed.

Lemma slug_taken_in (slugs : list str) (s : str) :
  Routes.slug_taken slugs s = true <-> In s slugs.
Proof. apply member_of. Qed.

(** What the loop returns is free, and the candidates it passed were not. *)
Lemma slug_loop_found (slugs : list str) (base : str) (fuel : nat) :
  forall (slug : str) (c : nat) (s : str),
    Routes.slug_loop fuel slugs base slug c = Some s ->
    Routes.slug_taken slugs s = false /\
    (s = slug \/
     (Routes.slug_taken slugs slug = true /\
      exists n, (c <= n)%nat /\ s = Routes.numbered_slug base n /\
                forall k, (c <= k < n)%nat ->
                          Routes.slug_taken slugs (Routes.numbered_slug base k)
                          = true)).
Proof.
  induction fuel as [| fuel IH]; intros slug c s; cbn; [discriminate|].
  destruct (Routes.slug_taken slugs slug) eqn:Ht.
  - intros H. destruct (IH _ _ _ H) as [Hfree [-> | (Hn & n & Hle & -> & Hall)]].
    + split; [assumption|]. right. split; [reflexivity|].
      exists c. repeat split; [lia | intros k Hk; lia].
    + split; [assumption|]. right. split; [reflexivity|].
      exists n. repeat split; [lia|].
      intros k Hk. destruct (Nat.eq_dec k c) as [-> | Hne]; [assumption|].
      apply Hall. lia.
  - intros H. inversion H. subst. split; [assumption | now left].
Qed.

Lemma slug_loop_more_fuel (slugs : list str) (base : str) (fuel : nat) :
  forall (slug : str) (c : nat) (s : str) (fuel' : nat),
    Routes.slug_loop fuel slugs base slug c = Some s ->
    (fuel <= fuel')%nat ->
    Routes.slug_loop fuel' slugs base slug c = Some s.
Proof.
  induction fuel as [| fuel IH]; intros slug c s fuel'; cbn; [discriminate|].
  intros H Hle. destruct fuel' as [| fuel']; [lia|]. cbn.
  destruct (Routes.slug_taken slugs slug); [| assumption].
  apply (IH _ _ _ _ H). lia.
Qed.

(** A loop that runs out of fuel found every candidate taken. *)
Lemma slug_loop_exhausted (slugs : list str) (base : str) (fuel : nat) :
  forall (slug : str) (c : nat),
    Routes.slug_loop (S fuel) slugs base slug c = None ->
    incl (slug :: map (Routes.numbered_slug base) (seq c fuel)) slugs.
Proof.
  induction fuel as [| fuel IH]; intros slug c; cbn [Routes.slug_loop].
  - destruct (Routes.slug_taken slugs slug) eqn:Ht; [| discriminate].
    intros _ x [<- | []]. now apply slug_taken_in.
  - destruct (Routes.slug_taken slugs slug) eqn:Ht; [| discriminate].
    intros H x [<- | Hx]; [now apply slug_taken_in|].
    apply (IH _ _ H). exact Hx.
Qed.

(** X9. The loop of [new_post] that looks for a free slug ends after at
    most one test more than the table has posts, and more fuel does not
    change its answer. The slug it returns is not in the table: it is the
    base slug when that is free, and else base-n for the least n from 1
    whose base-n is free. *)
Theorem unique_slug_is_free (slugs : list str) (base : str) :
  exists s,
    Routes.unique_slug (S (List.length slugs)) slugs base = Some s /\
    (forall fuel, (S (List.length slugs) <= fuel)%nat ->
                  Routes.unique_slug fuel slugs base = Some s) /\
    Routes.slug_taken slugs s = false /\
    (s = base \/
     (Routes.slug_taken slugs base = true /\
      exists n, (1 <= n)%nat /\ s = Routes.numbered_slug base n /\
                forall k, (1 <= k < n)%nat ->
                          Routes.slug_taken slugs (Routes.numbered_slug base k)
                          = true)).
Proof.
  unfold Routes.unique_slug.
  destruct (Routes.slug_loop (S (List.length slugs)) slugs base base 1)
    as [s |] eqn:Hrun.
  - exists s. split; [reflexivity|]. split.
    + intros fuel Hle. now apply (slug_loop_more_fuel _ _ _ _ _ _ _ Hrun).
    + now apply (slug_loop_found _ _ _ _ _ _ Hrun).
  - exfalso. apply slug_loop_exhausted in Hrun.
    apply NoDup_incl_length in Hrun.
    + cbn [List.length] in Hrun. rewrite length_map, length_seq in Hrun. lia.
    + constructor.
      * rewrite in_map_iff. intros (n & Hn & _).
        now apply numbered_slug_differs in Hn.
      * apply Injective_map_NoDup; [apply numbered_slug_injective|].
        apply seq_NoDup.
Qed.

(** X10. The excerpt that [new_post] stores never has more than 500
    characters: it is the start of the excerpt that was given, or, without
    one, the first 200 characters of the content followed by three dots. *)
Theorem post_excerpt_bounded (excerpt content : str) :
  (List.length (Routes.post_excerpt excerpt content) <= 500)%nat /\
  (excerpt <> [] ->
   Routes.post_excerpt excerpt content = firstn 500 excerpt) /\
  (excerpt = [] ->
   List.length (Routes.post_excerpt excerpt content)
   = (Nat.min 200 (List.length content) + 3)%nat).
Proof.
  unfold Routes.post_excerpt. destruct excerpt as [| c e]; cbn [str_truthy].
  - split; [| split]; [| congruence | intros _].
    + rewrite length_app, length_firstn.
      change (List.length (lit "...")) with 3%nat. lia.
    + rewrite length_app, length_firstn. reflexivity.
  - split; [| split]; [| reflexivity | discriminate].
    rewrite length_firstn. lia.
Qed.

(** ** Rows and their keys *)

Lemma find_by_id_key (uid : N) (rows : list Models.User) (u : Models.User) :
  Db.find_by_id uid rows = Some u -> Models.id u = uid /\ In u rows.
Proof.
  unfold Db.find_by_id. intros H. destruct (find_some _ _ H) as [Hin Heq].
  apply N.eqb_eq in Heq. now split.
Qed.

Lemma find_by_id_update_other (uid : N) (rows : list Models.User)
      (u' : Models.User) :
  uid <> Models.id u' ->
  Db.find_by_id uid (Db.update_row u' rows) = Db.find_by_id uid rows.
Proof.
  intros Hne. unfold Db.find_by_id, Db.update_row.
  induction rows as [| r rows IH]; cbn; [reflexivity|].
  destruct (Models.id r =? Models.id u') eqn:Hr.
  - apply N.eqb_eq in Hr.
    assert (Hu : (Models.id u' =? uid) = false) by (apply N.eqb_neq; congruence).
    assert (Hx : (Models.id r =? uid) = false) by (apply N.eqb_neq; congruence).
    now rewrite Hu, Hx.
  - destruct (Models.id r =? uid); [reflexivity | exact IH].
Qed.

Lemma update_row_keys (u' : Models.User) (rows : list Models.User) :
  map Models.id (Db.update_row u' rows) = map Models.id rows.
Proof.
  unfold Db.update_row. induction rows as [| r rows IH]; cbn; [reflexivity|].
  rewrite IH. destruct (Models.id r =? Models.id u') eqn:Hr; [| reflexivity].
  apply N.eqb_eq in Hr. now rewrite Hr.
Qed.

(** Rows with the same key are the same row when keys are unique. *)
Lemma unique_key (rows : list Models.User) (a b : Models.User) :
  NoDup (map Models.id rows) -> In a rows -> In b rows ->
  Models.id a = Models.id b -> a = b.
Proof.
  induction rows as [| r rows IH]; cbn; [tauto|].
  intros Hnd Ha Hb Hid. inversion Hnd as [| x l Hnotin Hnd']; subst.
  destruct Ha as [-> | Ha], Hb as [-> | Hb]; auto.
  - exfalso. apply Hnotin. rewrite Hid. now apply in_map.
  - exfalso. apply Hnotin. rewrite <- Hid. now apply in_map.
Qed.

Lemma update_row_same (u : Models.User) (rows : list Models.User) :
  NoDup (map Models.id rows) -> In u rows -> Db.update_row u rows = rows.
Proof.
  intros Hnd Hin. unfold Db.update_row.
  rewrite <- (map_id rows) at 2. apply map_ext_in. intros r Hr.
  destruct (Models.id r =? Models.id u) eqn:Hk; [| reflexivity].
  apply N.eqb_eq in Hk. symmetry. now apply (unique_key rows).
Qed.

Lemma update_row_twice (u' u'' : Models.User) (rows : list Models.User) :
  Models.id u'' = Models.id u' ->
  Db.update_row u'' (Db.update_row u' rows) = Db.update_row u'' rows.
Proof.
  intros Hid. unfold Db.update_row. rewrite map_map. apply map_ext.
  intros r. rewrite Hid.
  destruct (Models.id r =? Models.id u') eqn:Hk; [now rewrite N.eqb_refl|].
  now rewrite Hk.
Qed.

(** An update that keeps the identity of a row keeps the identities of the
    table. *)
Lemma update_row_identity (u u' : Models.User) (rows : list Models.User) :
  NoDup (map Models.id rows) -> In u rows ->
  identity_of u' = identity_of u ->
  map identity_of (Db.update_row u' rows) = map identity_of rows.
Proof.
  intros Hnd Hin Hid. unfold Db.update_row. rewrite map_map.
  apply map_ext_in. intros r Hr.
  destruct (Models.id r =? Models.id u') eqn:Hk; [| reflexivity].
  apply N.eqb_eq in Hk.
  assert (Hk' : Models.id r = Models.id u).
  { rewrite Hk. unfold identity_of in Hid. now inversion Hid. }
  now rewrite (unique_key rows r u Hnd Hr Hin Hk').
Qed.

(** ** The routes of the administrator *)

Section Admin.
Context {U : UnicodeData} {E : Externals}.

(** Passes [login_required] and loads the user of the session. *)
Ltac enter_guard :=
  unfold Routes.login_required;
  step (session_get_user_id_runs _); fields;
  step (session_get_user_id_runs _); fields;
  step (get_runs _ _); fields.

Lemma guard_without_session (f : M Response) (w : World) :
  session_user_id w = None ->
  turned_away (Routes.login_required f) w (redirect "nasa_bp.login")
              please_log_in.
Proof.
  intros Hs. destruct w as [us la pe sid sname fl t cf sa tr].
  fields in Hs. subst sid. eexists. split.
  - unfold Routes.login_required.
    step (session_get_user_id_runs _). fields.
    step (flash_runs _ _ _ _). reflexivity.
  - fields. repeat split.
Qed.

Ltac deny Hn :=
  match type of Hn with
  | no_rights ?o =>
      destruct o as [u |]; cbn [no_rights] in Hn; cbv beta iota;
      [rewrite Hn; change (negb false) with true; cbv beta iota |];
      step (flash_runs _ _ _ _); reflexivity
  end.

Lemma reset_password_denied (user_id uid : N) (request : Request) (w : World) :
  session_user_id w = Some uid ->
  no_rights (Db.find_by_id uid (users w)) ->
  turned_away (Routes.reset_password user_id request) w
              (redirect "nasa_bp.index") access_denied.
Proof.
  intros Hs Hn. destruct w as [us la pe sid sname fl t cf sa tr].
  fields in Hs. fields in Hn. subst sid. eexists. split.
  - unfold Routes.reset_password. enter_guard. deny Hn.
  - fields. repeat split.
Qed.

Lemma approve_user_denied (user_id uid : N) (w : World) :
  session_user_id w = Some uid ->
  no_rights (Db.find_by_id uid (users w)) ->
  turned_away (Routes.approve_user user_id) w
              (redirect "nasa_bp.index") access_denied.
Proof.
  intros Hs Hn. destruct w as [us la pe sid sname fl t cf sa tr].
  fields in Hs. fields in Hn. subst sid. eexists. split.
  - unfold Routes.approve_user. enter_guard. deny Hn.
  - fields. repeat split.
Qed.

Lemma toggle_admin_denied (user_id uid : N) (w : World) :
  session_user_id w = Some uid ->
  no_rights (Db.find_by_id uid (users w)) ->
  turned_away (Routes.toggle_admin user_id) w
              (redirect "nasa_bp.index") access_denied.
Proof.
  intros Hs Hn. destruct w as [us la pe sid sname fl t cf sa tr].
  fields in Hs. fields in Hn. subst sid. eexists. split.
  - unfold Routes.toggle_admin. enter_guard. deny Hn.
  - fields. repeat split.
Qed.

Lemma add_user_denied (uid : N) (request : Request) (w : World) :
  session_user_id w = Some uid ->
  no_rights (Db.find_by_id uid (users w)) ->
  turned_away (Routes.add_user request) w
              (redirect "nasa_bp.index") access_denied.
Proof.
  intros Hs Hn. destruct w as [us la pe sid sname fl t cf sa tr].
  fields in Hs. fields in Hn. subst sid. eexists. split.
  - unfold Routes.add_user. enter_guard. deny Hn.
  - fields. repeat split.
Qed.

(** X11. None of the four administrator routes does anything for a
    session that is not an administrator's: without a session the
    answer is the login page, with the session of a user who is no
    administrator, or who no longer exists, it is the index page; either
    way one message is flashed and neither a table, nor the session of
    the database, nor the login session changes. *)
Theorem admin_routes_refuse_non_admin (user_id : N) (request : Request)
        (w : World) (route : M Response) :
  not_admin w ->
  In route [Routes.reset_password user_id request;
            Routes.approve_user user_id;
            Routes.toggle_admin user_id;
            Routes.add_user request] ->
  match session_user_id w with
  | None => turned_away route w (redirect "nasa_bp.login") please_log_in
  | Some _ => turned_away route w (redirect "nasa_bp.index") access_denied
  end.
Proof.
  unfold not_admin. intros Hn Hr.
  destruct (session_user_id w) as [uid |] eqn:Hs.
  - assert (Hno : no_rights (Db.find_by_id uid (users w)))
      by (unfold no_rights; destruct (Db.find_by_id uid (users w)); auto).
    destruct Hr as [<- | [<- | [<- | [<- | []]]]];
      eauto using reset_password_denied, approve_user_denied,
                  toggle_admin_denied, add_user_denied.
  - destruct Hr as [<- | [<- | [<- | [<- | []]]]];
      now apply guard_without_session.
Qed.

(** Passes the administrator check. *)
Ltac pass_check Hadm Hia :=
  rewrite Hadm; cbv beta iota; rewrite Hia;
  change (negb true) with false; cbv beta iota.

Ltac load_target target Htg :=
  match goal with
  | |- context [bind (Db.get_or_404 ?i) ?k ?W] =>
      rewrite (bind_ok _ _ _ _ _ (get_or_404_runs i target W Htg))
  end;
  cbv beta iota zeta; fields.

Lemma get_or_404_missing (uid : N) (w : World) :
  Db.find_by_id uid (users w) = None ->
  Db.get_or_404 uid w =
  (Raised NotFound, with_trace (trace w ++ [EvGetUser uid]) w).
Proof.
  intros H. unfold Db.get_or_404. step (get_runs _ _). now rewrite H.
Qed.

Ltac miss_target Htg :=
  match goal with
  | |- context [bind (Db.get_or_404 ?i) ?k ?W] =>
      rewrite (bind_raised _ _ _ _ _ (get_or_404_missing i W Htg))
  end.

(** [approve_user] for an administrator and a target that exists, with a
    commit that goes through. *)
Lemma approve_user_runs (user_id aid : N) (w : World)
      (admin target : Models.User) :
  session_user_id w = Some aid ->
  Db.find_by_id aid (users w) = Some admin ->
  Models.is_admin admin = true ->
  Db.find_by_id user_id (users w) = Some target ->
  pending w = [] ->
  next_commit_ok w ->
  exists w',
    Routes.approve_user user_id w = (Ok (redirect "nasa_bp.admin"), w') /\
    users w' = Db.update_row (Models.set_is_approved true target) (users w) /\
    login_attempts w' = login_attempts w /\
    pending w' = [] /\
    session_user_id w' = session_user_id w /\
    session_username w' = session_username w /\
    now w' = now w /\
    commit_faults w' = tl (commit_faults w) /\
    salts w' = salts w /\
    flashes w' =
      flashes w ++ [mkFlash "User {target_user.username} has been approved."
                            [AStr (Models.username target)] "success"].
Proof.
  intros Hsid Hadm Hia Htg Hp Hk.
  destruct w as [us la pe sid sname fl t cf sa tr].
  unfold next_commit_ok in Hk. fields in Hsid. fields in Hadm.
  fields in Htg. fields in Hp. fields in Hk. subst pe sid. fields.
  eexists. split.
  - unfold Routes.approve_user. enter_guard. pass_check Hadm Hia.
    load_target target Htg.
    step (add_runs _ _). fields. step_commit Hk. fields.
    step (flash_runs _ _ _ _). reflexivity.
  - fields. repeat split.
Qed.

(** X12. When an administrator approves an account, the route answers
    with the admin page, the account is approved and is otherwise as it
    was, every other account is as it was, and no row is added or
    removed. *)
Theorem approve_user_approves_only_the_target (user_id aid : N) (w : World)
        (admin target : Models.User) :
  session_user_id w = Some aid ->
  Db.find_by_id aid (users w) = Some admin ->
  Models.is_admin admin = true ->
  Db.find_by_id user_id (users w) = Some target ->
  pending w = [] ->
  next_commit_ok w ->
  exists w',
    Routes.approve_user user_id w = (Ok (redirect "nasa_bp.admin"), w') /\
    Db.find_by_id user_id (users w')
    = Some (Models.set_is_approved true target) /\
    (forall uid, uid <> user_id ->
                 Db.find_by_id uid (users w') = Db.find_by_id uid (users w)) /\
    map Models.id (users w') = map Models.id (users w) /\
    login_attempts w' = login_attempts w.
Proof.
  intros Hsid Hadm Hia Htg Hp Hk.
  destruct (approve_user_runs user_id aid w admin target
              Hsid Hadm Hia Htg Hp Hk) as (w' & Hrun & Hus & Hla & _).
  destruct (find_by_id_key _ _ _ Htg) as [Hkey _].
  exists w'. rewrite Hus. repeat split.
  - exact Hrun.
  - now apply (find_by_id_update user_id (users w) target).
  - intros uid Hne. apply find_by_id_update_other. cbn. congruence.
  - apply update_row_keys.
  - exact Hla.
Qed.

(** X13. The three routes that take the key of an account answer a key
    that no account has with 404, for an administrator too, and write
    nothing. *)
Theorem admin_routes_missing_target (user_id aid : N) (request : Request)
        (w : World) (admin : Models.User) (route : M Response) :
  session_user_id w = Some aid ->
  Db.find_by_id aid (users w) = Some admin ->
  Models.is_admin admin = true ->
  Db.find_by_id user_id (users w) = None ->
  In route [Routes.reset_password user_id request;
            Routes.approve_user user_id;
            Routes.toggle_admin user_id] ->
  exists w',
    route w = (Raised NotFound, w') /\
    users w' = users w /\
    login_attempts w' = login_attempts w /\
    pending w' = pending w /\
    flashes w' = flashes w.
Proof.
  intros Hsid Hadm Hia Htg Hr.
  destruct w as [us la pe sid sname fl t cf sa tr].
  fields in Hsid. fields in Hadm. fields in Htg. subst sid. fields.
  destruct Hr as [<- | [<- | [<- | []]]]; eexists; split.
  - unfold Routes.reset_password. enter_guard. pass_check Hadm Hia.
    miss_target Htg. reflexivity.
  - fields. repeat split.
  - unfold Routes.approve_user. enter_guard. pass_check Hadm Hia.
    miss_target Htg. reflexivity.
  - fields. repeat split.
  - unfold Routes.toggle_admin. enter_guard. pass_check Hadm Hia.
    miss_target Htg. reflexivity.
  - fields. repeat split.
Qed.

(** X14. An administrator cannot take their own rights away:
    [toggle_admin] on the key of the session only flashes a warning. *)
Theorem toggle_admin_refuses_own_account (aid : N) (w : World)
        (admin : Models.User) :
  session_user_id w = Some aid ->
  Db.find_by_id aid (users w) = Some admin ->
  Models.is_admin admin = true ->
  turned_away (Routes.toggle_admin aid) w (redirect "nasa_bp.admin")
              (mkFlash "You cannot change your own admin status." []
                       "warning").
Proof.
  intros Hsid Hadm Hia.
  destruct w as [us la pe sid sname fl t cf sa tr].
  fields in Hsid. fields in Hadm. subst sid. eexists. split.
  - unfold Routes.toggle_admin. enter_guard. pass_check Hadm Hia.
    load_target admin Hadm. rewrite N.eqb_refl. cbv beta iota.
    step (flash_runs _ _ _ _). reflexivity.
  - fields. repeat split.
Qed.

(** [toggle_admin] for an administrator and another account. *)
Lemma toggle_admin_runs (user_id aid : N) (w : World)
      (admin target : Models.User) :
  session_user_id w = Some aid ->
  Db.find_by_id aid (users w) = Some admin ->
  Models.is_admin admin = true ->
  Db.find_by_id user_id (users w) = Some target ->
  user_id <> aid ->
  pending w = [] ->
  next_commit_ok w ->
  let target' :=
    Models.set_is_admin (negb (Models.is_admin target)) target in
  exists w',
    Routes.toggle_admin user_id w = (Ok (redirect "nasa_bp.admin"), w') /\
    users w' = Db.update_row target' (users w) /\
    login_attempts w' = login_attempts w /\
    pending w' = [] /\
    session_user_id w' = session_user_id w /\
    commit_faults w' = tl (commit_faults w) /\
    flashes w' =
      flashes w ++
      [mkFlash "Admin privileges {status} for {target_user.username}."
               [AStr (if Models.is_admin target then lit "revoked"
                      else lit "granted");
                AStr (Models.username target)] "success"].
Proof.
  intros Hsid Hadm Hia Htg Hne Hp Hk.
  destruct (find_by_id_key _ _ _ Htg) as [Hkt _].
  destruct (find_by_id_key _ _ _ Hadm) as [Hka _].
  assert (Hdiff : (Models.id target =? Models.id admin) = false)
    by (apply N.eqb_neq; congruence).
  destruct w as [us la pe sid sname fl t cf sa tr].
  unfold next_commit_ok in Hk. fields in Hsid. fields in Hadm.
  fields in Htg. fields in Hp. fields in Hk. subst pe sid. fields. cbv zeta.
  eexists. split.
  - unfold Routes.toggle_admin. enter_guard. pass_check Hadm Hia.
    load_target target Htg. rewrite Hdiff. cbv beta iota.
    step (add_runs _ _). fields. step_commit Hk. fields.
    step (flash_runs _ _ _ _). reflexivity.
  - fields. cbn [Models.is_admin Models.set_is_admin Models.username].
    destruct (Models.is_admin target); repeat split.
Qed.

(** X15. [toggle_admin] on another account flips its administrator flag
    and changes nothing else: not another field of the account, not
    another account, and so not the rights of the administrator who
    asked. *)
Theorem toggle_admin_flips_only_the_target (user_id aid : N) (w : World)
        (admin target : Models.User) :
  session_user_id w = Some aid ->
  Db.find_by_id aid (users w) = Some admin ->
  Models.is_admin admin = true ->
  Db.find_by_id user_id (users w) = Some target ->
  user_id <> aid ->
  pending w = [] ->
  next_commit_ok w ->
  exists w',
    Routes.toggle_admin user_id w = (Ok (redirect "nasa_bp.admin"), w') /\
    Db.find_by_id user_id (users w')
    = Some (Models.set_is_admin (negb (Models.is_admin target)) target) /\
    (forall uid, uid <> user_id ->
                 Db.find_by_id uid (users w') = Db.find_by_id uid (users w)) /\
    Db.find_by_id aid (users w') = Some admin /\
    map Models.id (users w') = map Models.id (users w).
Proof.
  intros Hsid Hadm Hia Htg Hne Hp Hk.
  destruct (toggle_admin_runs user_id aid w admin target
              Hsid Hadm Hia Htg Hne Hp Hk) as (w' & Hrun & Hus & _).
  destruct (find_by_id_key _ _ _ Htg) as [Hkey _].
  assert (Hother : forall uid, uid <> user_id ->
            Db.find_by_id uid (users w') = Db.find_by_id uid (users w)).
  { intros uid Hu. rewrite Hus. apply find_by_id_update_other. cbn.
    congruence. }
  exists w'. repeat split.
  - exact Hrun.
  - rewrite Hus. now apply (find_by_id_update user_id (users w) target).
  - exact Hother.
  - rewrite Hother by congruence. exact Hadm.
  - rewrite Hus. apply update_row_keys.
Qed.

Lemma set_is_admin_back (u : Models.User) :
  Models.set_is_admin
    (negb (Models.is_admin
             (Models.set_is_admin (negb (Models.is_admin u)) u)))
    (Models.set_is_admin (negb (Models.is_admin u)) u) = u.
Proof. destruct u as [i n e h f l ap ac ad]. cbn. now rewrite negb_involutive. Qed.

(** X16. Toggling the same account twice puts the user table back as it
    was. *)
Theorem toggle_admin_twice_restores (user_id aid : N) (w : World)
        (admin target : Models.User) :
  session_user_id w = Some aid ->
  Db.find_by_id aid (users w) = Some admin ->
  Models.is_admin admin = true ->
  Db.find_by_id user_id (users w) = Some target ->
  user_id <> aid ->
  NoDup (map Models.id (users w)) ->
  pending w = [] ->
  next_commit_ok w ->
  audit_commit_ok w ->
  let w1 := snd (Routes.toggle_admin user_id w) in
  let w2 := snd (Routes.toggle_admin user_id w1) in
  fst (Routes.toggle_admin user_id w1) = Ok (redirect "nasa_bp.admin") /\
  users w1 <> users w /\
  users w2 = users w.
Proof.
  intros Hsid Hadm Hia Htg Hne Hnd Hp Hk Hk2.
  destruct (toggle_admin_runs user_id aid w admin target
              Hsid Hadm Hia Htg Hne Hp Hk)
    as (w1 & Hrun & Hus & _ & Hp1 & Hs1 & Hcf1 & _).
  cbv zeta. rewrite Hrun. cbn [snd].
  destruct (find_by_id_key _ _ _ Htg) as [Hkey Hin].
  set (target' := Models.set_is_admin (negb (Models.is_admin target)) target)
    in *.
  assert (Htg1 : Db.find_by_id user_id (users w1) = Some target')
    by (rewrite Hus; now apply (find_by_id_update user_id (users w) target)).
  assert (Hadm1 : Db.find_by_id aid (users w1) = Some admin).
  { rewrite Hus, find_by_id_update_other; [exact Hadm|]. cbn. congruence. }
  assert (Hk1 : next_commit_ok w1)
    by (unfold next_commit_ok; rewrite Hcf1; exact Hk2).
  destruct (toggle_admin_runs user_id aid w1 admin target'
              (eq_trans Hs1 Hsid) Hadm1 Hia Htg1 Hne Hp1 Hk1)
    as (w2 & Hrun2 & Hus2 & _).
  rewrite Hrun2. cbn [fst snd]. split; [reflexivity|]. split.
  - rewrite Hus. intros Heq.
    assert (Hf : Db.find_by_id user_id (users w) = Some target')
      by (rewrite <- Heq, <- Hus; exact Htg1).
    rewrite Htg in Hf. inversion Hf as [Ht].
    apply (f_equal Models.is_admin) in Ht. subst target'. cbn in Ht.
    now destruct (Models.is_admin target).
  - rewrite Hus2, Hus. subst target'. rewrite set_is_admin_back.
    rewrite update_row_twice by reflexivity.
    now apply update_row_same.
Qed.
End Admin.

(** ** New accounts: [register] and [add_user] *)

Section Accounts.
Context {U : UnicodeData} {E : Externals}.

Lemma query_by_email_runs (mail : str) (w : World) :
  Db.query_by_email mail w = (Ok (Db.find_by_email mail (users w)), w).
Proof. reflexivity. Qed.

Lemma rollback_runs (w : World) :
  Db.rollback w =
  (Ok tt, with_trace (trace w ++ [EvRollback]) (with_pending [] w)).
Proof. reflexivity. Qed.

Lemma emit_runs (e : Event) (w : World) :
  emit e w = (Ok tt, with_trace (trace w ++ [e]) w).
Proof. reflexivity. Qed.

Lemma register_check_passes_nonempty (p : str) :
  Routes.register_password_check p = None -> str_truthy p = true.
Proof.
  unfold Routes.register_password_check. destruct p; [discriminate | reflexivity].
Qed.

(** The key of an insert is new. *)
Lemma next_id_above (rows : list Models.User) (u : Models.User) :
  In u rows -> Models.id u < Db.next_id rows.
Proof.
  unfold Db.next_id. induction rows as [| r rows IH]; cbn; [tauto|].
  intros [-> | Hin]; [lia|]. specialize (IH Hin). lia.
Qed.

Lemma next_id_fresh (rows : list Models.User) :
  ~ In (Db.next_id rows) (map Models.id rows).
Proof.
  rewrite in_map_iff. intros (u & Hid & Hin).
  apply next_id_above in Hin. lia.
Qed.

(** [register] for a form that passes every check, with a free username
    and a free email and a commit that goes through. *)
Lemma register_runs (request : Request) (w : World)
      (name mail password : str) :
  Registers request name mail password ->
  Db.find_by_username name (users w) = None ->
  Db.find_by_email mail (users w) = None ->
  pending w = [] ->
  next_commit_ok w ->
  exists w',
    Routes.register request w = (Ok (redirect "nasa_bp.login"), w') /\
    users w' =
      users w ++ [Db.with_id (Db.next_id (users w))
                    (registered name mail password (hd [] (salts w)))] /\
    login_attempts w' = login_attempts w /\
    pending w' = [] /\
    session_user_id w' = session_user_id w /\
    session_username w' = session_username w /\
    now w' = now w /\
    commit_faults w' = tl (commit_faults w) /\
    salts w' = tl (salts w).
Proof.
  intros (Hm & Hn & He & Hpw & Hpc & Tn & Te & Hchk & Tc & Ta & a & Hc & Ha)
         Hfn Hfe Hp Hk.
  pose proof (register_check_passes_nonempty _ Hchk) as Tp.
  destruct w as [us la pe sid sname fl t cf sa tr].
  unfold next_commit_ok in Hk. fields in Hfn. fields in Hfe. fields in Hp.
  fields in Hk. subst pe. fields.
  eexists. split.
  - unfold Routes.register. rewrite Hm. cbv beta iota zeta.
    rewrite Tc, Ta, fields_given. cbv beta iota.
    rewrite Hc, Ha. cbv beta iota. rewrite Z.eqb_refl.
    change (negb true) with false. cbv beta iota.
    rewrite Hn, He, Hpw, Hpc, Tn, Te, Tp.
    change (negb true || negb true || negb true) with false.
    cbv beta iota. rewrite str_eqb_refl.
    change (negb true) with false. cbv beta iota. rewrite Hchk.
    step (query_by_username_runs _ _). fields. rewrite Hfn. cbv beta iota.
    step (query_by_email_runs _ _). fields. rewrite Hfe. cbv beta iota.
    step (hash_password_runs _ _). fields.
    eapply eq_trans; [| reflexivity].
    eapply try_ok.
    step (add_runs _ _). fields. step_commit Hk. fields.
    step (flash_runs _ _ _ _). reflexivity.
  - fields. repeat split.
Qed.

(** *** What [register] can do, for any form *)

Ltac stay :=
  do 2 eexists;
  split; [first [reflexivity
                | cbn [negb orb]; step (flash_runs _ _ _ _); reflexivity]|];
  fields; repeat split; left; split; reflexivity.

(** The route returns a page in every case; it leaves the user table as
    it was, or adds the one row of the form. *)
Lemma register_outcome (request : Request) (w : World) :
  pending w = [] ->
  let name := strip (form_get request "username") in
  let mail := strip (form_get request "email") in
  let password := form_get request "password" in
  exists r w',
    Routes.register request w = (Ok r, w') /\
    login_attempts w' = login_attempts w /\
    pending w' = [] /\
    session_user_id w' = session_user_id w /\
    ((r = render_template "nasa_register.html" /\ users w' = users w) \/
     (r = redirect "nasa_bp.login" /\
      Registers request name mail password /\
      Db.find_by_username name (users w) = None /\
      Db.find_by_email mail (users w) = None /\
      users w' =
        users w ++ [Db.with_id (Db.next_id (users w))
                      (registered name mail password (hd [] (salts w)))])).
Proof.
  intros Hp. cbv zeta.
  destruct w as [us la pe sid sname fl t cf sa tr].
  fields in Hp. subst pe. fields.
  unfold Routes.register.
  destruct (method request) eqn:Hm; [stay|]. cbv beta iota zeta.
  destruct (str_truthy (strip (form_get request "captcha"))) eqn:Tc;
    [| stay].
  destruct (str_truthy (strip (form_get request "captcha_answer"))) eqn:Ta;
    [| stay].
  rewrite fields_given. cbv beta iota.
  destruct (py_int (strip (form_get request "captcha"))) as [a |] eqn:Hc;
    [| stay].
  destruct (py_int (strip (form_get request "captcha_answer"))) as [b |]
    eqn:Ha; [| stay].
  destruct (a =? b)%Z eqn:Hab; [| stay].
  apply Z.eqb_eq in Hab. subst b.
  change (negb true) with false. cbv beta iota.
  destruct (str_truthy (strip (form_get request "username"))) eqn:Tn;
    [| stay].
  destruct (str_truthy (strip (form_get request "email"))) eqn:Te;
    [| stay].
  destruct (str_truthy (form_get request "password")) eqn:Tp; [| stay].
  change (negb true || negb true || negb true) with false.
  cbv beta iota.
  destruct (str_eqb (form_get request "password")
                    (form_get request "password_confirm")) eqn:Hpc;
    [| stay].
  apply str_eqb_eq in Hpc.
  change (negb true) with false. cbv beta iota.
  destruct (Routes.register_password_check (form_get request "password"))
    as [message |] eqn:Hchk; [stay|].
  step (query_by_username_runs _ _). fields.
  destruct (Db.find_by_username (strip (form_get request "username")) us)
    as [taken |] eqn:Hfn; [stay|].
  step (query_by_email_runs _ _). fields.
  destruct (Db.find_by_email (strip (form_get request "email")) us)
    as [known |] eqn:Hfe; [stay|].
  step (hash_password_runs _ _). fields.
  destruct cf as [| [|] rest].
  - do 2 eexists. split.
    + eapply try_ok. step (add_runs _ _). fields.
      step_commit (eq_refl false). fields.
      step (flash_runs _ _ _ _). reflexivity.
    + fields. repeat split. right. unfold Registers. repeat split; eauto.
  - do 2 eexists. split.
    + eapply eq_trans.
      * eapply try_raised. step (add_runs _ _). fields.
        match goal with
        | |- context [bind Db.commit ?k ?W] =>
            rewrite (bind_raised _ _ _ _ _ (commit_fails W rest eq_refl))
        end.
        reflexivity.
      * step (rollback_runs _). fields. step (emit_runs _ _). fields.
        step (flash_runs _ _ _ _). reflexivity.
    + fields. repeat split. left. split; reflexivity.
  - do 2 eexists. split.
    + eapply try_ok. step (add_runs _ _). fields.
      step_commit (eq_refl false). fields.
      step (flash_runs _ _ _ _). reflexivity.
    + fields. repeat split. right. unfold Registers. repeat split; eauto.
Qed.

(** *** What [add_user] can do *)

Lemma add_user_check_passes_nonempty (p : str) :
  Routes.add_user_password_check p = None -> str_truthy p = true.
Proof.
  unfold Routes.add_user_password_check. destruct p; [discriminate | reflexivity].
Qed.

Ltac enter_guard :=
  unfold Routes.login_required;
  step (session_get_user_id_runs _); fields;
  step (session_get_user_id_runs _); fields;
  step (get_runs _ _); fields.

(** [add_user] for an administrator and a form that passes every check,
    with a free username and a free email and a commit that goes
    through. *)
Lemma add_user_runs (request : Request) (w : World)
      (name mail password : str) :
  admin_session w ->
  Adds request name mail password ->
  Db.find_by_username name (users w) = None ->
  Db.find_by_email mail (users w) = None ->
  pending w = [] ->
  next_commit_ok w ->
  exists w',
    Routes.add_user request w = (Ok (redirect "nasa_bp.admin"), w') /\
    users w' =
      users w ++ [Db.with_id (Db.next_id (users w))
                    (added request name mail password (hd [] (salts w)))] /\
    login_attempts w' = login_attempts w /\
    pending w' = [] /\
    session_user_id w' = session_user_id w /\
    session_username w' = session_username w /\
    now w' = now w /\
    commit_faults w' = tl (commit_faults w) /\
    salts w' = tl (salts w).
Proof.
  intros (aid & admin & Hsid & Hadm & Hia)
         (Hn & He & Hpw & Hpc & Tn & Te & Hchk) Hfn Hfe Hp Hk.
  pose proof (add_user_check_passes_nonempty _ Hchk) as Tp.
  destruct w as [us la pe sid sname fl t cf sa tr].
  unfold next_commit_ok in Hk. fields in Hsid. fields in Hadm.
  fields in Hfn. fields in Hfe. fields in Hp. fields in Hk.
  subst pe sid. fields.
  eexists. split.
  - unfold Routes.add_user. enter_guard.
    rewrite Hadm. cbv beta iota. rewrite Hia.
    change (negb true) with false. cbv beta iota zeta.
    rewrite Hn, He, Hpw, Hpc, Tn, Te, Tp.
    change (negb true || negb true || negb true) with false.
    cbv beta iota. rewrite str_eqb_refl.
    change (negb true) with false. cbv beta iota. rewrite Hchk.
    step (query_by_username_runs _ _). fields. rewrite Hfn. cbv beta iota.
    step (query_by_email_runs _ _). fields. rewrite Hfe. cbv beta iota.
    step (hash_password_runs _ _). fields.
    match goal with
    | |- context [bind (try_except ?m ?h) ?k ?W] =>
        eassert (Hin : m W = (Ok tt, _));
        [ step (add_runs _ _); fields; step_commit Hk; fields;
          apply flash_runs
        | rewrite (bind_ok _ _ _ _ _ (try_ok m h W _ _ Hin)) ]
    end.
    reflexivity.
  - fields. repeat split.
Qed.

Ltac stays :=
  do 2 eexists;
  split; [cbn [negb orb]; step (flash_runs _ _ _ _); reflexivity|];
  fields; repeat split; left; reflexivity.

(** The route returns a redirect in every case; it leaves the user table
    as it was, or adds the one row of the form, and that only for an
    administrator. *)
Lemma add_user_outcome (request : Request) (w : World) :
  pending w = [] ->
  let name := strip (form_get request "username") in
  let mail := strip (form_get request "email") in
  let password := form_get request "password" in
  exists r w',
    Routes.add_user request w = (Ok r, w') /\
    login_attempts w' = login_attempts w /\
    pending w' = [] /\
    session_user_id w' = session_user_id w /\
    (users w' = users w \/
     (admin_session w /\
      Adds request name mail password /\
      Db.find_by_username name (users w) = None /\
      Db.find_by_email mail (users w) = None /\
      users w' =
        users w ++ [Db.with_id (Db.next_id (users w))
                      (added request name mail password (hd [] (salts w)))])).
Proof.
  intros Hp. cbv zeta.
  destruct w as [us la pe sid sname fl t cf sa tr].
  fields in Hp. subst pe. fields.
  unfold Routes.add_user.
  destruct sid as [aid |].
  2:{ unfold Routes.login_required.
      step (session_get_user_id_runs _). fields. stays. }
  enter_guard.
  destruct (Db.find_by_id aid us) as [admin |] eqn:Hadm; cbv beta iota;
    [| stays].
  destruct (Models.is_admin admin) eqn:Hia;
    [change (negb true) with false
    | change (negb false) with true; cbv beta iota; stays].
  cbv beta iota zeta.
  assert (Has : admin_session (mkWorld us la [] (Some aid) sname fl t cf sa tr)).
  { exists aid, admin. fields. auto. }
  destruct (str_truthy (strip (form_get request "username"))) eqn:Tn;
    [| stays].
  destruct (str_truthy (strip (form_get request "email"))) eqn:Te;
    [| stays].
  destruct (str_truthy (form_get request "password")) eqn:Tp; [| stays].
  change (negb true || negb true || negb true) with false.
  cbv beta iota.
  destruct (str_eqb (form_get request "password")
                    (form_get request "confirm_password")) eqn:Hpc;
    [| stays].
  apply str_eqb_eq in Hpc.
  change (negb true) with false. cbv beta iota.
  destruct (Routes.add_user_password_check (form_get request "password"))
    as [message |] eqn:Hchk; [stays|].
  step (query_by_username_runs _ _). fields.
  destruct (Db.find_by_username (strip (form_get request "username")) us)
    as [taken |] eqn:Hfn; [stays|].
  step (query_by_email_runs _ _). fields.
  destruct (Db.find_by_email (strip (form_get request "email")) us)
    as [known |] eqn:Hfe; [stays|].
  step (hash_password_runs _ _). fields.
  destruct cf as [| [|] rest].
  - do 2 eexists. split.
    + match goal with
      | |- context [bind (try_except ?m ?h) ?k ?W] =>
          eassert (Hin : m W = (Ok tt, _));
          [ step (add_runs _ _); fields; step_commit (eq_refl false);
            fields; apply flash_runs
          | rewrite (bind_ok _ _ _ _ _ (try_ok m h W _ _ Hin)) ]
      end.
      reflexivity.
    + fields. repeat split. right. unfold Adds. repeat split; auto.
  - do 2 eexists. split.
    + match goal with
      | |- context [bind (try_except ?m ?h) ?k ?W] =>
          eassert (Hin : try_except m h W = (Ok tt, _));
          [ eapply eq_trans;
            [ eapply try_raised; step (add_runs _ _); fields;
              match goal with
              | |- context [bind Db.commit ?k' ?W'] =>
                  rewrite (bind_raised _ _ _ _ _
                             (commit_fails W' rest eq_refl))
              end;
              reflexivity
            | step (rollback_runs _); fields; step (emit_runs _ _); fields;
              apply flash_runs ]
          | rewrite (bind_ok _ _ _ _ _ Hin) ]
      end.
      reflexivity.
    + fields. repeat split. left. reflexivity.
  - do 2 eexists. split.
    + match goal with
      | |- context [bind (try_except ?m ?h) ?k ?W] =>
          eassert (Hin : m W = (Ok tt, _));
          [ step (add_runs _ _); fields; step_commit (eq_refl false);
            fields; apply flash_runs
          | rewrite (bind_ok _ _ _ _ _ (try_ok m h W _ _ Hin)) ]
      end.
      reflexivity.
    + fields. repeat split. right. unfold Adds. repeat split; auto.
Qed.

(** *** Computations that always return *)












Lemma snoc_nodup {A} (l : list A) (a : A) :
  NoDup l -> ~ In a l -> NoDup (l ++ [a]).
Proof.
  intros Hnd Hin. apply (NoDup_Add (a := a) (l := l)).
  - rewrite <- (app_nil_r l) at 1. apply Add_app.
  - now split.
Qed.

Lemma find_by_username_none (name : str) (rows : list Models.User) :
  Db.find_by_username name rows = None ->
  ~ In name (map Models.username rows).
Proof.
  unfold Db.find_by_username. intros H. rewrite in_map_iff.
  intros (u & Hu & Hin). pose proof (find_none _ _ H u Hin) as Hf.
  cbn in Hf. rewrite Hu, str_eqb_refl in Hf. discriminate.
Qed.

Lemma find_by_email_none (mail : str) (rows : list Models.User) :
  Db.find_by_email mail rows = None ->
  ~ In mail (map Models.email rows).
Proof.
  unfold Db.find_by_email. intros H. rewrite in_map_iff.
  intros (u & Hu & Hin). pose proof (find_none _ _ H u Hin) as Hf.
  cbn in Hf. rewrite Hu, str_eqb_refl in Hf. discriminate.
Qed.

(** X18. With a commit that goes through, [register] adds an account
    exactly when the form passes every check and neither the username nor
    the email is in the table. The account then is the last row, under a
    key that no row had, with the username and the email of the form,
    stripped, and not approved; in every other case the table is as it
    was. *)
Theorem register_adds_account_exactly_when (request : Request) (w : World) :
  pending w = [] ->
  next_commit_ok w ->
  let name := strip (form_get request "username") in
  let mail := strip (form_get request "email") in
  let password := form_get request "password" in
  let accepted :=
    Registers request name mail password /\
    Db.find_by_username name (users w) = None /\
    Db.find_by_email mail (users w) = None in
  let w' := snd (Routes.register request w) in
  (accepted ->
   exists u,
     users w' = users w ++ [u] /\
     ~ In (Models.id u) (map Models.id (users w)) /\
     Models.username u = name /\
     Models.email u = mail /\
     Models.password_hash u
     = generate_password_hash (hd [] (salts w)) password /\
     Models.is_approved u = false /\
     fst (Routes.register request w) = Ok (redirect "nasa_bp.login")) /\
  (~ accepted ->
   users w' = users w /\
   fst (Routes.register request w)
   = Ok (render_template "nasa_register.html")).
Proof.
  intros Hp Hk. cbv zeta. split.
  - intros (Hreg & Hfn & Hfe).
    destruct (register_runs request w _ _ _ Hreg Hfn Hfe Hp Hk)
      as (w' & Hrun & Hus & _).
    rewrite Hrun. cbn [fst snd]. eexists. split; [exact Hus|].
    cbn. repeat split. apply next_id_fresh.
  - intros Hno.
    destruct (register_outcome request w Hp)
      as (r & w' & Hrun & _ & _ & _ & [[-> Hus] | (_ & Hreg & Hfn & Hfe & _)]).
    + rewrite Hrun. now split.
    + exfalso. apply Hno. split; [exact Hreg | now split].
Qed.

(** X19. With a commit that goes through, [add_user] adds an account
    exactly when the session is an administrator's, the form passes every
    check and neither the username nor the email is in the table. The
    account then is the last row, under a key that no row had, and its
    three flags are the three check boxes of the form; in every other
    case the table is as it was. *)
Theorem add_user_adds_account_exactly_when (request : Request) (w : World) :
  pending w = [] ->
  next_commit_ok w ->
  let name := strip (form_get request "username") in
  let mail := strip (form_get request "email") in
  let password := form_get request "password" in
  let accepted :=
    admin_session w /\
    Adds request name mail password /\
    Db.find_by_username name (users w) = None /\
    Db.find_by_email mail (users w) = None in
  let w' := snd (Routes.add_user request w) in
  (accepted ->
   exists u,
     users w' = users w ++ [u] /\
     ~ In (Models.id u) (map Models.id (users w)) /\
     Models.username u = name /\
     Models.email u = mail /\
     Models.password_hash u
     = generate_password_hash (hd [] (salts w)) password /\
     Models.is_approved u = Routes.form_on request "is_approved" /\
     Models.is_active u = Routes.form_on request "is_active" /\
     Models.is_admin u = Routes.form_on request "is_admin") /\
  (~ accepted -> users w' = users w).
Proof.
  intros Hp Hk. cbv zeta. split.
  - intros (Has & Hadd & Hfn & Hfe).
    destruct (add_user_runs request w _ _ _ Has Hadd Hfn Hfe Hp Hk)
      as (w' & Hrun & Hus & _).
    rewrite Hrun. cbn [snd]. eexists. split; [exact Hus|].
    cbn. repeat split. apply next_id_fresh.
  - intros Hno.
    destruct (add_user_outcome request w Hp)
      as (r & w' & Hrun & _ & _ & _ & [Hus | (Has & Hadd & Hfn & Hfe & _)]).
    + now rewrite Hrun.
    + exfalso. apply Hno.
      split; [exact Has | split; [exact Hadd | now split]].
Qed.

(** X20. Neither [register] nor [add_user] can make two accounts share a
    key, a username or an email: a table in which the three are unique
    has them unique after the route, whatever the form, the session and
    the fate of the commit. *)
Theorem new_accounts_keep_the_table_unique (request : Request) (w : World)
        (route : M Response) :
  In route [Routes.register request; Routes.add_user request] ->
  pending w = [] ->
  NoDup (map Models.id (users w)) ->
  NoDup (map Models.username (users w)) ->
  NoDup (map Models.email (users w)) ->
  let w' := snd (route w) in
  NoDup (map Models.id (users w')) /\
  NoDup (map Models.username (users w')) /\
  NoDup (map Models.email (users w')).
Proof.
  intros Hr Hp Hid Hname Hmail. cbv zeta.
  assert (Hcases :
    users (snd (route w)) = users w \/
    exists u, users (snd (route w))
              = users w ++ [Db.with_id (Db.next_id (users w)) u] /\
              Db.find_by_username (Models.username u) (users w) = None /\
              Db.find_by_email (Models.email u) (users w) = None).
  { destruct Hr as [<- | [<- | []]].
    - destruct (register_outcome request w Hp)
        as (r & w' & Hrun & _ & _ & _ & [[_ Hus] | (_ & _ & Hfn & Hfe & Hus)]);
        rewrite Hrun; cbn [snd]; [now left | right].
      eexists. split; [exact Hus | now split].
    - destruct (add_user_outcome request w Hp)
        as (r & w' & Hrun & _ & _ & _ & [Hus | (_ & _ & Hfn & Hfe & Hus)]);
        rewrite Hrun; cbn [snd]; [now left | right].
      eexists. split; [exact Hus | now split]. }
  destruct Hcases as [-> | (u & -> & Hfn & Hfe)]; [now repeat split|].
  rewrite !map_app. cbn [map Db.with_id Models.id Models.username Models.email].
  repeat split; apply snoc_nodup; auto using next_id_fresh,
    find_by_username_none, find_by_email_none.
Qed.
End Accounts.

(** ** More on the login route *)

Section LoginMore.
Context {U : UnicodeData} {E : Externals}.

(** The account is reported as locked: whatever [locked_until] holds,
    the route writes nothing. *)
Lemma login_locked_writes_nothing (request : Request) (w : World)
      (name password : str) (u : Models.User) :
  Submits request name password ->
  Db.find_by_username name (users w) = Some u ->
  Models.is_approved u = true ->
  Models.is_locked u (now w) = true ->
  exists r w',
    Routes.login request w = (r, w') /\
    r <> Ok (redirect "nasa_bp.dashboard") /\
    users w' = users w /\
    login_attempts w' = login_attempts w /\
    session_user_id w' = session_user_id w.
Proof.
  intros (Hm & Hn & Hpw & Tn & Tp) Hf Ha Hl.
  destruct w as [us la pe sid sname fl t cf sa tr].
  fields in Hf. fields in Hl.
  unfold Routes.login. rewrite Hm. cbv beta iota zeta.
  rewrite Hn, Hpw, Tn, Tp, fields_given. cbv beta iota zeta.
  step (query_by_username_runs _ _). fields. rewrite Hf. cbv beta iota.
  rewrite Ha. change (negb true) with false. cbv beta iota.
  step (is_locked_runs _ _). fields. rewrite Hl. cbv beta iota.
  destruct (Models.locked_until u) as [tl |].
  - do 2 eexists. split; [step (flash_runs _ _ _ _); reflexivity|].
    fields. repeat split. discriminate.
  - do 2 eexists. split; [reflexivity|].
    fields. repeat split. discriminate.
Qed.

(** X21. A login for an account that waits for approval does not
    complete: the audit call of that branch passes four arguments to a
    function of three and raises [TypeError], so that the visitor gets no
    message, nothing is audited and no counter moves. *)
Theorem login_pending_approval_raises (request : Request) (w : World)
        (name password : str) (u : Models.User) :
  Submits request name password ->
  Db.find_by_username name (users w) = Some u ->
  Models.is_approved u = false ->
  let w' := snd (Routes.login request w) in
  fst (Routes.login request w) = Raised TypeError /\
  users w' = users w /\
  login_attempts w' = login_attempts w /\
  pending w' = pending w /\
  session_user_id w' = session_user_id w /\
  flashes w' = flashes w.
Proof.
  intros Hs Hf Ha. rewrite (login_pending_approval _ _ _ _ _ Hs Hf Ha).
  fields. repeat split.
Qed.

(** Every branch of [login] at once: what it can do to the user table,
    to the audit log and to the session. *)
Lemma login_effects (request : Request) (w : World) :
  pending w = [] ->
  let name := strip (form_get request "username") in
  let w' := snd (Routes.login request w) in
  (users w' = users w \/
   exists u,
     Db.find_by_username name (users w) = Some u /\
     Models.is_approved u = true /\
     (users w' = Db.update_row (Models.reset_failed_logins u) (users w) \/
      users w' = Db.update_row (Models.increment_failed_login u (now w))
                               (users w))) /\
  (exists rows, login_attempts w' = login_attempts w ++ rows /\
                (List.length rows <= 1)%nat) /\
  (session_user_id w' = session_user_id w \/
   fst (Routes.login request w) = Ok (redirect "nasa_bp.dashboard")).
Proof.
  intros Hp. cbv zeta.
  assert (Hsame : forall w' : World,
            users w' = users w -> login_attempts w' = login_attempts w ->
            session_user_id w' = session_user_id w ->
            forall r : Result Response,
            (users w' = users w \/
             exists u,
               Db.find_by_username (strip (form_get request "username"))
                                   (users w) = Some u /\
               Models.is_approved u = true /\
               (users w' = Db.update_row (Models.reset_failed_logins u)
                                         (users w) \/
                users w' = Db.update_row
                             (Models.increment_failed_login u (now w))
                             (users w))) /\
            (exists rows, login_attempts w' = login_attempts w ++ rows /\
                          (List.length rows <= 1)%nat) /\
            (session_user_id w' = session_user_id w \/
             r = Ok (redirect "nasa_bp.dashboard"))).
  { intros w' Hu Hla Hs r. split; [now left|]. split; [| now left].
    exists []. rewrite app_nil_r. split; [assumption | cbn; lia]. }
  destruct (method request) eqn:Hm.
  { rewrite (login_get _ _ Hm). cbn [fst snd]. now apply Hsame. }
  destruct (str_truthy (strip (form_get request "username"))) eqn:Tn.
  2:{ apply str_truthy_false in Tn.
      rewrite (login_empty_field request w Hm (or_introl Tn)).
      cbn [fst snd]. now apply Hsame. }
  destruct (str_truthy (form_get request "password")) eqn:Tp.
  2:{ apply str_truthy_false in Tp.
      rewrite (login_empty_field request w Hm (or_intror Tp)).
      cbn [fst snd]. now apply Hsame. }
  assert (Hs : Submits request (strip (form_get request "username"))
                       (form_get request "password"))
    by (repeat split; assumption).
  destruct (Db.find_by_username (strip (form_get request "username"))
                                (users w)) as [u |] eqn:Hf.
  2:{ rewrite (login_unknown_username _ _ _ _ Hs Hf).
      cbn [fst snd]. now apply Hsame. }
  destruct (Models.is_approved u) eqn:Ha.
  2:{ rewrite (login_pending_approval _ _ _ _ _ Hs Hf Ha).
      cbn [fst snd]. now apply Hsame. }
  destruct (Models.is_locked u (now w)) eqn:Hl.
  { destruct (login_locked_writes_nothing _ _ _ _ _ Hs Hf Ha Hl)
      as (r & w' & Hrun & _ & Hu & Hla & Hsid).
    rewrite Hrun. cbn [fst snd]. now apply Hsame. }
  assert (Hlist : forall (b : bool) (a : Models.LoginAttempt),
            (List.length (if b then [] else [a]) <= 1)%nat)
    by (intros [|] a; cbn; lia).
  destruct (commit_faults w) as [| [|] rest] eqn:Hcf.
  2:{ destruct (login_commit_failure _ _ _ _ _ _ Hs Hf Ha Hl Hcf)
        as (w' & Hrun & Hu & Hla & Hsid & _).
      rewrite Hrun. cbn [fst snd]. now apply Hsame. }
  all: assert (Hk : next_commit_ok w)
    by (unfold next_commit_ok; now rewrite Hcf).
  all: destruct (check_password_hash (Models.password_hash u)
                                     (form_get request "password")) eqn:Hc.
  all: try (destruct (login_right_password _ _ _ _ _ Hs Hf Ha Hl Hc Hp Hk)
              as (w' & Hrun & Hu & Hla & _);
            rewrite Hrun; cbn [fst snd]; split;
            [right; exists u; auto | split; [eauto | now right]]).
  all: destruct (login_wrong_password _ _ _ _ _ Hs Hf Ha Hl Hc Hp Hk)
         as (w' & Hrun & Hu & Hla & _ & _ & _ & Hsid & _);
       rewrite Hrun; cbn [fst snd]; split;
       [right; exists u; auto | split; [eauto | now left]].
Qed.

(** X22. Whatever the request, [login] writes to the user table only
    through the two counter methods of the account that the username
    finds, and only when that account is approved; it adds at most one
    row to the audit log and takes none away; and the session changes
    only when the answer is the dashboard. *)
Theorem login_writes_only_the_counters (request : Request) (w : World) :
  pending w = [] ->
  let name := strip (form_get request "username") in
  let w' := snd (Routes.login request w) in
  (users w' = users w \/
   exists u,
     Db.find_by_username name (users w) = Some u /\
     Models.is_approved u = true /\
     (users w' = Db.update_row (Models.reset_failed_logins u) (users w) \/
      users w' = Db.update_row (Models.increment_failed_login u (now w))
                               (users w))) /\
  (exists rows, login_attempts w' = login_attempts w ++ rows /\
                (List.length rows <= 1)%nat) /\
  (session_user_id w' = session_user_id w \/
   fst (Routes.login request w) = Ok (redirect "nasa_bp.dashboard")).
Proof. exact (login_effects request w). Qed.

Lemma reset_keeps_identity (u : Models.User) :
  identity_of (Models.reset_failed_logins u) = identity_of u.
Proof. reflexivity. Qed.

Lemma increment_keeps_identity (u : Models.User) (t : Z) :
  identity_of (Models.increment_failed_login u t) = identity_of u.
Proof.
  unfold Models.increment_failed_login.
  cbn [Models.failed_login_attempts Models.set_failed_login_attempts].
  now destruct (Models.LOCKOUT_THRESHOLD <=? Models.failed_login_attempts u + 1)%Z.
Qed.

Lemma find_by_username_in (name : str) (rows : list Models.User)
      (u : Models.User) :
  Db.find_by_username name rows = Some u -> In u rows.
Proof.
  unfold Db.find_by_username. intros H. now destruct (find_some _ _ H).
Qed.

(** X23. With the counter methods as the specification describes them,
    no login request, right or wrong, changes the key, the username, the
    email, the password hash or a flag of any account, and none adds or
    removes an account. *)
Theorem login_keeps_identities (request : Request) (w : World) :
  pending w = [] ->
  NoDup (map Models.id (users w)) ->
  map identity_of (users (snd (Routes.login request w)))
  = map identity_of (users w).
Proof.
  intros Hp Hnd.
  destruct (login_effects request w Hp)
    as ([-> | (u & Hf & _ & [-> | ->])] & _); [reflexivity | |];
    apply find_by_username_in in Hf;
    apply (update_row_identity u); auto using reset_keeps_identity,
      increment_keeps_identity.
Qed.

(** X24. After [logout] the session names nobody and holds the one
    message of the logout, the tables are as they were, and every route
    behind [login_required] answers with the login page without running
    its body. *)
Theorem logout_closes_the_session (w : World) (f : M Response) :
  let w1 := snd (Routes.logout w) in
  fst (Routes.logout w) = Ok (redirect "nasa_bp.index") /\
  session_user_id w1 = None /\
  session_username w1 = None /\
  flashes w1 = [mkFlash "You have been logged out." [] "info"] /\
  users w1 = users w /\
  login_attempts w1 = login_attempts w /\
  turned_away (Routes.login_required f) w1 (redirect "nasa_bp.login")
              please_log_in.
Proof.
  cbv zeta.
  assert (Hrun : Routes.logout w =
                 (Ok (redirect "nasa_bp.index"),
                  with_flashes [mkFlash "You have been logged out." [] "info"]
                    (with_session None None w))) by reflexivity.
  rewrite Hrun. cbn [fst snd]. fields. repeat split.
  now apply guard_without_session.
Qed.

(** X27. The commit of the counter in [login] stands outside every
    [try]: when it fails, for a right password as for a wrong one, the
    exception leaves the route, no session is opened, nothing is flashed
    or audited and both tables are as they were. *)
Theorem login_commit_failure_leaves_the_route (request : Request)
        (w : World) (name password : str) (u : Models.User)
        (rest : list bool) :
  Submits request name password ->
  Db.find_by_username name (users w) = Some u ->
  Models.is_approved u = true ->
  Models.is_locked u (now w) = false ->
  commit_faults w = true :: rest ->
  let w' := snd (Routes.login request w) in
  fst (Routes.login request w) = Raised OperationalError /\
  users w' = users w /\
  login_attempts w' = login_attempts w /\
  session_user_id w' = session_user_id w /\
  flashes w' = flashes w.
Proof.
  intros Hs Hf Ha Hl Hcf.
  destruct (login_commit_failure _ _ _ _ _ _ Hs Hf Ha Hl Hcf)
    as (w' & Hrun & Hu & Hla & Hsid & _ & Hfl).
  cbv zeta. rewrite Hrun. cbn [fst snd]. now repeat split.
Qed.
End LoginMore.

(** ** Routes one after the other *)

Section Journeys.
Context {U : UnicodeData} {E : Externals}.

(** What the reset leaves for the next request. *)
Lemma reset_password_leaves (user_id aid : N) (request : Request) (w : World)
      (admin target : Models.User) (new_password : str) :
  session_user_id w = Some aid ->
  Db.find_by_id aid (users w) = Some admin ->
  Models.is_admin admin = true ->
  Db.find_by_id user_id (users w) = Some target ->
  form request "new_password" = Some new_password ->
  form request "confirm_password" = Some new_password ->
  Routes.reset_password_check new_password = None ->
  pending w = [] ->
  next_commit_ok w ->
  let target' :=
    Models.set_locked_until None
      (Models.set_failed_login_attempts 0
         (Models.set_password_hash
            (generate_password_hash (hd [] (salts w)) new_password) target)) in
  exists w',
    Routes.reset_password user_id request w =
      (Ok (redirect "nasa_bp.admin"), w') /\
    users w' = Db.update_row target' (users w) /\
    pending w' = [] /\
    commit_faults w' = tl (commit_faults w).
Proof.
  intros Hsid Hadm Hia Htg Hnew Hconf Hchk Hp Hk.
  pose proof (reset_check_passes_nonempty _ Hchk) as Hne.
  destruct w as [us la pe sid sname fl t cf sa tr].
  unfold next_commit_ok in Hk. fields in Hsid. fields in Hadm.
  fields in Htg. fields in Hp. fields in Hk. subst pe sid. fields. cbv zeta.
  eexists. split.
  - unfold Routes.reset_password, Routes.login_required.
    step (session_get_user_id_runs _). fields.
    step (session_get_user_id_runs _). fields.
    step (get_runs _ _). fields. rewrite Hadm. cbv beta iota. rewrite Hia.
    change (negb true) with false. cbv beta iota.
    match goal with
    | |- context [bind (Db.get_or_404 ?i) ?k ?W] =>
        rewrite (bind_ok _ _ _ _ _ (get_or_404_runs i target W Htg))
    end.
    cbv beta iota zeta. fields.
    rewrite Hnew, Hconf. cbn [of_option]. cbv beta iota.
    rewrite Hne, fields_given, str_eqb_refl.
    change (negb true) with false. cbv beta iota.
    rewrite Hchk. cbv beta iota.
    step (hash_password_runs _ _). fields.
    step (add_runs _ _). fields.
    match goal with
    | |- context [bind (try_except ?m ?h) ?k ?W] =>
        eassert (Hin : m W = (Ok tt, _));
        [ step_commit Hk; fields; apply flash_runs
        | rewrite (bind_ok _ _ _ _ _ (try_ok m h W _ _ Hin)) ]
    end.
    reflexivity.
  - fields. repeat split.
Qed.

(** X25. After an administrator has reset the password of an approved
    account, a login with the new password opens the session of that
    account at once, however many failures the account had counted and
    however long it was locked for. *)
Theorem reset_password_then_login (user_id aid : N)
        (request attempt : Request) (w : World)
        (admin target : Models.User) (name new_password : str) :
  hash_round_trip E ->
  session_user_id w = Some aid ->
  Db.find_by_id aid (users w) = Some admin ->
  Models.is_admin admin = true ->
  Db.find_by_id user_id (users w) = Some target ->
  Db.find_by_username name (users w) = Some target ->
  Models.is_approved target = true ->
  form request "new_password" = Some new_password ->
  form request "confirm_password" = Some new_password ->
  Routes.reset_password_check new_password = None ->
  Submits attempt name new_password ->
  pending w = [] ->
  next_commit_ok w ->
  audit_commit_ok w ->
  let w1 := snd (Routes.reset_password user_id request w) in
  fst (Routes.login attempt w1) = Ok (redirect "nasa_bp.dashboard") /\
  session_user_id (snd (Routes.login attempt w1)) = Some (Models.id target).
Proof.
  intros Hrt Hsid Hadm Hia Htg Hfn Hap Hnew Hconf Hchk Hs Hp Hk Hk2.
  destruct (reset_password_leaves user_id aid request w admin target
              new_password Hsid Hadm Hia Htg Hnew Hconf Hchk Hp Hk)
    as (w1 & Hrun & Hus & Hp1 & Hcf1).
  cbv zeta. rewrite Hrun. cbn [snd].
  match type of Hus with
  | _ = Db.update_row ?t _ => set (target' := t) in *
  end.
  assert (Hf1 : Db.find_by_username name (users w1) = Some target')
    by (rewrite Hus; now apply (find_by_username_update name (users w) target)).
  assert (Hk1 : next_commit_ok w1)
    by (unfold next_commit_ok; rewrite Hcf1; exact Hk2).
  destruct (login_right_password attempt w1 name new_password target'
              Hs Hf1 Hap eq_refl (Hrt _ _) Hp1 Hk1)
    as (w2 & Hrun2 & _ & _ & _ & _ & _ & Hsid2 & _).
  rewrite Hrun2. cbn [fst snd]. split; [reflexivity | exact Hsid2].
Qed.

Lemma find_app_some {A} (f : A -> bool) (l l' : list A) (x : A) :
  find f l = Some x -> find f (l ++ l') = Some x.
Proof.
  induction l as [| a l IH]; cbn; [discriminate|].
  destruct (f a); auto.
Qed.

Lemma find_snoc_none {A} (f : A -> bool) (l : list A) (a : A) :
  find f l = None -> f a = true -> find f (l ++ [a]) = Some a.
Proof.
  induction l as [| b l IH]; cbn.
  - intros _ ->. reflexivity.
  - destruct (f b); [discriminate | exact IH].
Qed.

Lemma find_by_id_next (rows : list Models.User) :
  Db.find_by_id (Db.next_id rows) rows = None.
Proof.
  destruct (Db.find_by_id (Db.next_id rows) rows) as [u |] eqn:Hf;
    [| reflexivity].
  destruct (find_by_id_key _ _ _ Hf) as [Hid Hin].
  apply next_id_above in Hin. lia.
Qed.

(** X26. The way of a new account, with a database that commits: the
    registration is accepted; a login with the registered password then
    fails with [TypeError] for as long as the account waits for approval;
    an administrator approves it under the key that the insert gave it;
    and the same login then opens the session of the account. *)
Theorem registered_account_logs_in_once_approved
        (request attempt : Request) (w : World) (name mail password : str) :
  hash_round_trip E ->
  admin_session w ->
  Registers request name mail password ->
  Submits attempt name password ->
  Db.find_by_username name (users w) = None ->
  Db.find_by_email mail (users w) = None ->
  pending w = [] ->
  commit_faults w = [] ->
  let uid := Db.next_id (users w) in
  let w1 := snd (Routes.register request w) in
  let w2 := snd (Routes.approve_user uid w1) in
  fst (Routes.register request w) = Ok (redirect "nasa_bp.login") /\
  fst (Routes.login attempt w1) = Raised TypeError /\
  fst (Routes.approve_user uid w1) = Ok (redirect "nasa_bp.admin") /\
  fst (Routes.login attempt w2) = Ok (redirect "nasa_bp.dashboard") /\
  session_user_id (snd (Routes.login attempt w2)) = Some uid.
Proof.
  intros Hrt (aid & admin & Hsid & Hadm & Hia) Hreg Hs Hfn Hfe Hp Hcf.
  assert (Hk : next_commit_ok w)
    by (unfold next_commit_ok; now rewrite Hcf).
  destruct (register_runs request w name mail password Hreg Hfn Hfe Hp Hk)
    as (w1 & Hrun1 & Hus1 & _ & Hp1 & Hsid1 & _ & _ & Hcf1 & _).
  cbv zeta. rewrite Hrun1. cbn [fst snd].
  set (uid := Db.next_id (users w)) in *.
  set (new := Db.with_id uid
                (registered name mail password (hd [] (salts w)))) in *.
  assert (Hf1 : Db.find_by_username name (users w1) = Some new).
  { rewrite Hus1. apply find_snoc_none; [exact Hfn|]. cbn.
    apply str_eqb_refl. }
  assert (Hi1 : Db.find_by_id uid (users w1) = Some new).
  { rewrite Hus1. apply find_snoc_none; [apply find_by_id_next|]. cbn.
    apply N.eqb_refl. }
  assert (Ha1 : Db.find_by_id aid (users w1) = Some admin)
    by (rewrite Hus1; now apply find_app_some).
  assert (Hk1 : next_commit_ok w1)
    by (unfold next_commit_ok; now rewrite Hcf1, Hcf).
  split; [reflexivity|]. split.
  { now rewrite (login_pending_approval attempt w1 name password new Hs Hf1). }
  destruct (approve_user_runs uid aid w1 admin new
              (eq_trans Hsid1 Hsid) Ha1 Hia Hi1 Hp1 Hk1)
    as (w2 & Hrun2 & Hus2 & _ & Hp2 & _ & _ & _ & Hcf2 & _).
  rewrite Hrun2. cbn [fst snd]. split; [reflexivity|].
  set (new' := Models.set_is_approved true new) in *.
  assert (Hf2 : Db.find_by_username name (users w2) = Some new')
    by (rewrite Hus2; now apply (find_by_username_update name (users w1) new)).
  assert (Hk2 : next_commit_ok w2)
    by (unfold next_commit_ok; now rewrite Hcf2, Hcf1, Hcf).
  destruct (login_right_password attempt w2 name password new'
              Hs Hf2 eq_refl eq_refl (Hrt _ _) Hp2 Hk2)
    as (w3 & Hrun3 & _ & _ & _ & _ & _ & Hsid3 & _).
  rewrite Hrun3. cbn [fst snd]. split; [reflexivity | exact Hsid3].
Qed.
End Journeys.
(** ** The properties on the sample data *)

(** C1, counterexample. [alice] is locked until 2800; a login for her at
    time 1000 is answered with the form and appends no audit row, where
    the claim asks for one. *)
Lemma locked_attempt_is_not_audited :
  fst (Routes.login (E := Sample.externals)
         (Sample.login_form "alice" "a guess")
         (Sample.world [Sample.alice_locked] 1000))
  = Ok (render_template "nasa_login.html") /\
  login_attempts
    (snd (Routes.login (E := Sample.externals)
            (Sample.login_form "alice" "a guess")
            (Sample.world [Sample.alice_locked] 1000)))
  = login_attempts (Sample.world [Sample.alice_locked] 1000) /\
  List.length
    (login_attempts
       (snd (Routes.login (E := Sample.externals)
               (Sample.login_form "alice" "a guess")
               (Sample.world [Sample.alice_locked] 1000))))
  <> S (List.length (login_attempts (Sample.world [Sample.alice_locked] 1000))).
Proof. vm_compute. repeat split. discriminate. Qed.

Lemma login_audits_password_attempts_witness :
  login_attempts
    (snd (Routes.login (E := Sample.externals)
            (Sample.login_form "alice" "a guess")
            (Sample.world [Sample.alice] 1000)))
  = [audit_record (Sample.login_form "alice" "a guess") (lit "alice") false].
Proof.
  apply (login_audits_password_attempts (E := Sample.externals)
           (Sample.login_form "alice" "a guess")
           (Sample.world [Sample.alice] 1000)
           (lit "alice") (lit "a guess") Sample.alice).
  - repeat split; reflexivity.
  - reflexivity.
  - reflexivity.
  - reflexivity.
  - reflexivity.
  - reflexivity.
Defined.

Lemma lockout_after_ten_failures_witness :
  exists u10,
    Db.find_by_username (lit "alice")
      (users (run_attempts (E := Sample.externals)
                (Sample.nine_guesses
                 ++ [(1090%Z, Sample.login_form "alice" "wrong again")])
                (Sample.world [Sample.alice] 0))) = Some u10 /\
    Models.failed_login_attempts u10 = 10%Z /\
    Models.locked_until u10 = Some (1090 + 30 * 60)%Z.
Proof.
  assert (Hall : Forall (WrongAttempt (E := Sample.externals) (lit "alice")
                           Sample.alice) Sample.nine_guesses).
  { repeat constructor;
      (exists (lit "not the password"); repeat split; reflexivity). }
  assert (Hten : WrongAttempt (E := Sample.externals) (lit "alice") Sample.alice
                   (1090%Z, Sample.login_form "alice" "wrong again")).
  { exists (lit "wrong again"). repeat split; reflexivity. }
  destruct (proj1 (proj2 (lockout_after_ten_failures (E := Sample.externals)))
              (Sample.world [Sample.alice] 0) (lit "alice") Sample.alice
              Sample.nine_guesses eq_refl eq_refl eq_refl eq_refl eq_refl
              Hall eq_refl)
    as (u9 & _ & _ & _ & _ & Htenth).
  exact (Htenth _ Hten).
Defined.

Lemma login_unknown_username_raises_witness :
  fst (Routes.login (E := Sample.externals)
         (Sample.login_form "ghost" "anything at all")
         (Sample.world [Sample.alice] 1000)) = Raised TypeError /\
  login_attempts
    (snd (Routes.login (E := Sample.externals)
            (Sample.login_form "ghost" "anything at all")
            (Sample.world [Sample.alice] 1000)))
  = login_attempts (Sample.world [Sample.alice] 1000) /\
  flashes
    (snd (Routes.login (E := Sample.externals)
            (Sample.login_form "ghost" "anything at all")
            (Sample.world [Sample.alice] 1000)))
  = flashes (Sample.world [Sample.alice] 1000).
Proof.
  apply (login_unknown_username_raises (E := Sample.externals)
           (Sample.login_form "ghost" "anything at all")
           (Sample.world [Sample.alice] 1000)
           (lit "ghost") (lit "anything at all")).
  - repeat split; reflexivity.
  - reflexivity.
Defined.

Lemma successful_login_resets_lockout_witness :
  fst (Routes.login (E := Sample.externals)
         (Sample.login_form "alice" "Correct-Horse-42-Battery")
         (Sample.world [Sample.alice_shaky] 1000))
  = Ok (redirect "nasa_bp.dashboard") /\
  session_user_id
    (snd (Routes.login (E := Sample.externals)
            (Sample.login_form "alice" "Correct-Horse-42-Battery")
            (Sample.world [Sample.alice_shaky] 1000)))
  = Some 1 /\
  exists u',
    Db.find_by_username (lit "alice")
      (users (snd (Routes.login (E := Sample.externals)
                     (Sample.login_form "alice" "Correct-Horse-42-Battery")
                     (Sample.world [Sample.alice_shaky] 1000)))) = Some u' /\
    Models.failed_login_attempts u' = 0%Z /\
    Models.locked_until u' = None /\
    u' = Models.reset_failed_logins Sample.alice_shaky.
Proof.
  apply (successful_login_resets_lockout (E := Sample.externals)
           (Sample.login_form "alice" "Correct-Horse-42-Battery")
           (Sample.world [Sample.alice_shaky] 1000)
           (lit "alice") (lit "Correct-Horse-42-Battery") Sample.alice_shaky).
  - repeat split; reflexivity.
  - reflexivity.
  - reflexivity.
  - reflexivity.
  - reflexivity.
  - reflexivity.
  - reflexivity.
Defined.

Lemma reset_password_clears_lockout_witness :
  exists target',
    Db.find_by_id 1
      (users (snd (Routes.reset_password (U := ascii_only)
                     (E := Sample.externals) 1
                     (Sample.reset_form "New-Password-For-Alice-1")
                     (Sample.as_root
                        (Sample.world [Sample.alice_locked_for_long; Sample.root]
                                      1000)))))
    = Some target' /\
    Models.password_hash target' = lit "New-Password-For-Alice-1" /\
    Models.failed_login_attempts target' = 0%Z /\
    Models.locked_until target' = None /\
    Models.id target' = 1 /\
    Models.username target' = lit "alice".
Proof.
  apply (reset_password_clears_lockout (U := ascii_only)
           (E := Sample.externals) 1 2
           (Sample.reset_form "New-Password-For-Alice-1")
           (Sample.as_root
              (Sample.world [Sample.alice_locked_for_long; Sample.root] 1000))
           Sample.root Sample.alice_locked_for_long
           (lit "New-Password-For-Alice-1")).
  - reflexivity.
  - reflexivity.
  - reflexivity.
  - reflexivity.
  - reflexivity.
  - reflexivity.
  - vm_compute; reflexivity.
  - reflexivity.
  - reflexivity.
Defined.

Lemma audit_failure_is_swallowed_witness :
  fst (Routes.login (E := Sample.externals)
         (Sample.login_form "alice" "Correct-Horse-42-Battery")
         (with_commit_faults [false; false]
            (Sample.world [Sample.alice_shaky] 1000)))
  = fst (Routes.login (E := Sample.externals)
           (Sample.login_form "alice" "Correct-Horse-42-Battery")
           (with_commit_faults [false; true]
              (Sample.world [Sample.alice_shaky] 1000))) /\
  login_attempts
    (snd (Routes.register (U := ascii_only) (E := Sample.externals)
            (Sample.post [("username"%string, lit "bob")])
            (Sample.world [Sample.alice] 1000)))
  = [].
Proof.
  split.
  - apply (proj1 (proj2 (proj2 (audit_failure_is_swallowed
                                  (U := ascii_only) (E := Sample.externals))))
             (Sample.login_form "alice" "Correct-Horse-42-Battery")
             (Sample.world [Sample.alice_shaky] 1000) false []).
    reflexivity.
  - apply (proj2 (proj2 (proj2 (audit_failure_is_swallowed
                                  (U := ascii_only) (E := Sample.externals))))
             (Sample.post [("username"%string, lit "bob")])
             (Sample.world [Sample.alice] 1000)).
    reflexivity.
Defined.

Lemma login_empty_field_leaves_no_trace_witness :
  Routes.login (E := Sample.externals)
    (Sample.login_form "   " "secret")
    (Sample.world [Sample.alice] 1000)
  = (Ok (render_template "nasa_login.html"),
     with_flashes [required_flash] (Sample.world [Sample.alice] 1000)).
Proof.
  apply (login_empty_field_leaves_no_trace (E := Sample.externals)
           (Sample.login_form "   " "secret")
           (Sample.world [Sample.alice] 1000)).
  - reflexivity.
  - left. reflexivity.
Defined.

(** ** The further properties on the sample data *)

Lemma client_ip_takes_first_proxy_header_witness :
  Auth.get_client_ip (Sample.proxied "X-Forwarded-For" "198.51.100.4, 10.0.0.1")
  = VStr (lit "198.51.100.4").
Proof.
  refine (proj1 (client_ip_takes_first_proxy_header
                   (Sample.proxied "X-Forwarded-For" "198.51.100.4, 10.0.0.1")
                   ["X-Real-Ip"; "X-Real-IP"]%string
                   ["X-MS-Forwarded-Client-IP"]%string
                   "X-Forwarded-For" (lit "198.51.100.4, 10.0.0.1")
                   eq_refl _ eq_refl _)).
  - intros k [<- | [<- | []]]; left; reflexivity.
  - vm_compute. discriminate.
Defined.

Lemma client_ip_falls_back_to_connection_witness :
  Auth.get_client_ip (Sample.login_form "alice" "a guess")
  = VStr (lit "203.0.113.7").
Proof.
  refine (client_ip_falls_back_to_connection
            (Sample.login_form "alice" "a guess") _).
  intros k _. left. reflexivity.
Defined.

Lemma client_ip_blank_header_gives_empty_witness :
  Auth.get_client_ip (Sample.proxied "X-Real-Ip" " , 198.51.100.4") = VStr [].
Proof.
  refine (client_ip_blank_header_gives_empty
            (Sample.proxied "X-Real-Ip" " , 198.51.100.4")
            [] ["X-Real-IP"; "X-Forwarded-For"; "X-MS-Forwarded-Client-IP"]%string
            "X-Real-Ip" (lit " , 198.51.100.4") eq_refl _ eq_refl _ eq_refl).
  - intros k [].
  - vm_compute. discriminate.
Defined.

Lemma audit_row_contents_witness :
  exists r,
    login_attempts
      (snd (Auth.log_login_attempt (Sample.login_form "alice" "a guess")
              [VStr (lit "alice"); VBool false; VStr (lit "curl/8.5")]
              (Sample.world [Sample.alice] 1000)))
    = [r] /\
    Models.attempt_username r = VStr (lit "alice") /\
    Models.attempt_user_agent r = VStr (lit "curl/8.5").
Proof.
  destruct (audit_row_contents (Sample.login_form "alice" "a guess")
              (VStr (lit "alice")) (VBool false) (VStr (lit "curl/8.5"))
              (Sample.world [Sample.alice] 1000) eq_refl eq_refl)
    as (r & Hlog & Hname & _ & _ & Hagent & _).
  exists r. split; [exact Hlog | split; [exact Hname | exact (Hagent eq_refl)]].
Defined.

Lemma validate_password_monotone_witness :
  fst (Auth.validate_password (U := ascii_only)
         (lit "xx" ++ lit "Correct-Horse-42-Battery" ++ lit " and more"))
  = true.
Proof.
  apply (validate_password_monotone (U := ascii_only)
           (lit "xx") (lit "Correct-Horse-42-Battery") (lit " and more")).
  reflexivity.
Defined.

Lemma inline_checks_imply_policy_on_ascii_witness :
  fst (Auth.validate_password (U := ascii_only)
         (lit "Correct-Horse-42-Battery")) = true.
Proof.
  refine (proj1 (inline_checks_imply_policy_on_ascii (U := ascii_only)
                   (lit "Correct-Horse-42-Battery") ascii_only_faithful _)
                _).
  - vm_compute. repeat constructor.
  - reflexivity.
Defined.

Lemma allowed_file_ignores_stem_and_case_witness :
  Routes.allowed_file (C := ascii_case) (lit "holiday" ++ 46 :: lit "PNG")
  = Routes.allowed_file (C := ascii_case) (lit "x" ++ 46 :: lit "png").
Proof.
  apply (allowed_file_ignores_stem_and_case (C := ascii_case)).
  - intros s _. reflexivity.
  - vm_compute. repeat constructor.
  - vm_compute. repeat constructor.
  - vm_compute. intros [H | [H | [H | []]]]; discriminate H.
  - vm_compute. intros [H | [H | [H | []]]]; discriminate H.
  - reflexivity.
Defined.

Lemma admin_routes_refuse_non_admin_witness :
  turned_away (Routes.approve_user 3)
    (Sample.as_alice (Sample.world [Sample.alice; Sample.root; Sample.bob] 1000))
    (redirect "nasa_bp.index") access_denied.
Proof.
  refine (admin_routes_refuse_non_admin (U := ascii_only)
            (E := Sample.externals) 3 (Sample.reset_form "whatever")
            (Sample.as_alice
               (Sample.world [Sample.alice; Sample.root; Sample.bob] 1000))
            (Routes.approve_user 3) _ _).
  - reflexivity.
  - right. left. reflexivity.
Defined.

Lemma approve_user_approves_only_the_target_witness :
  exists w',
    Routes.approve_user 3
      (Sample.as_root (Sample.world [Sample.alice; Sample.root; Sample.bob] 1000))
    = (Ok (redirect "nasa_bp.admin"), w') /\
    Db.find_by_id 3 (users w') = Some (Models.set_is_approved true Sample.bob) /\
    Db.find_by_id 1 (users w') = Some Sample.alice.
Proof.
  destruct (approve_user_approves_only_the_target 3 2
              (Sample.as_root
                 (Sample.world [Sample.alice; Sample.root; Sample.bob] 1000))
              Sample.root Sample.bob
              eq_refl eq_refl eq_refl eq_refl eq_refl eq_refl)
    as (w' & Hrun & Hbob & Hothers & _).
  exists w'. split; [exact Hrun | split; [exact Hbob |]].
  rewrite Hothers; [reflexivity | discriminate].
Defined.

Lemma admin_routes_missing_target_witness :
  exists w',
    Routes.toggle_admin 7
      (Sample.as_root (Sample.world [Sample.alice; Sample.root] 1000))
    = (Raised NotFound, w') /\
    users w' = [Sample.alice; Sample.root].
Proof.
  destruct (admin_routes_missing_target (U := ascii_only)
              (E := Sample.externals) 7 2 (Sample.reset_form "whatever")
              (Sample.as_root (Sample.world [Sample.alice; Sample.root] 1000))
              Sample.root (Routes.toggle_admin 7)
              eq_refl eq_refl eq_refl eq_refl
              (or_intror (or_intror (or_introl eq_refl))))
    as (w' & Hrun & Hus & _).
  exists w'. split; [exact Hrun | exact Hus].
Defined.

Lemma toggle_admin_refuses_own_account_witness :
  turned_away (Routes.toggle_admin 2)
    (Sample.as_root (Sample.world [Sample.alice; Sample.root] 1000))
    (redirect "nasa_bp.admin")
    (mkFlash "You cannot change your own admin status." [] "warning").
Proof.
  apply (toggle_admin_refuses_own_account 2
           (Sample.as_root (Sample.world [Sample.alice; Sample.root] 1000))
           Sample.root); reflexivity.
Defined.

Lemma toggle_admin_flips_only_the_target_witness :
  exists w',
    Routes.toggle_admin 1
      (Sample.as_root (Sample.world [Sample.alice; Sample.root] 1000))
    = (Ok (redirect "nasa_bp.admin"), w') /\
    Db.find_by_id 1 (users w') = Some (Models.set_is_admin true Sample.alice) /\
    Db.find_by_id 2 (users w') = Some Sample.root.
Proof.
  destruct (toggle_admin_flips_only_the_target 1 2
              (Sample.as_root (Sample.world [Sample.alice; Sample.root] 1000))
              Sample.root Sample.alice
              eq_refl eq_refl eq_refl eq_refl)
    as (w' & Hrun & Halice & _ & Hroot & _);
    [discriminate | reflexivity | reflexivity |].
  exists w'. split; [exact Hrun | split; [exact Halice | exact Hroot]].
Defined.

Lemma toggle_admin_twice_restores_witness :
  users
    (snd (Routes.toggle_admin 1
            (snd (Routes.toggle_admin 1
                    (Sample.as_root
                       (Sample.world [Sample.alice; Sample.root] 1000))))))
  = [Sample.alice; Sample.root].
Proof.
  refine (proj2 (proj2 (toggle_admin_twice_restores 1 2
                          (Sample.as_root
                             (Sample.world [Sample.alice; Sample.root] 1000))
                          Sample.root Sample.alice
                          eq_refl eq_refl eq_refl eq_refl _ _
                          eq_refl eq_refl eq_refl))).
  - discriminate.
  - vm_compute. repeat constructor.
    + intros [H | []]. discriminate H.
    + intros [].
Defined.

Lemma sample_registers :
  Registers (U := ascii_only) (E := Sample.externals_with_int)
    (Sample.register_form "carol" "carol@example.org"
       "Purple-Monkey-77-Dishwasher" "12" "12")
    (lit "carol") (lit "carol@example.org") (lit "Purple-Monkey-77-Dishwasher").
Proof.
  repeat split; try (vm_compute; reflexivity).
  exists 12%Z. split; vm_compute; reflexivity.
Defined.

Lemma sample_adds :
  Adds (U := ascii_only)
    (Sample.add_user_form "dave" "dave@example.org" "Orange-Tiger-31-Lampshade")
    (lit "dave") (lit "dave@example.org") (lit "Orange-Tiger-31-Lampshade").
Proof. repeat split; vm_compute; reflexivity. Defined.

Lemma sample_admin_session (rows : list Models.User) (t : Z) :
  Db.find_by_id 2 rows = Some Sample.root ->
  admin_session (Sample.as_root (Sample.world rows t)).
Proof. intros H. exists 2, Sample.root. repeat split. exact H. Defined.

Lemma sample_hash_round_trip : hash_round_trip Sample.externals.
Proof. intros salt password. apply str_eqb_refl. Defined.

Lemma sample_hash_round_trip_with_int :
  hash_round_trip Sample.externals_with_int.
Proof. intros salt password. apply str_eqb_refl. Defined.

Lemma register_adds_account_exactly_when_witness :
  exists u,
    users (snd (Routes.register (U := ascii_only)
                  (E := Sample.externals_with_int)
                  (Sample.register_form "carol" "carol@example.org"
                     "Purple-Monkey-77-Dishwasher" "12" "12")
                  (Sample.world [Sample.alice] 1000)))
    = [Sample.alice] ++ [u] /\
    Models.username u = lit "carol" /\
    Models.is_approved u = false.
Proof.
  destruct (proj1 (register_adds_account_exactly_when (U := ascii_only)
                     (E := Sample.externals_with_int)
                     (Sample.register_form "carol" "carol@example.org"
                        "Purple-Monkey-77-Dishwasher" "12" "12")
                     (Sample.world [Sample.alice] 1000) eq_refl eq_refl)
              (conj sample_registers (conj eq_refl eq_refl)))
    as (u & Hus & _ & Hname & _ & _ & Happroved & _).
  exists u. split; [exact Hus | split; [exact Hname | exact Happroved]].
Defined.

Lemma add_user_adds_account_exactly_when_witness :
  exists u,
    users (snd (Routes.add_user (U := ascii_only) (E := Sample.externals)
                  (Sample.add_user_form "dave" "dave@example.org"
                     "Orange-Tiger-31-Lampshade")
                  (Sample.as_root
                     (Sample.world [Sample.alice; Sample.root] 1000))))
    = [Sample.alice; Sample.root] ++ [u] /\
    Models.username u = lit "dave" /\
    Models.is_approved u = true /\
    Models.is_admin u = false.
Proof.
  destruct (proj1 (add_user_adds_account_exactly_when (U := ascii_only)
                     (E := Sample.externals)
                     (Sample.add_user_form "dave" "dave@example.org"
                        "Orange-Tiger-31-Lampshade")
                     (Sample.as_root
                        (Sample.world [Sample.alice; Sample.root] 1000))
                     eq_refl eq_refl)
              (conj (sample_admin_session [Sample.alice; Sample.root] 1000
                       eq_refl)
                    (conj sample_adds (conj eq_refl eq_refl))))
    as (u & Hus & _ & Hname & _ & _ & Happroved & _ & Hadmin).
  exists u.
  split; [exact Hus | split; [exact Hname | split; [exact Happroved |]]].
  exact Hadmin.
Defined.

Lemma new_accounts_keep_the_table_unique_witness :
  NoDup (map Models.id
           (users (snd (Routes.register (U := ascii_only)
                          (E := Sample.externals_with_int)
                          (Sample.register_form "carol" "carol@example.org"
                             "Purple-Monkey-77-Dishwasher" "12" "12")
                          (Sample.world [Sample.alice] 1000))))) /\
  NoDup (map Models.username
           (users (snd (Routes.register (U := ascii_only)
                          (E := Sample.externals_with_int)
                          (Sample.register_form "carol" "carol@example.org"
                             "Purple-Monkey-77-Dishwasher" "12" "12")
                          (Sample.world [Sample.alice] 1000))))) /\
  NoDup (map Models.email
           (users (snd (Routes.register (U := ascii_only)
                          (E := Sample.externals_with_int)
                          (Sample.register_form "carol" "carol@example.org"
                             "Purple-Monkey-77-Dishwasher" "12" "12")
                          (Sample.world [Sample.alice] 1000))))).
Proof.
  apply (new_accounts_keep_the_table_unique (U := ascii_only)
           (E := Sample.externals_with_int)
           (Sample.register_form "carol" "carol@example.org"
              "Purple-Monkey-77-Dishwasher" "12" "12")
           (Sample.world [Sample.alice] 1000)).
  - left. reflexivity.
  - reflexivity.
  - repeat constructor. intros [].
  - repeat constructor. intros [].
  - repeat constructor. intros [].
Defined.

Lemma login_pending_approval_raises_witness :
  fst (Routes.login (E := Sample.externals)
         (Sample.login_form "bob" "Battery-Staple-19-Correct")
         (Sample.world [Sample.alice; Sample.bob] 1000))
  = Raised TypeError.
Proof.
  refine (proj1 (login_pending_approval_raises (E := Sample.externals)
                   (Sample.login_form "bob" "Battery-Staple-19-Correct")
                   (Sample.world [Sample.alice; Sample.bob] 1000)
                   (lit "bob") (lit "Battery-Staple-19-Correct") Sample.bob
                   _ eq_refl eq_refl)).
  repeat split; reflexivity.
Defined.

Lemma login_writes_only_the_counters_witness :
  exists rows,
    login_attempts
      (snd (Routes.login (E := Sample.externals)
              (Sample.login_form "alice" "a guess")
              (Sample.world [Sample.alice] 1000)))
    = login_attempts (Sample.world [Sample.alice] 1000) ++ rows /\
    (List.length rows <= 1)%nat.
Proof.
  exact (proj1 (proj2 (login_writes_only_the_counters (E := Sample.externals)
                         (Sample.login_form "alice" "a guess")
                         (Sample.world [Sample.alice] 1000) eq_refl))).
Defined.

Lemma login_keeps_identities_witness :
  map identity_of
    (users (snd (Routes.login (E := Sample.externals)
                   (Sample.login_form "alice" "a guess")
                   (Sample.world [Sample.alice; Sample.root] 1000))))
  = map identity_of [Sample.alice; Sample.root].
Proof.
  apply (login_keeps_identities (E := Sample.externals)
           (Sample.login_form "alice" "a guess")
           (Sample.world [Sample.alice; Sample.root] 1000)).
  - reflexivity.
  - vm_compute. repeat constructor.
    + intros [H | []]. discriminate H.
    + intros [].
Defined.

Lemma reset_password_then_login_witness :
  fst (Routes.login (E := Sample.externals)
         (Sample.login_form "alice" "New-Password-For-Alice-1")
         (snd (Routes.reset_password (U := ascii_only) (E := Sample.externals)
                 1 (Sample.reset_form "New-Password-For-Alice-1")
                 (Sample.as_root
                    (Sample.world [Sample.alice_locked_for_long; Sample.root]
                                  1000)))))
  = Ok (redirect "nasa_bp.dashboard").
Proof.
  refine (proj1 (reset_password_then_login (U := ascii_only)
                   (E := Sample.externals) 1 2
                   (Sample.reset_form "New-Password-For-Alice-1")
                   (Sample.login_form "alice" "New-Password-For-Alice-1")
                   (Sample.as_root
                      (Sample.world [Sample.alice_locked_for_long; Sample.root]
                                    1000))
                   Sample.root Sample.alice_locked_for_long
                   (lit "alice") (lit "New-Password-For-Alice-1")
                   sample_hash_round_trip
                   eq_refl eq_refl eq_refl eq_refl eq_refl eq_refl
                   eq_refl eq_refl _ _ eq_refl eq_refl eq_refl)).
  - vm_compute. reflexivity.
  - repeat split; reflexivity.
Defined.

Lemma registered_account_logs_in_once_approved_witness :
  fst (Routes.login (E := Sample.externals_with_int)
         (Sample.login_form "carol" "Purple-Monkey-77-Dishwasher")
         (snd (Routes.register (U := ascii_only)
                 (E := Sample.externals_with_int)
                 (Sample.register_form "carol" "carol@example.org"
                    "Purple-Monkey-77-Dishwasher" "12" "12")
                 (Sample.as_root
                    (Sample.world [Sample.alice; Sample.root] 1000)))))
  = Raised TypeError /\
  fst (Routes.login (E := Sample.externals_with_int)
         (Sample.login_form "carol" "Purple-Monkey-77-Dishwasher")
         (snd (Routes.approve_user 3
                 (snd (Routes.register (U := ascii_only)
                         (E := Sample.externals_with_int)
                         (Sample.register_form "carol" "carol@example.org"
                            "Purple-Monkey-77-Dishwasher" "12" "12")
                         (Sample.as_root
                            (Sample.world [Sample.alice; Sample.root]
                                          1000)))))))
  = Ok (redirect "nasa_bp.dashboard").
Proof.
  destruct (registered_account_logs_in_once_approved (U := ascii_only)
              (E := Sample.externals_with_int)
              (Sample.register_form "carol" "carol@example.org"
                 "Purple-Monkey-77-Dishwasher" "12" "12")
              (Sample.login_form "carol" "Purple-Monkey-77-Dishwasher")
              (Sample.as_root (Sample.world [Sample.alice; Sample.root] 1000))
              (lit "carol") (lit "carol@example.org")
              (lit "Purple-Monkey-77-Dishwasher")
              sample_hash_round_trip_with_int
              (sample_admin_session [Sample.alice; Sample.root] 1000 eq_refl)
              sample_registers)
    as (_ & Hwaits & _ & Hopens & _); try reflexivity.
  - repeat split; reflexivity.
  - split; [exact Hwaits | exact Hopens].
Defined.

Lemma login_commit_failure_leaves_the_route_witness :
  fst (Routes.login (E := Sample.externals)
         (Sample.login_form "alice" "a guess")
         (with_commit_faults [true] (Sample.world [Sample.alice] 1000)))
  = Raised OperationalError.
Proof.
  refine (proj1 (login_commit_failure_leaves_the_route (E := Sample.externals)
                   (Sample.login_form "alice" "a guess")
                   (with_commit_faults [true] (Sample.world [Sample.alice] 1000))
                   (lit "alice") (lit "a guess") Sample.alice []
                   _ eq_refl eq_refl eq_refl eq_refl)).
  repeat split; reflexivity.
Defined.
